(** * ltt-tracer.c: trace session registry and lifecycle

    A shallow embedding of the tracing management API of ltt/ltt-tracer.c
    (trace setup, configuration, buffer allocation, start/stop, destroy)
    together with the properties of the session registry.

    Conventions.
    - C [int] / [unsigned int] values are [Z]; error codes are the negative
      errno values the kernel uses.
    - The two global lists [ltt_traces.setup_head] and [ltt_traces.head] are
      Rocq lists whose first element is the list head's [next]; a
      [struct ltt_trace *] obtained from a lookup is the position of the
      record in its list, and a store through the pointer is an in-place
      update at that position.
    - Every function of the file runs under [ltt_lock_traces()], so one call
      is one atomic transition of the registry state.
    - Results of calls that leave this file (memory allocation, module
      pinning, the transport's directory callbacks, channel creation, the
      trace clock) are inputs of the transition, collected in small
      environment records.
    - [printk] and [WARN_ON] only report; they are comments here.  Module
      load and unload ([ltt_init], [ltt_exit]) are outside the histories
      considered. *)

From Stdlib Require Import ZArith Lia String Ascii Bool.
From stdpp Require Import base option list gmap.

Local Open Scope Z_scope.

(** ** errno values (include/asm-generic/errno-base.h) *)

Definition EPERM : Z := 1.
Definition ENOENT : Z := 2.
Definition ENOMEM : Z := 12.
Definition EBUSY : Z := 16.
Definition EEXIST : Z := 17.
Definition ENODEV : Z := 19.
Definition EINVAL : Z := 22.

(** linux/limits.h *)
Definition NAME_MAX : nat := 255.

(** ** C strings

    A C string is the sequence of characters before the first NUL.  The
    functions below read a Rocq [string] the way the C library reads a
    buffer: an embedded NUL character ends the string. *)

Definition is_nul (c : ascii) : bool := (nat_of_ascii c =? 0)%nat.

Definition char_diff (c1 c2 : ascii) : Z :=
  Z.of_nat (nat_of_ascii c1) - Z.of_nat (nat_of_ascii c2).

(** The character read at the head of a buffer: NUL at the end. *)
Definition head_char (s : string) : ascii :=
  match s with
  | EmptyString => zero
  | String c _ => c
  end.

Definition tail_str (s : string) : string :=
  match s with
  | EmptyString => EmptyString
  | String _ r => r
  end.

(** [strncmp(s1, s2, n)]: compares at most [n] characters. *)
Fixpoint strncmp (s1 s2 : string) (n : nat) {struct n} : Z :=
  match n with
  | O => 0
  | S n' =>
      let c1 := head_char s1 in
      let c2 := head_char s2 in
      if negb (Ascii.eqb c1 c2) then char_diff c1 c2
      else if is_nul c1 then 0
      else strncmp (tail_str s1) (tail_str s2) n'
  end.

(** [strcmp(s1, s2)]: the recursion is on the first buffer. *)
Fixpoint strcmp (s1 s2 : string) : Z :=
  match s1 with
  | EmptyString => char_diff zero (head_char s2)
  | String c1 r1 =>
      let c2 := head_char s2 in
      if negb (Ascii.eqb c1 c2) then char_diff c1 c2
      else if is_nul c1 then 0
      else strcmp r1 (tail_str s2)
  end.

(** [strncpy(dst, src, n)] into a zeroed destination: the characters of
    [src] before its first NUL, at most [n] of them. *)
Fixpoint strncpy (src : string) (n : nat) {struct n} : string :=
  match n with
  | O => EmptyString
  | S n' =>
      match src with
      | EmptyString => EmptyString
      | String c r => if is_nul c then EmptyString else String c (strncpy r n')
      end
  end.

(** ** Sub-buffer geometry (prepare_chan_size_num) *)

Definition UINT_MOD : Z := 2 ^ 32.

(** Conversion to [unsigned int]. *)
Definition to_uint (x : Z) : Z := x mod UINT_MOD.

(** [fls(x)] of linux/bitops.h: 1-based index of the most significant set
    bit, 0 for 0. *)
Definition fls (x : Z) : Z := if x =? 0 then 0 else Z.log2 x + 1.

(** [get_count_order(count)] of linux/bitops.h:
    [order = fls(count) - 1; if (count & (count - 1)) order++;]
    on an [unsigned int] argument. *)
Definition get_count_order (count : Z) : Z :=
  let order := fls count - 1 in
  if Z.land count (to_uint (count - 1)) =? 0 then order else order + 1.

(** [1 << k] on a 32-bit [int], stored into an [unsigned int].  The shift
    is defined for [0 <= k <= 31] (GNU C gives [1 << 31] the bit pattern
    [0x80000000]); for any other count the C expression has no defined
    value, which is [None] here. *)
Definition shl_one (k : Z) : option Z :=
  if (0 <=? k) && (k <? 32) then Some (to_uint (Z.shiftl 1 k)) else None.

(** [hweight32(x) == 1]: exactly one bit set. *)
Definition is_pow2 (x : Z) : Prop := exists k, 0 <= k /\ x = 2 ^ k.

(** [prepare_chan_size_num(&subbuf_size, &n_subbufs)]; the result is the
    pair of values left in the two [unsigned int] cells, [None] when a
    shift has no defined value.  [page_size] is [PAGE_SIZE]. *)
Definition prepare_chan_size_num (page_size : Z) (subbuf_size n_subbufs : Z)
  : option (Z * Z) :=
  (* Make sure the subbuffer size is larger than a page *)
  let subbuf_size := Z.max (to_uint subbuf_size) (to_uint page_size) in
  (* round to next power of 2 *)
  match shl_one (get_count_order subbuf_size),
        shl_one (get_count_order (to_uint n_subbufs)) with
  | Some s, Some n => Some (s, n)
  | _, _ => None
  end.

(** ** Data model *)

(** A [struct module *]; [NULL] is [None]. *)
Definition module : Type := positive.

(** A callback installed by [ltt_module_register]; [None] is the built-in
    default ([ltt_filter_control_default], [ltt_statedump_default]). *)
Definition functor : Type := option positive.

(** [struct ltt_channel_setting]: the fields this file reads and writes. *)
Record ltt_channel_setting : Type := mk_setting {
  sb_size : Z;
  n_sb : Z;
  overwrite : Z;
  switch_timer_interval : Z;
  read_timer_interval : Z
}.

(** [struct ltt_transport]: name and owning module.  The callbacks of its
    [ops] table run outside this file; their results are inputs. *)
Record ltt_transport : Type := mk_transport {
  tr_name : string;
  tr_owner : option module
}.

(** [struct ltt_trace].  [channels[i]] is the handle returned by
    [ltt_create_channel] (0 is NULL); [ops] points into the transport. *)
Record ltt_trace : Type := mk_trace {
  trace_name : string;
  nr_channels : nat;
  settings : list ltt_channel_setting;
  channels : list Z;
  transport : option ltt_transport;
  ops : option ltt_transport;
  active : Z;
  kref : Z;
  kref_wq : bool;
  freq_scale : Z;
  start_freq : Z;
  start_tsc : Z;
  start_time : Z
}.

Inductive ltt_filter_control_msg : Type :=
| LTT_FILTER_DEFAULT_ACCEPT
| LTT_FILTER_DEFAULT_REJECT
| LTT_FILTER_other (v : Z).

Inductive ltt_module_function : Type :=
| LTT_FUNCTION_RUN_FILTER
| LTT_FUNCTION_FILTER_CONTROL
| LTT_FUNCTION_STATEDUMP.

(** Calls into collaborators whose effect is outside this file, in the
    order they are made (most recent first). *)
Inductive event : Type :=
| Ev_vmalloc_sync_all
| Ev_synchronize_trace
| Ev_create_dirs (trace : string)
| Ev_remove_dirs (trace : string)
| Ev_create_channel (trace : string) (chan : nat) (geometry : option (Z * Z))
    (overwrite switch_timer read_timer : Z)
| Ev_channel_destroy (handle : Z)
| Ev_channels_trace_free (trace : string)
| Ev_dump_marker_state (trace : string)
| Ev_statedump (trace : string)
| Ev_filter_control (msg : ltt_filter_control_msg) (trace : string).

(** The global state of the file: [ltt_traces] (two lists and the counter
    of active traces), the transport list, the three callback slots, and
    the pieces of kernel state the file drives: module reference counts,
    the users of the trace clock and the per-task kernel trace flag. *)
Record ltt_state : Type := mk_state {
  setup_head : list ltt_trace;
  head : list ltt_trace;
  num_active_traces : Z;
  kernel_trace_flag : bool;
  ltt_transport_list : list ltt_transport;
  ltt_run_filter_functor : functor;
  ltt_run_filter_owner : option module;
  ltt_filter_control_functor : functor;
  ltt_filter_control_owner : option module;
  ltt_statedump_functor : functor;
  ltt_statedump_owner : option module;
  module_refs : gmap module Z;
  trace_clock_users : Z;
  events : list event
}.

Definition ltt_init_state : ltt_state :=
  {| setup_head := []; head := []; num_active_traces := 0;
     kernel_trace_flag := false; ltt_transport_list := [];
     ltt_run_filter_functor := None; ltt_run_filter_owner := None;
     ltt_filter_control_functor := None; ltt_filter_control_owner := None;
     ltt_statedump_functor := None; ltt_statedump_owner := None;
     module_refs := ∅; trace_clock_users := 0; events := [] |}.

(** *** Field stores *)

Definition set_overwrite (v : Z) (s : ltt_channel_setting) :=
  mk_setting (sb_size s) (n_sb s) v (switch_timer_interval s)
    (read_timer_interval s).
Definition set_sb_size (v : Z) (s : ltt_channel_setting) :=
  mk_setting v (n_sb s) (overwrite s) (switch_timer_interval s)
    (read_timer_interval s).
Definition set_n_sb (v : Z) (s : ltt_channel_setting) :=
  mk_setting (sb_size s) v (overwrite s) (switch_timer_interval s)
    (read_timer_interval s).
Definition set_switch_timer_interval (v : Z) (s : ltt_channel_setting) :=
  mk_setting (sb_size s) (n_sb s) (overwrite s) v (read_timer_interval s).

Definition set_settings (v : list ltt_channel_setting) (t : ltt_trace) :=
  mk_trace (trace_name t) (nr_channels t) v (channels t) (transport t)
    (ops t) (active t) (kref t) (kref_wq t) (freq_scale t) (start_freq t)
    (start_tsc t) (start_time t).
Definition set_channels (v : list Z) (t : ltt_trace) :=
  mk_trace (trace_name t) (nr_channels t) (settings t) v (transport t)
    (ops t) (active t) (kref t) (kref_wq t) (freq_scale t) (start_freq t)
    (start_tsc t) (start_time t).
Definition set_transport (v : option ltt_transport) (t : ltt_trace) :=
  mk_trace (trace_name t) (nr_channels t) (settings t) (channels t) v
    (ops t) (active t) (kref t) (kref_wq t) (freq_scale t) (start_freq t)
    (start_tsc t) (start_time t).
Definition set_ops (v : option ltt_transport) (t : ltt_trace) :=
  mk_trace (trace_name t) (nr_channels t) (settings t) (channels t)
    (transport t) v (active t) (kref t) (kref_wq t) (freq_scale t)
    (start_freq t) (start_tsc t) (start_time t).
Definition set_active (v : Z) (t : ltt_trace) :=
  mk_trace (trace_name t) (nr_channels t) (settings t) (channels t)
    (transport t) (ops t) v (kref t) (kref_wq t) (freq_scale t)
    (start_freq t) (start_tsc t) (start_time t).
Definition set_kref (v : Z) (t : ltt_trace) :=
  mk_trace (trace_name t) (nr_channels t) (settings t) (channels t)
    (transport t) (ops t) (active t) v (kref_wq t) (freq_scale t)
    (start_freq t) (start_tsc t) (start_time t).
Definition set_kref_wq (v : bool) (t : ltt_trace) :=
  mk_trace (trace_name t) (nr_channels t) (settings t) (channels t)
    (transport t) (ops t) (active t) (kref t) v (freq_scale t)
    (start_freq t) (start_tsc t) (start_time t).
Definition set_freq_scale (v : Z) (t : ltt_trace) :=
  mk_trace (trace_name t) (nr_channels t) (settings t) (channels t)
    (transport t) (ops t) (active t) (kref t) (kref_wq t) v
    (start_freq t) (start_tsc t) (start_time t).
Definition set_start_stamps (f c w : Z) (t : ltt_trace) :=
  mk_trace (trace_name t) (nr_channels t) (settings t) (channels t)
    (transport t) (ops t) (active t) (kref t) (kref_wq t) (freq_scale t)
    f c w.

Definition with_setup_head (v : list ltt_trace) (st : ltt_state) :=
  mk_state v (head st) (num_active_traces st) (kernel_trace_flag st)
    (ltt_transport_list st) (ltt_run_filter_functor st)
    (ltt_run_filter_owner st) (ltt_filter_control_functor st)
    (ltt_filter_control_owner st) (ltt_statedump_functor st)
    (ltt_statedump_owner st) (module_refs st) (trace_clock_users st)
    (events st).
Definition with_head (v : list ltt_trace) (st : ltt_state) :=
  mk_state (setup_head st) v (num_active_traces st) (kernel_trace_flag st)
    (ltt_transport_list st) (ltt_run_filter_functor st)
    (ltt_run_filter_owner st) (ltt_filter_control_functor st)
    (ltt_filter_control_owner st) (ltt_statedump_functor st)
    (ltt_statedump_owner st) (module_refs st) (trace_clock_users st)
    (events st).
Definition with_num_active_traces (v : Z) (st : ltt_state) :=
  mk_state (setup_head st) (head st) v (kernel_trace_flag st)
    (ltt_transport_list st) (ltt_run_filter_functor st)
    (ltt_run_filter_owner st) (ltt_filter_control_functor st)
    (ltt_filter_control_owner st) (ltt_statedump_functor st)
    (ltt_statedump_owner st) (module_refs st) (trace_clock_users st)
    (events st).
Definition with_kernel_trace_flag (v : bool) (st : ltt_state) :=
  mk_state (setup_head st) (head st) (num_active_traces st) v
    (ltt_transport_list st) (ltt_run_filter_functor st)
    (ltt_run_filter_owner st) (ltt_filter_control_functor st)
    (ltt_filter_control_owner st) (ltt_statedump_functor st)
    (ltt_statedump_owner st) (module_refs st) (trace_clock_users st)
    (events st).
Definition with_transport_list (v : list ltt_transport) (st : ltt_state) :=
  mk_state (setup_head st) (head st) (num_active_traces st)
    (kernel_trace_flag st) v (ltt_run_filter_functor st)
    (ltt_run_filter_owner st) (ltt_filter_control_functor st)
    (ltt_filter_control_owner st) (ltt_statedump_functor st)
    (ltt_statedump_owner st) (module_refs st) (trace_clock_users st)
    (events st).
Definition with_run_filter (f : functor) (o : option module)
    (st : ltt_state) :=
  mk_state (setup_head st) (head st) (num_active_traces st)
    (kernel_trace_flag st) (ltt_transport_list st) f o
    (ltt_filter_control_functor st) (ltt_filter_control_owner st)
    (ltt_statedump_functor st) (ltt_statedump_owner st) (module_refs st)
    (trace_clock_users st) (events st).
Definition with_filter_control (f : functor) (o : option module)
    (st : ltt_state) :=
  mk_state (setup_head st) (head st) (num_active_traces st)
    (kernel_trace_flag st) (ltt_transport_list st)
    (ltt_run_filter_functor st) (ltt_run_filter_owner st) f o
    (ltt_statedump_functor st) (ltt_statedump_owner st) (module_refs st)
    (trace_clock_users st) (events st).
Definition with_statedump (f : functor) (o : option module)
    (st : ltt_state) :=
  mk_state (setup_head st) (head st) (num_active_traces st)
    (kernel_trace_flag st) (ltt_transport_list st)
    (ltt_run_filter_functor st) (ltt_run_filter_owner st)
    (ltt_filter_control_functor st) (ltt_filter_control_owner st) f o
    (module_refs st) (trace_clock_users st) (events st).
Definition with_module_refs (v : gmap module Z) (st : ltt_state) :=
  mk_state (setup_head st) (head st) (num_active_traces st)
    (kernel_trace_flag st) (ltt_transport_list st)
    (ltt_run_filter_functor st) (ltt_run_filter_owner st)
    (ltt_filter_control_functor st) (ltt_filter_control_owner st)
    (ltt_statedump_functor st) (ltt_statedump_owner st) v
    (trace_clock_users st) (events st).
Definition with_trace_clock_users (v : Z) (st : ltt_state) :=
  mk_state (setup_head st) (head st) (num_active_traces st)
    (kernel_trace_flag st) (ltt_transport_list st)
    (ltt_run_filter_functor st) (ltt_run_filter_owner st)
    (ltt_filter_control_functor st) (ltt_filter_control_owner st)
    (ltt_statedump_functor st) (ltt_statedump_owner st) (module_refs st) v
    (events st).
Definition with_events (v : list event) (st : ltt_state) :=
  mk_state (setup_head st) (head st) (num_active_traces st)
    (kernel_trace_flag st) (ltt_transport_list st)
    (ltt_run_filter_functor st) (ltt_run_filter_owner st)
    (ltt_filter_control_functor st) (ltt_filter_control_owner st)
    (ltt_statedump_functor st) (ltt_statedump_owner st) (module_refs st)
    (trace_clock_users st) v.

(** A call into a collaborator is recorded in front of the earlier ones. *)
Definition emit (e : event) (st : ltt_state) :=
  with_events (e :: events st) st.

(** *** Kernel services *)

(** [synchronize_trace()]: wait for a quiescent state. *)
Definition synchronize_trace (st : ltt_state) : ltt_state :=
  emit Ev_synchronize_trace st.

Definition get_trace_clock (st : ltt_state) : ltt_state :=
  with_trace_clock_users (trace_clock_users st + 1) st.
Definition put_trace_clock (st : ltt_state) : ltt_state :=
  with_trace_clock_users (trace_clock_users st - 1) st.

Definition set_kernel_trace_flag_all_tasks (st : ltt_state) : ltt_state :=
  with_kernel_trace_flag true st.
Definition clear_kernel_trace_flag_all_tasks (st : ltt_state) : ltt_state :=
  with_kernel_trace_flag false st.

(** The reference count of a module; no entry is a count of 0. *)
Definition module_refcount (st : ltt_state) (m : module) : Z :=
  default 0 (module_refs st !! m).

(** [try_module_get(m)]: succeeds on NULL; on a module, takes a reference
    when the module is live ([live] is the kernel's answer). *)
Definition try_module_get (m : option module) (live : bool)
    (st : ltt_state) : bool * ltt_state :=
  match m with
  | None => (true, st)
  | Some m =>
      if live
      then (true, with_module_refs
                    (<[m := module_refcount st m + 1]> (module_refs st)) st)
      else (false, st)
  end.

(** [module_put(m)]: drops a reference, nothing on NULL. *)
Definition module_put (m : option module) (st : ltt_state) : ltt_state :=
  match m with
  | None => st
  | Some m =>
      with_module_refs
        (<[m := module_refcount st m - 1]> (module_refs st)) st
  end.

(** [IS_ERR_VALUE(x)] on an [int]: the values [-MAX_ERRNO .. -1]. *)
Definition IS_ERR_VALUE (x : Z) : bool := (-4095 <=? x) && (x <? 0).

(** ** Channel preset table *)

(** The constants this file takes from the kernel configuration and from
    ltt-tracer.h, and the channels registered with ltt-channels.c (the
    position of a name in [registered_channels] is the channel's index). *)
Record kernel_config : Type := mk_config {
  PAGE_SIZE : Z;
  LTT_DEFAULT_SUBBUF_SIZE_LOW : Z;
  LTT_DEFAULT_N_SUBBUFS_LOW : Z;
  LTT_DEFAULT_SUBBUF_SIZE_MED : Z;
  LTT_DEFAULT_N_SUBBUFS_MED : Z;
  LTT_DEFAULT_SUBBUF_SIZE_HIGH : Z;
  LTT_DEFAULT_N_SUBBUFS_HIGH : Z;
  registered_channels : list string
}.

Inductive ltt_channels : Type :=
| LTT_CHANNEL_METADATA
| LTT_CHANNEL_FD_STATE
| LTT_CHANNEL_GLOBAL_STATE
| LTT_CHANNEL_IRQ_STATE
| LTT_CHANNEL_MODULE_STATE
| LTT_CHANNEL_NETIF_STATE
| LTT_CHANNEL_SOFTIRQ_STATE
| LTT_CHANNEL_SWAP_STATE
| LTT_CHANNEL_SYSCALL_STATE
| LTT_CHANNEL_TASK_STATE
| LTT_CHANNEL_VM_STATE
| LTT_CHANNEL_FS
| LTT_CHANNEL_INPUT
| LTT_CHANNEL_IPC
| LTT_CHANNEL_KERNEL
| LTT_CHANNEL_MM
| LTT_CHANNEL_RCU
| LTT_CHANNEL_DEFAULT.

(** Modelled from the spec: the channel-name macros of ltt-tracer.h, which
    is not part of the sources at hand.  The preset table is keyed by
    channel name; the strings are the names the tracer gives its channels. *)
Definition LTT_METADATA_CHANNEL : string := "metadata".
Definition LTT_FD_STATE_CHANNEL : string := "fd_state".
Definition LTT_GLOBAL_STATE_CHANNEL : string := "global_state".
Definition LTT_IRQ_STATE_CHANNEL : string := "irq_state".
Definition LTT_MODULE_STATE_CHANNEL : string := "module_state".
Definition LTT_NETIF_STATE_CHANNEL : string := "netif_state".
Definition LTT_SOFTIRQ_STATE_CHANNEL : string := "softirq_state".
Definition LTT_SWAP_STATE_CHANNEL : string := "swap_state".
Definition LTT_SYSCALL_STATE_CHANNEL : string := "syscall_state".
Definition LTT_TASK_STATE_CHANNEL : string := "task_state".
Definition LTT_VM_STATE_CHANNEL : string := "vm_state".
Definition LTT_FS_CHANNEL : string := "fs".
Definition LTT_INPUT_CHANNEL : string := "input".
Definition LTT_IPC_CHANNEL : string := "ipc".
Definition LTT_KERNEL_CHANNEL : string := "kernel".
Definition LTT_MM_CHANNEL : string := "mm".
Definition LTT_RCU_CHANNEL : string := "rcu".

Record chan_info_struct : Type := mk_chan_info {
  ci_name : option string;
  def_sb_size : Z;
  def_n_sb : Z
}.

Section Tracer.

Variable K : kernel_config.

(** The designated-initializer table [chan_infos[]], indexed by the enum. *)
Definition chan_infos (chantype : ltt_channels) : chan_info_struct :=
  match chantype with
  | LTT_CHANNEL_METADATA =>
      mk_chan_info (Some LTT_METADATA_CHANNEL)
        (LTT_DEFAULT_SUBBUF_SIZE_LOW K) (LTT_DEFAULT_N_SUBBUFS_LOW K)
  | LTT_CHANNEL_FD_STATE =>
      mk_chan_info (Some LTT_FD_STATE_CHANNEL)
        (LTT_DEFAULT_SUBBUF_SIZE_LOW K) (LTT_DEFAULT_N_SUBBUFS_LOW K)
  | LTT_CHANNEL_GLOBAL_STATE =>
      mk_chan_info (Some LTT_GLOBAL_STATE_CHANNEL)
        (LTT_DEFAULT_SUBBUF_SIZE_LOW K) (LTT_DEFAULT_N_SUBBUFS_LOW K)
  | LTT_CHANNEL_IRQ_STATE =>
      mk_chan_info (Some LTT_IRQ_STATE_CHANNEL)
        (LTT_DEFAULT_SUBBUF_SIZE_LOW K) (LTT_DEFAULT_N_SUBBUFS_LOW K)
  | LTT_CHANNEL_MODULE_STATE =>
      mk_chan_info (Some LTT_MODULE_STATE_CHANNEL)
        (LTT_DEFAULT_SUBBUF_SIZE_LOW K) (LTT_DEFAULT_N_SUBBUFS_LOW K)
  | LTT_CHANNEL_NETIF_STATE =>
      mk_chan_info (Some LTT_NETIF_STATE_CHANNEL)
        (LTT_DEFAULT_SUBBUF_SIZE_LOW K) (LTT_DEFAULT_N_SUBBUFS_LOW K)
  | LTT_CHANNEL_SOFTIRQ_STATE =>
      mk_chan_info (Some LTT_SOFTIRQ_STATE_CHANNEL)
        (LTT_DEFAULT_SUBBUF_SIZE_LOW K) (LTT_DEFAULT_N_SUBBUFS_LOW K)
  | LTT_CHANNEL_SWAP_STATE =>
      mk_chan_info (Some LTT_SWAP_STATE_CHANNEL)
        (LTT_DEFAULT_SUBBUF_SIZE_LOW K) (LTT_DEFAULT_N_SUBBUFS_LOW K)
  | LTT_CHANNEL_SYSCALL_STATE =>
      mk_chan_info (Some LTT_SYSCALL_STATE_CHANNEL)
        (LTT_DEFAULT_SUBBUF_SIZE_LOW K) (LTT_DEFAULT_N_SUBBUFS_LOW K)
  | LTT_CHANNEL_TASK_STATE =>
      mk_chan_info (Some LTT_TASK_STATE_CHANNEL)
        (LTT_DEFAULT_SUBBUF_SIZE_LOW K) (LTT_DEFAULT_N_SUBBUFS_LOW K)
  | LTT_CHANNEL_VM_STATE =>
      mk_chan_info (Some LTT_VM_STATE_CHANNEL)
        (LTT_DEFAULT_SUBBUF_SIZE_MED K) (LTT_DEFAULT_N_SUBBUFS_MED K)
  | LTT_CHANNEL_FS =>
      mk_chan_info (Some LTT_FS_CHANNEL)
        (LTT_DEFAULT_SUBBUF_SIZE_MED K) (LTT_DEFAULT_N_SUBBUFS_MED K)
  | LTT_CHANNEL_INPUT =>
      mk_chan_info (Some LTT_INPUT_CHANNEL)
        (LTT_DEFAULT_SUBBUF_SIZE_LOW K) (LTT_DEFAULT_N_SUBBUFS_LOW K)
  | LTT_CHANNEL_IPC =>
      mk_chan_info (Some LTT_IPC_CHANNEL)
        (LTT_DEFAULT_SUBBUF_SIZE_LOW K) (LTT_DEFAULT_N_SUBBUFS_LOW K)
  | LTT_CHANNEL_KERNEL =>
      mk_chan_info (Some LTT_KERNEL_CHANNEL)
        (LTT_DEFAULT_SUBBUF_SIZE_HIGH K) (LTT_DEFAULT_N_SUBBUFS_HIGH K)
  | LTT_CHANNEL_MM =>
      mk_chan_info (Some LTT_MM_CHANNEL)
        (LTT_DEFAULT_SUBBUF_SIZE_MED K) (LTT_DEFAULT_N_SUBBUFS_MED K)
  | LTT_CHANNEL_RCU =>
      mk_chan_info (Some LTT_RCU_CHANNEL)
        (LTT_DEFAULT_SUBBUF_SIZE_MED K) (LTT_DEFAULT_N_SUBBUFS_MED K)
  | LTT_CHANNEL_DEFAULT =>
      mk_chan_info None
        (LTT_DEFAULT_SUBBUF_SIZE_MED K) (LTT_DEFAULT_N_SUBBUFS_MED K)
  end.

(** The indices [0 .. ARRAY_SIZE(chan_infos) - 1] in order. *)
Definition chan_infos_indices : list ltt_channels :=
  [ LTT_CHANNEL_METADATA;
    LTT_CHANNEL_FD_STATE;
    LTT_CHANNEL_GLOBAL_STATE;
    LTT_CHANNEL_IRQ_STATE;
    LTT_CHANNEL_MODULE_STATE;
    LTT_CHANNEL_NETIF_STATE;
    LTT_CHANNEL_SOFTIRQ_STATE;
    LTT_CHANNEL_SWAP_STATE;
    LTT_CHANNEL_SYSCALL_STATE;
    LTT_CHANNEL_TASK_STATE;
    LTT_CHANNEL_VM_STATE;
    LTT_CHANNEL_FS;
    LTT_CHANNEL_INPUT;
    LTT_CHANNEL_IPC;
    LTT_CHANNEL_KERNEL;
    LTT_CHANNEL_MM;
    LTT_CHANNEL_RCU;
    LTT_CHANNEL_DEFAULT ].

(** [get_channel_type_from_name(name)]; [None] is a NULL name. *)
Definition get_channel_type_from_name (name : option string) : ltt_channels :=
  match name with
  | None => LTT_CHANNEL_DEFAULT
  | Some name =>
      let hit (i : ltt_channels) : bool :=
        match ci_name (chan_infos i) with
        | Some n => strcmp name n =? 0
        | None => false
        end in
      match list_find (fun i => hit i = true) chan_infos_indices with
      | Some (_, i) => i
      | None => LTT_CHANNEL_DEFAULT
      end
  end.

(** Modelled from the spec: the channel registry of ltt-channels.c, which is
    not part of the sources at hand.  A channel is looked up by exact name
    and its index is its position among the registered channels; -1 when
    the name is unknown. *)
Definition ltt_channels_get_index_from_name (name : string) : Z :=
  match list_find (fun c => strcmp c name = 0) (registered_channels K) with
  | Some (i, _) => Z.of_nat i
  | None => -1
  end.

(** Modelled from the spec: the inverse lookup of ltt-channels.c; [None] is
    the NULL returned for an index without a channel. *)
Definition ltt_channels_get_name_from_index (index : nat) : option string :=
  registered_channels K !! index.

(** Modelled from the spec: [ltt_channels_trace_set_timer] of
    ltt-channels.c stores the switch-timer interval of the setting. *)
Definition ltt_channels_trace_set_timer (interval : Z)
    (s : ltt_channel_setting) : ltt_channel_setting :=
  set_switch_timer_interval interval s.

(** [a[i] = f(a[i])] with a C [int] index.  A store outside the array has
    no defined effect on the array and leaves the list as it is. *)
Definition array_update {A} (f : A -> A) (i : Z) (a : list A) : list A :=
  if i <? 0 then a else alter f (Z.to_nat i) a.

(** ** Lookups *)

Definition name_matches (name : string) (t : ltt_trace) : Prop :=
  strncmp (trace_name t) name NAME_MAX = 0.

#[global] Instance name_matches_dec name t : Decision (name_matches name t).
Proof. unfold name_matches. apply _. Defined.

(** [_ltt_trace_find]: first trace of the active list with that name; the
    result is the position and the record, [None] is NULL. *)
Definition _ltt_trace_find (st : ltt_state) (name : string)
  : option (nat * ltt_trace) :=
  list_find (name_matches name) (head st).

(** [_ltt_trace_find_setup]: the same on the setup list. *)
Definition _ltt_trace_find_setup (st : ltt_state) (name : string)
  : option (nat * ltt_trace) :=
  list_find (name_matches name) (setup_head st).

(** Stores through a [struct ltt_trace *] into the list it points into. *)
Definition store_setup (i : nat) (t : ltt_trace) (st : ltt_state) :=
  with_setup_head (<[i := t]> (setup_head st)) st.
Definition store_active (i : nat) (t : ltt_trace) (st : ltt_state) :=
  with_head (<[i := t]> (head st)) st.

(** ** Registration of callbacks and transports *)

(** [ltt_module_register(name, function, owner)] *)
Definition ltt_module_register (st : ltt_state) (name : ltt_module_function)
    (function : functor) (owner : option module) : ltt_state * Z :=
  let st := emit Ev_vmalloc_sync_all st in
  match name with
  | LTT_FUNCTION_RUN_FILTER =>
      match ltt_run_filter_owner st with
      | Some _ => (st, - EEXIST)
      | None => (with_run_filter function owner st, 0)
      end
  | LTT_FUNCTION_FILTER_CONTROL =>
      match ltt_filter_control_owner st with
      | Some _ => (st, - EEXIST)
      | None => (with_filter_control function owner st, 0)
      end
  | LTT_FUNCTION_STATEDUMP =>
      match ltt_statedump_owner st with
      | Some _ => (st, - EEXIST)
      | None => (with_statedump function owner st, 0)
      end
  end.

(** [ltt_module_unregister(name)] *)
Definition ltt_module_unregister (st : ltt_state)
    (name : ltt_module_function) : ltt_state :=
  match name with
  | LTT_FUNCTION_RUN_FILTER =>
      (* Wait for preempt sections to finish *)
      synchronize_trace (with_run_filter None None st)
  | LTT_FUNCTION_FILTER_CONTROL => with_filter_control None None st
  | LTT_FUNCTION_STATEDUMP => with_statedump None None st
  end.

#[global] Instance ltt_transport_eq_dec : EqDecision ltt_transport.
Proof. solve_decision. Defined.

(** [ltt_transport_register(transport)]: [list_add_tail]. *)
Definition ltt_transport_register (st : ltt_state)
    (transport : ltt_transport) : ltt_state :=
  let st := emit Ev_vmalloc_sync_all st in
  with_transport_list (ltt_transport_list st ++ [transport]) st.

(** [list_del(&transport->node)]: the node leaves the list. *)
Fixpoint list_del_transport (t : ltt_transport) (l : list ltt_transport)
  : list ltt_transport :=
  match l with
  | [] => []
  | x :: r => if decide (x = t) then r else x :: list_del_transport t r
  end.

(** [ltt_transport_unregister(transport)] *)
Definition ltt_transport_unregister (st : ltt_state)
    (transport : ltt_transport) : ltt_state :=
  with_transport_list (list_del_transport transport (ltt_transport_list st))
    st.

(** ** Trace setup *)

(** Inputs of [_ltt_trace_setup]: whether [kzalloc] returned memory, the
    return value of [ltt_channels_trace_alloc] (0 on success) and the
    content of the settings array it hands out. *)
Record setup_env : Type := mk_setup_env {
  kzalloc_ok : bool;
  channels_trace_alloc_ret : Z;
  fresh_settings : nat -> ltt_channel_setting
}.

(** The loop "Set hardcoded tracer defaults for some channels". *)
Definition set_channel_defaults (t : ltt_trace) : ltt_trace :=
  foldl
    (fun t chan =>
       let chantype :=
         get_channel_type_from_name (ltt_channels_get_name_from_index chan) in
       set_settings
         (alter (fun s =>
                   set_n_sb (def_n_sb (chan_infos chantype))
                     (set_sb_size (def_sb_size (chan_infos chantype)) s))
            chan (settings t)) t)
    t (seq 0 (nr_channels t)).

(** [_ltt_trace_setup(trace_name)].  The record comes zeroed from
    [kzalloc]; [ltt_channels_trace_alloc] sizes it to the registered
    channels. *)
Definition _ltt_trace_setup (st : ltt_state) (name : string)
    (env : setup_env) : ltt_state * Z :=
  match _ltt_trace_find_setup st name with
  | Some _ => (st, - EEXIST)
  | None =>
  match _ltt_trace_find st name with
  | Some _ => (st, - EEXIST)
  | None =>
  if negb (kzalloc_ok env) then (st, - ENOMEM) else
  let new_trace :=
    mk_trace (strncpy name NAME_MAX) 0 [] [] None None 0 0 false 0 0 0 0 in
  if negb (channels_trace_alloc_ret env =? 0) then
    (* trace_free: kfree(new_trace) *)
    (st, - ENOMEM)
  else
  let nr := length (registered_channels K) in
  let new_trace :=
    mk_trace (trace_name new_trace) nr
      (map (fresh_settings env) (seq 0 nr)) (replicate nr 0)
      None None 0 0 false 0 0 0 0 in
  (* Force metadata channel to no overwrite. *)
  let metadata_index := ltt_channels_get_index_from_name "metadata" in
  let new_trace :=
    set_settings
      (array_update (set_overwrite 0) metadata_index (settings new_trace))
      new_trace in
  (* Set hardcoded tracer defaults for some channels *)
  let new_trace := set_channel_defaults new_trace in
  (with_setup_head (new_trace :: setup_head st) st, 0)
  end end.

(** [ltt_trace_setup]: the same under the traces lock. *)
Definition ltt_trace_setup (st : ltt_state) (name : string)
    (env : setup_env) : ltt_state * Z :=
  _ltt_trace_setup st name env.

(** [_ltt_trace_free]: [list_del] from the setup list and [kfree]. *)
Definition _ltt_trace_free (st : ltt_state) (i : nat) : ltt_state :=
  with_setup_head (delete i (setup_head st)) st.

(** ** Configuration of a trace in the setup list *)

(** [ltt_trace_set_type(trace_name, trace_type)] *)
Definition ltt_trace_set_type (st : ltt_state) (name trace_type : string)
  : ltt_state * Z :=
  match _ltt_trace_find_setup st name with
  | None => (st, - ENOENT)
  | Some (i, trace) =>
      match list_find (fun tran_iter => strcmp (tr_name tran_iter) trace_type = 0)
              (ltt_transport_list st) with
      | None => (st, - EINVAL)
      | Some (_, transport) =>
          (store_setup i (set_transport (Some transport) trace) st, 0)
      end
  end.

(** [ltt_trace_set_channel_subbufsize(trace_name, channel_name, size)] *)
Definition ltt_trace_set_channel_subbufsize (st : ltt_state)
    (name channel_name : string) (size : Z) : ltt_state * Z :=
  match _ltt_trace_find_setup st name with
  | None => (st, - ENOENT)
  | Some (i, trace) =>
      let index := ltt_channels_get_index_from_name channel_name in
      if index <? 0 then (st, - ENOENT)
      else
        (store_setup i
           (set_settings
              (array_update (set_sb_size size) index (settings trace)) trace)
           st, 0)
  end.

(** [ltt_trace_set_channel_subbufcount(trace_name, channel_name, cnt)] *)
Definition ltt_trace_set_channel_subbufcount (st : ltt_state)
    (name channel_name : string) (cnt : Z) : ltt_state * Z :=
  match _ltt_trace_find_setup st name with
  | None => (st, - ENOENT)
  | Some (i, trace) =>
      let index := ltt_channels_get_index_from_name channel_name in
      if index <? 0 then (st, - ENOENT)
      else
        (store_setup i
           (set_settings
              (array_update (set_n_sb cnt) index (settings trace)) trace)
           st, 0)
  end.

(** [ltt_trace_set_channel_switch_timer(trace_name, channel_name, interval)] *)
Definition ltt_trace_set_channel_switch_timer (st : ltt_state)
    (name channel_name : string) (interval : Z) : ltt_state * Z :=
  match _ltt_trace_find_setup st name with
  | None => (st, - ENOENT)
  | Some (i, trace) =>
      let index := ltt_channels_get_index_from_name channel_name in
      if index <? 0 then (st, - ENOENT)
      else
        (store_setup i
           (set_settings
              (array_update (ltt_channels_trace_set_timer interval) index
                 (settings trace)) trace)
           st, 0)
  end.

(** [ltt_trace_set_channel_overwrite(trace_name, channel_name, overwrite)] *)
Definition ltt_trace_set_channel_overwrite (st : ltt_state)
    (name channel_name : string) (overwrite : Z) : ltt_state * Z :=
  match _ltt_trace_find_setup st name with
  | None => (st, - ENOENT)
  | Some (i, trace) =>
      (* Always put the metadata channel in non-overwrite mode *)
      if negb (overwrite =? 0) && (strcmp channel_name "metadata" =? 0)
      then (st, - EINVAL)
      else
        let index := ltt_channels_get_index_from_name channel_name in
        if index <? 0 then (st, - ENOENT)
        else
          (store_setup i
             (set_settings
                (array_update (set_overwrite overwrite) index
                   (settings trace)) trace)
             st, 0)
  end.

(** ** Buffer allocation *)

(** Inputs of [ltt_trace_alloc]: whether the transport's module is live,
    the return value of [create_dirs], the handle [ltt_create_channel]
    returns for each channel index (0 is NULL), and the trace clock. *)
Record alloc_env : Type := mk_alloc_env {
  transport_live : bool;
  create_dirs_ret : Z;
  create_channel_ret : nat -> Z;
  clock_freq_scale : Z;
  clock_frequency : Z;
  clock_read64 : Z;
  gettimeofday : Z
}.

Definition zero_setting : ltt_channel_setting := mk_setting 0 0 0 0 0.

(** The body of the channel loop up to the test of [err]: the geometry is
    normalised and handed to [ltt_create_channel], whose result is stored
    in [trace->channels[chan]]. *)
Definition create_one_channel (env : alloc_env) (chan : nat)
    (trace : ltt_trace) (st : ltt_state) : ltt_trace * ltt_state :=
  let s := default zero_setting (settings trace !! chan) in
  let geometry :=
    prepare_chan_size_num (PAGE_SIZE K) (sb_size s) (n_sb s) in
  let st :=
    emit (Ev_create_channel (trace_name trace) chan geometry (overwrite s)
            (switch_timer_interval s) (read_timer_interval s)) st in
  (set_channels (<[chan := create_channel_ret env chan]> (channels trace))
     trace, st).

(** The channel loop.  [err] is the local variable of [ltt_trace_alloc];
    the loop tests it after each creation and never assigns it.  The third
    component is the value of [chan] at [goto create_channel_error], [None]
    when the loop runs to its end. *)
Fixpoint create_channels (env : alloc_env) (err : Z) (chans : list nat)
    (trace : ltt_trace) (st : ltt_state)
  : ltt_trace * ltt_state * option nat :=
  match chans with
  | [] => (trace, st, None)
  | chan :: rest =>
      let '(trace, st) := create_one_channel env chan trace st in
      if negb (err =? 0) then (trace, st, Some chan)
      else create_channels env err rest trace st
  end.

(** [for (chan--; chan >= 0; chan--) ltt_channel_destroy(trace->channels[chan]);] *)
Definition destroy_created_channels (trace : ltt_trace) (chan : nat)
    (st : ltt_state) : ltt_state :=
  foldl (fun st c => emit (Ev_channel_destroy (default 0 (channels trace !! c))) st)
    st (reverse (seq 0 chan)).

(** [ltt_trace_alloc(trace_name)] *)
Definition ltt_trace_alloc (st : ltt_state) (name : string)
    (env : alloc_env) : ltt_state * Z :=
  match _ltt_trace_find_setup st name with
  | None => (st, - ENOENT)
  | Some (i, trace) =>
      let trace := set_active 0 (set_kref_wq true (set_kref 1 trace)) in
      let st := get_trace_clock st in
      let trace := set_freq_scale (clock_freq_scale env) trace in
      match transport trace with
      | None =>
          (* transport_error *)
          (put_trace_clock (store_setup i trace st), - EINVAL)
      | Some tr =>
          let '(pinned, st) :=
            try_module_get (tr_owner tr) (transport_live env) st in
          if negb pinned then
            (* transport_error *)
            (put_trace_clock (store_setup i trace st), - ENODEV)
          else
            let trace := set_ops (Some tr) trace in
            let st := emit (Ev_create_dirs (trace_name trace)) st in
            let err := create_dirs_ret env in
            if negb (err =? 0) then
              (* dirs_error *)
              (put_trace_clock
                 (module_put (tr_owner tr) (store_setup i trace st)), err)
            else
              let trace :=
                set_start_stamps (clock_frequency env) (clock_read64 env)
                  (gettimeofday env) trace in
              let '(trace, st, failed) :=
                create_channels env err (seq 0 (nr_channels trace)) trace st in
              match failed with
              | Some chan =>
                  (* create_channel_error *)
                  let st := destroy_created_channels trace chan st in
                  let st := emit (Ev_remove_dirs (trace_name trace)) st in
                  (put_trace_clock
                     (module_put (tr_owner tr) (store_setup i trace st)), err)
              | None =>
                  let st := with_setup_head (delete i (setup_head st)) st in
                  let st :=
                    match head st with
                    | [] => set_kernel_trace_flag_all_tasks st
                    | _ :: _ => st
                    end in
                  let st := with_head (trace :: head st) st in
                  (synchronize_trace st, 0)
              end
      end
  end.

(** ** Destruction *)

(** [_ltt_trace_destroy(trace)]; [trace] points into the active list. *)
Definition _ltt_trace_destroy (st : ltt_state)
    (trace : option (nat * ltt_trace)) : ltt_state * Z :=
  match trace with
  | None => (st, - ENOENT)
  | Some (i, trace) =>
      if negb (active trace =? 0) then (st, - EBUSY)
      else
        (* Everything went fine *)
        let st := with_head (delete i (head st)) st in
        let st := synchronize_trace st in
        match head st with
        | [] => (clear_kernel_trace_flag_all_tasks st, 0)
        | _ :: _ => (st, 0)
        end
  end.

(** [ltt_release_trace]: runs when the last reference is dropped. *)
Definition ltt_release_trace (trace : ltt_trace) (st : ltt_state)
  : ltt_state :=
  let st := emit (Ev_remove_dirs (trace_name trace)) st in
  let st :=
    match transport trace with
    | Some tr => module_put (tr_owner tr) st
    | None => st
    end in
  emit (Ev_channels_trace_free (trace_name trace)) st.

(** [__ltt_trace_destroy(trace)]: the sleepable part; [trace] has left the
    lists.  [kref_put] releases the trace when the count drops to zero. *)
Definition __ltt_trace_destroy (st : ltt_state) (trace : ltt_trace)
  : ltt_state :=
  let st :=
    foldl (fun st i => emit (Ev_channel_destroy (default 0 (channels trace !! i))) st)
      st (seq 0 (nr_channels trace)) in
  if kref trace - 1 =? 0 then ltt_release_trace trace st else st.

(** [ltt_trace_destroy(trace_name)] *)
Definition ltt_trace_destroy (st : ltt_state) (name : string)
  : ltt_state * Z :=
  match _ltt_trace_find st name with
  | Some (i, trace) =>
      let '(st, err) := _ltt_trace_destroy st (Some (i, trace)) in
      if negb (err =? 0) then (st, err)
      else (put_trace_clock (__ltt_trace_destroy st trace), 0)
  | None =>
      match _ltt_trace_find_setup st name with
      | Some (i, _) => (_ltt_trace_free st i, 0)
      | None => (st, - ENOENT)
      end
  end.

(** ** Start and stop *)

(** Inputs of [ltt_trace_start]: whether the filter module and the state
    dump module are live when they are pinned. *)
Record start_env : Type := mk_start_env {
  run_filter_live : bool;
  statedump_live : bool
}.

(** [_ltt_trace_start(trace)]; [trace] points into the active list. *)
Definition _ltt_trace_start (st : ltt_state)
    (trace : option (nat * ltt_trace)) (env : start_env) : ltt_state * Z :=
  match trace with
  | None => (st, - ENOENT)
  | Some (i, trace) =>
      (* an already active trace is only reported with printk *)
      let '(pinned, st) :=
        try_module_get (ltt_run_filter_owner st) (run_filter_live env) st in
      if negb pinned then (st, - ENODEV)
      else
        let st := store_active i (set_active 1 trace) st in
        (* Read by trace points without protection : be careful *)
        (with_num_active_traces (to_uint (num_active_traces st + 1)) st, 0)
  end.

(** [ltt_trace_start(trace_name)] *)
Definition ltt_trace_start (st : ltt_state) (name : string)
    (env : start_env) : ltt_state * Z :=
  let trace := _ltt_trace_find st name in
  let '(st, err) := _ltt_trace_start st trace env in
  if negb (err =? 0) then (st, err)
  else
    let tname := from_option (fun p => trace_name (snd p)) EmptyString trace in
    let st := emit (Ev_dump_marker_state tname) st in
    let '(pinned, st) :=
      try_module_get (ltt_statedump_owner st) (statedump_live env) st in
    if negb pinned then (st, - ENODEV)
    else
      let st := emit (Ev_statedump tname) st in
      (module_put (ltt_statedump_owner st) st, err).

(** [_ltt_trace_stop(trace)]; [trace] points into the active list. *)
Definition _ltt_trace_stop (st : ltt_state)
    (trace : option (nat * ltt_trace)) : ltt_state * Z :=
  match trace with
  | None => (st, - ENOENT)
  | Some (i, trace) =>
      let st :=
        if negb (active trace =? 0) then
          let st := store_active i (set_active 0 trace) st in
          let st :=
            with_num_active_traces (to_uint (num_active_traces st - 1)) st in
          (* Wait for each tracing to be finished *)
          synchronize_trace st
        else st in
      (* Everything went fine *)
      (module_put (ltt_run_filter_owner st) st, 0)
  end.

(** [ltt_trace_stop(trace_name)] *)
Definition ltt_trace_stop (st : ltt_state) (name : string)
  : ltt_state * Z :=
  _ltt_trace_stop st (_ltt_trace_find st name).

(** ** Filter control *)

(** [ltt_filter_control(msg, trace_name)]; [functor_ret] is what the
    registered filter-control callback returns. *)
Definition ltt_filter_control (st : ltt_state)
    (msg : ltt_filter_control_msg) (name : string)
    (control_live : bool) (functor_ret : Z) : ltt_state * Z :=
  match _ltt_trace_find st name with
  | None => (st, - ENOENT)
  | Some (_, trace) =>
      let '(pinned, st) :=
        try_module_get (ltt_filter_control_owner st) control_live st in
      if negb pinned then (st, - ENODEV)
      else
        let '(st, err) :=
          match msg with
          | LTT_FILTER_DEFAULT_ACCEPT | LTT_FILTER_DEFAULT_REJECT =>
              (emit (Ev_filter_control msg (trace_name trace)) st, functor_ret)
          | LTT_FILTER_other _ => (st, - EPERM)
          end in
        (module_put (ltt_filter_control_owner st) st, err)
  end.

(** ** The control entry point *)

(** [ltt_trace_create]: setup, set type, alloc; the geometry arguments are
    not used. *)
Definition ltt_trace_create (st : ltt_state) (name trace_type : string)
    (senv : setup_env) (aenv : alloc_env) : ltt_state * Z :=
  let '(st, err) := ltt_trace_setup st name senv in
  if IS_ERR_VALUE err then (st, err) else
  let '(st, err) := ltt_trace_set_type st name trace_type in
  if IS_ERR_VALUE err then (st, err) else
  ltt_trace_alloc st name aenv.

Inductive ltt_control_msg : Type :=
| LTT_CONTROL_START
| LTT_CONTROL_STOP
| LTT_CONTROL_CREATE_TRACE
| LTT_CONTROL_DESTROY_TRACE
| LTT_CONTROL_other (v : Z).

(** [ltt_control(msg, trace_name, trace_type, args)] *)
Definition ltt_control (st : ltt_state) (msg : ltt_control_msg)
    (name trace_type : string) (senv : setup_env) (aenv : alloc_env)
    (tenv : start_env) : ltt_state * Z :=
  match msg with
  | LTT_CONTROL_START => ltt_trace_start st name tenv
  | LTT_CONTROL_STOP => ltt_trace_stop st name
  | LTT_CONTROL_CREATE_TRACE => ltt_trace_create st name trace_type senv aenv
  | LTT_CONTROL_DESTROY_TRACE => ltt_trace_destroy st name
  | LTT_CONTROL_other _ => (st, - EPERM)
  end.

(** ** Histories of calls *)

(** One call of the exported API with its inputs.  [ltt_control] is left
    out: it dispatches to the calls below. *)
Inductive request : Type :=
| Req_module_register (name : ltt_module_function) (function : functor)
    (owner : option module)
| Req_module_unregister (name : ltt_module_function)
| Req_transport_register (transport : ltt_transport)
| Req_transport_unregister (transport : ltt_transport)
| Req_trace_setup (name : string) (env : setup_env)
| Req_trace_set_type (name trace_type : string)
| Req_set_channel_subbufsize (name channel_name : string) (size : Z)
| Req_set_channel_subbufcount (name channel_name : string) (cnt : Z)
| Req_set_channel_switch_timer (name channel_name : string) (interval : Z)
| Req_set_channel_overwrite (name channel_name : string) (overwrite : Z)
| Req_trace_alloc (name : string) (env : alloc_env)
| Req_trace_destroy (name : string)
| Req_trace_start (name : string) (env : start_env)
| Req_trace_stop (name : string)
| Req_filter_control (msg : ltt_filter_control_msg) (name : string)
    (control_live : bool) (functor_ret : Z).

(** The transition a call makes, with its return value (0 for the [void]
    functions). *)
Definition handle (st : ltt_state) (r : request) : ltt_state * Z :=
  match r with
  | Req_module_register name function owner =>
      ltt_module_register st name function owner
  | Req_module_unregister name => (ltt_module_unregister st name, 0)
  | Req_transport_register t => (ltt_transport_register st t, 0)
  | Req_transport_unregister t => (ltt_transport_unregister st t, 0)
  | Req_trace_setup name env => ltt_trace_setup st name env
  | Req_trace_set_type name ty => ltt_trace_set_type st name ty
  | Req_set_channel_subbufsize name c v =>
      ltt_trace_set_channel_subbufsize st name c v
  | Req_set_channel_subbufcount name c v =>
      ltt_trace_set_channel_subbufcount st name c v
  | Req_set_channel_switch_timer name c v =>
      ltt_trace_set_channel_switch_timer st name c v
  | Req_set_channel_overwrite name c v =>
      ltt_trace_set_channel_overwrite st name c v
  | Req_trace_alloc name env => ltt_trace_alloc st name env
  | Req_trace_destroy name => ltt_trace_destroy st name
  | Req_trace_start name env => ltt_trace_start st name env
  | Req_trace_stop name => ltt_trace_stop st name
  | Req_filter_control msg name live ret =>
      ltt_filter_control st msg name live ret
  end.

(** The state after a history of calls, oldest first. *)
Fixpoint run (st : ltt_state) (rs : list request) : ltt_state :=
  match rs with
  | [] => st
  | r :: rs => run (fst (handle st r)) rs
  end.


End Tracer.


(** ** Channel overwrite policy *)

Inductive trace_mode : Type :=
| LTT_TRACE_NORMAL
| LTT_TRACE_FLIGHT
| LTT_TRACE_HYBRID
| LTT_TRACE_other (v : Z).

(** [is_channel_overwrite(chan, mode)] *)
Definition is_channel_overwrite (chan : ltt_channels) (mode : trace_mode)
  : Z :=
  match mode with
  | LTT_TRACE_NORMAL => 0
  | LTT_TRACE_FLIGHT =>
      match chan with
      | LTT_CHANNEL_METADATA => 0
      | _ => 1
      end
  | LTT_TRACE_HYBRID =>
      match chan with
      | LTT_CHANNEL_KERNEL
      | LTT_CHANNEL_FS
      | LTT_CHANNEL_MM
      | LTT_CHANNEL_RCU
      | LTT_CHANNEL_IPC
      | LTT_CHANNEL_INPUT => 1
      | _ => 0
      end
  | LTT_TRACE_other _ => 0
  end.

(** ** Module exit *)

(** The first loop of [ltt_exit]: [_ltt_trace_stop] on every trace of the
    active list, in list order.  [_ltt_trace_stop] stores in place, so the
    [i]-th iteration sees the [i]-th node. *)
Definition exit_stop_all (st : ltt_state) : ltt_state :=
  foldl
    (fun st i =>
       match head st !! i with
       | Some trace => fst (_ltt_trace_stop st (Some (i, trace)))
       | None => st
       end)
    st (seq 0 (length (head st))).

(** The second loop of [ltt_exit], [list_for_each_safe] over the active
    list: [_ltt_trace_destroy] then [__ltt_trace_destroy] on each node, the
    return value of the first not being looked at.  [k] is the position of
    the node the iteration is at: a node that was unlinked leaves its
    successor at the same position.  [fuel] is the number of nodes left to
    visit. *)
Fixpoint exit_destroy_all (fuel k : nat) (st : ltt_state) : ltt_state :=
  match fuel with
  | O => st
  | S fuel =>
      match head st !! k with
      | None => st
      | Some trace =>
          let '(st1, err) := _ltt_trace_destroy st (Some (k, trace)) in
          let st2 := __ltt_trace_destroy st1 trace in
          exit_destroy_all fuel (if err =? 0 then k else S k) st2
      end
  end.

(** The third loop of [ltt_exit]: [_ltt_trace_free] on every trace of the
    setup list. *)
Definition exit_free_all (st : ltt_state) : ltt_state :=
  foldl (fun st _ => _ltt_trace_free st 0) st (seq 0 (length (setup_head st))).

(** [ltt_exit()] *)
Definition ltt_exit (st : ltt_state) : ltt_state :=
  (* Stop each trace, currently being read by RCU read-side *)
  let st := exit_stop_all st in
  (* Wait for quiescent state. Readers have preemption disabled. *)
  let st := synchronize_trace st in
  let st := exit_destroy_all (length (head st)) 0 st in
  (* free traces in pre-alloc status *)
  exit_free_all st.
(** * Statements

    Predicates and example inputs used by the properties below. *)

(** What the normalisation promises for one input: a defined result whose
    size is a power of two of at least one page, whose count is a power of
    two, and which the normalisation maps to itself. *)
Definition normalize_ok (page size count : Z) : Prop :=
  exists s n,
    prepare_chan_size_num page size count = Some (s, n) /\
    is_pow2 s /\ page <= s /\ is_pow2 n /\
    prepare_chan_size_num page s n = Some (s, n).

(** The name under which the lookups find a trace: what [strncmp] with
    bound [NAME_MAX] reads of its stored name. *)
Definition trace_key (t : ltt_trace) : string :=
  strncpy (trace_name t) NAME_MAX.

(** The traces of both lists. *)
Definition sessions (st : ltt_state) : list ltt_trace :=
  setup_head st ++ head st.

(** No two traces of the registry answer to the same name. *)
Definition names_unique (st : ltt_state) : Prop :=
  NoDup (map trace_key (sessions st)).

(** The overwrite flag of the metadata channel of a trace; [None] when the
    trace has no setting at the index of the metadata channel. *)
Definition metadata_overwrite (K : kernel_config) (t : ltt_trace)
  : option Z :=
  overwrite <$>
    settings t !! Z.to_nat (ltt_channels_get_index_from_name K "metadata").

(** The metadata channel is registered. *)
Definition metadata_registered (K : kernel_config) : Prop :=
  0 <= ltt_channels_get_index_from_name K "metadata".

(** The kernel trace flag is raised exactly when the active list is not
    empty. *)
Definition kernel_flag_consistent (st : ltt_state) : Prop :=
  kernel_trace_flag st = true <-> head st <> [].

(** The call is [ltt_trace_set_type]. *)
Definition is_set_type (r : request) : bool :=
  match r with
  | Req_trace_set_type _ _ => true
  | _ => false
  end.

(** What a call may change in a trace it leaves in the registry: never the
    name, never a metadata overwrite flag that is off, and the transport
    only when [may_set_transport] holds. *)
Definition session_kept (K : kernel_config) (may_set_transport : bool)
    (t t' : ltt_trace) : Prop :=
  trace_name t' = trace_name t /\
  (metadata_registered K ->
   metadata_overwrite K t = Some 0 -> metadata_overwrite K t' = Some 0) /\
  (may_set_transport = false -> transport t' = transport t).

(** What holds of a trace when it enters the registry. *)
Definition session_fresh (K : kernel_config) (t : ltt_trace) : Prop :=
  transport t = None /\
  (metadata_registered K -> metadata_overwrite K t = Some 0).

(** The ways one call changes the two lists. *)
Inductive lists_step (R : ltt_trace -> ltt_trace -> Prop)
    (F : ltt_trace -> Prop) (s h : list ltt_trace)
  : list ltt_trace -> list ltt_trace -> Prop :=
| step_same : lists_step R F s h s h
| step_new t :
    F t -> Forall (fun u => trace_key u <> trace_key t) (s ++ h) ->
    lists_step R F s h (t :: s) h
| step_update_setup i t t' :
    s !! i = Some t -> R t t' -> lists_step R F s h (<[i := t']> s) h
| step_update_active i t t' :
    h !! i = Some t -> R t t' -> lists_step R F s h s (<[i := t']> h)
| step_move i t t' :
    s !! i = Some t -> R t t' -> lists_step R F s h (delete i s) (t' :: h)
| step_delete_setup i : lists_step R F s h (delete i s) h
| step_delete_active i : lists_step R F s h s (delete i h).

(** What one call does to the active list and to the kernel trace flag:
    it keeps the flag and the emptiness of the list; or it links a trace
    and raises the flag if the list was empty; or it unlinks a trace and
    drops the flag if the list becomes empty. *)
Definition flag_step (st st' : ltt_state) : Prop :=
  (kernel_trace_flag st' = kernel_trace_flag st /\
   (head st' = [] <-> head st = [])) \/
  (exists t, head st' = t :: head st /\
             kernel_trace_flag st' =
             match head st with [] => true | _ :: _ => kernel_trace_flag st end) \/
  (exists i t, head st !! i = Some t /\ head st' = delete i (head st) /\
               kernel_trace_flag st' =
               match head st' with [] => false | _ :: _ => kernel_trace_flag st end).

(** A trace of that name exists in the setup list or in the active list. *)
Definition name_in_use (st : ltt_state) (name : string) : Prop :=
  is_Some (_ltt_trace_find_setup st name) \/ is_Some (_ltt_trace_find st name).

(** A trace stored under that name is a member of the setup list or of the
    active list: the name it stores and the name asked for agree on the
    [NAME_MAX] characters that make a name for the registry. *)
Definition name_held (st : ltt_state) (name : string) : Prop :=
  exists t, (t ∈ setup_head st \/ t ∈ head st) /\
            trace_key t = strncpy name NAME_MAX.

(** The call is a destruction of a trace of that name. *)
Definition destroys (name : string) (r : request) : Prop :=
  match r with
  | Req_trace_destroy n => strncpy n NAME_MAX = strncpy name NAME_MAX
  | _ => False
  end.

(** The ways a call that is not a destruction changes the two lists: no
    trace leaves them and no stored name changes. *)
Inductive lists_grow (s h : list ltt_trace)
  : list ltt_trace -> list ltt_trace -> Prop :=
| grow_same : lists_grow s h s h
| grow_new t : lists_grow s h (t :: s) h
| grow_update_setup i t t' :
    s !! i = Some t -> trace_name t' = trace_name t ->
    lists_grow s h (<[i := t']> s) h
| grow_update_active i t t' :
    h !! i = Some t -> trace_name t' = trace_name t ->
    lists_grow s h s (<[i := t']> h)
| grow_move i t t' :
    s !! i = Some t -> trace_name t' = trace_name t ->
    lists_grow s h (delete i s) (t' :: h).

(** A reading of the creation that leaves the memory allocations out: a
    name held by no trace of either list is always created. *)
Definition creation_succeeds_when_free (K : kernel_config) (st : ltt_state)
    (name : string) (env : setup_env) : Prop :=
  ~ name_held st name ->
  exists t,
    ltt_trace_setup K st name env
    = (with_setup_head (t :: setup_head st) st, 0).

(** Both allocations of [_ltt_trace_setup] return memory. *)
Definition allocations_succeed (env : setup_env) : Prop :=
  kzalloc_ok env = true /\ channels_trace_alloc_ret env = 0.

(** A transport of that name is registered. *)
Definition transport_registered (st : ltt_state) (trace_type : string)
  : Prop :=
  Exists (fun tr => strcmp (tr_name tr) trace_type = 0) (ltt_transport_list st).


(** Calls that tear down what an allocation built. *)
Definition is_teardown (e : event) : bool :=
  match e with
  | Ev_channel_destroy _ | Ev_remove_dirs _ => true
  | _ => false
  end.

(** *** Example inputs *)

(** A 4 KiB page, the usual three tiers, and three registered channels. *)
Definition K0 : kernel_config :=
  mk_config 4096 65536 2 262144 2 1048576 2 ["metadata"; "kernel"; "net"]%string.

(** Both allocations succeed; the settings array comes with every field
    at 7. *)
Definition setup_ok : setup_env :=
  mk_setup_env true 0 (fun _ => mk_setting 7 7 7 7 7).

(** [kzalloc] fails. *)
Definition setup_nomem : setup_env :=
  mk_setup_env false 0 (fun _ => mk_setting 7 7 7 7 7).

Definition mem_transport : ltt_transport := mk_transport "mem" (Some 5%positive).
Definition relay_transport : ltt_transport :=
  mk_transport "relay" (Some 6%positive).

(** Everything succeeds; channel [i] gets the handle [100 + i]. *)
Definition alloc_ok : alloc_env :=
  mk_alloc_env true 0 (fun chan => 100 + Z.of_nat chan) 1 1000 2000 3000.

(** As [alloc_ok], but [ltt_create_channel] returns NULL for channel 1. *)
Definition alloc_channel_fails : alloc_env :=
  mk_alloc_env true 0
    (fun chan => if (chan =? 1)%nat then 0 else 100 + Z.of_nat chan)
    1 1000 2000 3000.

Definition start_ok : start_env := mk_start_env true true.

(** A registry with the pending trace "t1" and the transports "mem" and
    "relay". *)
Definition example_pending : ltt_state :=
  run K0 ltt_init_state
    [ Req_transport_register mem_transport;
      Req_transport_register relay_transport;
      Req_trace_setup "t1" setup_ok ].

(** The same with "t1" assigned the transport "mem". *)
Definition example_configured : ltt_state :=
  run K0 example_pending [ Req_trace_set_type "t1" "mem" ].

(** The history that leaves "t1" allocated and started. *)
Definition example_started_history : list request :=
  [ Req_transport_register mem_transport;
    Req_transport_register relay_transport;
    Req_trace_setup "t1" setup_ok;
    Req_trace_set_type "t1" "mem";
    Req_trace_alloc "t1" alloc_ok;
    Req_trace_start "t1" start_ok ].

(** A uniform reading of the failures of [ltt_trace_set_type]: whichever
    of the two names is unresolved, the call returns -ENOENT and changes
    nothing. *)
Definition set_type_not_found (st : ltt_state) (name trace_type : string)
  : Prop :=
  _ltt_trace_find_setup st name = None \/ ~ transport_registered st trace_type ->
  ltt_trace_set_type st name trace_type = (st, - ENOENT).

(** A frame reading of [ltt_trace_alloc] on a trace without transport: the
    call returns -EINVAL and the setup list, with every field of every
    record in it, is as before. *)
Definition alloc_without_transport_unaltered (K : kernel_config)
    (st : ltt_state) (name : string) (env : alloc_env) : Prop :=
  forall i t,
    _ltt_trace_find_setup st name = Some (i, t) -> transport t = None ->
    snd (ltt_trace_alloc K st name env) = - EINVAL /\
    setup_head (fst (ltt_trace_alloc K st name env)) = setup_head st.

(** A set-once reading of the transport: a trace that has a transport
    keeps it when [ltt_trace_set_type] is called on it again. *)
Definition transport_set_once (st : ltt_state) (name trace_type : string)
  : Prop :=
  forall i t tr,
    _ltt_trace_find_setup st name = Some (i, t) -> transport t = Some tr ->
    forall t', t' ∈ sessions (fst (ltt_trace_set_type st name trace_type)) ->
               trace_name t' = trace_name t -> transport t' = Some tr.

(** [try_module_get] succeeds: there is no module to pin, or it is live. *)
Definition pin_succeeds (m : option module) (live : bool) : Prop :=
  m = None \/ live = true.

(** Both modules pinned by [ltt_trace_start] are live. *)
Definition modules_live (env : start_env) : Prop :=
  run_filter_live env = true /\ statedump_live env = true.

(** The record of "t1" in [example_configured]. *)
Definition example_t1 : ltt_trace :=
  mk_trace "t1" 3
    [ mk_setting 65536 2 0 7 7; mk_setting 1048576 2 7 7 7;
      mk_setting 262144 2 7 7 7 ]
    [0; 0; 0] (Some mem_transport) None 0 0 false 0 0 0 0.

(** *** Further predicates *)

(** The owner and the callback of a capability slot. *)
Definition slot_owner (st : ltt_state) (name : ltt_module_function)
  : option module :=
  match name with
  | LTT_FUNCTION_RUN_FILTER => ltt_run_filter_owner st
  | LTT_FUNCTION_FILTER_CONTROL => ltt_filter_control_owner st
  | LTT_FUNCTION_STATEDUMP => ltt_statedump_owner st
  end.

Definition slot_functor (st : ltt_state) (name : ltt_module_function)
  : functor :=
  match name with
  | LTT_FUNCTION_RUN_FILTER => ltt_run_filter_functor st
  | LTT_FUNCTION_FILTER_CONTROL => ltt_filter_control_functor st
  | LTT_FUNCTION_STATEDUMP => ltt_statedump_functor st
  end.

(** The first registered transport of that name, as [ltt_trace_set_type]
    scans for it. *)
Definition find_transport (st : ltt_state) (trace_type : string)
  : option (nat * ltt_transport) :=
  list_find (fun tran_iter => strcmp (tr_name tran_iter) trace_type = 0)
    (ltt_transport_list st).

(** A name of [NAME_MAX] characters [c] followed by [tail]: longer than
    what the lookups compare. *)
Definition long_name (c : ascii) (tail : string) : string :=
  Nat.iter NAME_MAX (String c) tail.

(** The geometry stores of the defaults loop for channel [chan]. *)
Definition default_geometry (K : kernel_config) (chan : nat)
    (s : ltt_channel_setting) : ltt_channel_setting :=
  let chantype :=
    get_channel_type_from_name K (ltt_channels_get_name_from_index K chan) in
  set_n_sb (def_n_sb (chan_infos K chantype))
    (set_sb_size (def_sb_size (chan_infos K chantype)) s).

(** *** The shape of the records *)

(** The arrays of a trace are sized to the registered channels. *)
Definition shape_ok (K : kernel_config) (t : ltt_trace) : Prop :=
  nr_channels t = length (registered_channels K) /\
  length (settings t) = nr_channels t /\
  length (channels t) = nr_channels t.

(** What holds of a trace of the setup list. *)
Definition pending_ok (K : kernel_config) (t : ltt_trace) : Prop :=
  shape_ok K t /\ active t = 0.

(** What holds of a trace of the active list. *)
Definition active_ok (K : kernel_config) (t : ltt_trace) : Prop :=
  shape_ok K t /\ (active t = 0 \/ active t = 1) /\ kref t = 1 /\
  is_Some (transport t) /\ ops t = transport t.

Definition well_formed (K : kernel_config) (st : ltt_state) : Prop :=
  Forall (pending_ok K) (setup_head st) /\ Forall (active_ok K) (head st).

Definition same_shape (t t' : ltt_trace) : Prop :=
  nr_channels t' = nr_channels t /\
  length (settings t') = length (settings t) /\
  length (channels t') = length (channels t).

(** A store into a trace of the setup list. *)
Definition pending_kept (t t' : ltt_trace) : Prop :=
  same_shape t t' /\ (active t = 0 -> active t' = 0).

(** A store into a trace of the active list: only the active flag. *)
Definition active_kept (t t' : ltt_trace) : Prop :=
  exists v, (v = 0 \/ v = 1) /\ t' = set_active v t.

(** The stores made on the way from the setup list to the active list. *)
Definition allocated (t t' : ltt_trace) : Prop :=
  same_shape t t' /\ active t' = 0 /\ kref t' = 1 /\
  is_Some (transport t') /\ ops t' = transport t'.

(** The ways one call changes the two lists, with what it stores. *)
Inductive registry_step (Rs Ra Rm : ltt_trace -> ltt_trace -> Prop)
    (F : ltt_trace -> Prop) (s h : list ltt_trace)
  : list ltt_trace -> list ltt_trace -> Prop :=
| rstep_same : registry_step Rs Ra Rm F s h s h
| rstep_new t : F t -> registry_step Rs Ra Rm F s h (t :: s) h
| rstep_update_setup i t t' :
    s !! i = Some t -> Rs t t' ->
    registry_step Rs Ra Rm F s h (<[i := t']> s) h
| rstep_update_active i t t' :
    h !! i = Some t -> Ra t t' ->
    registry_step Rs Ra Rm F s h s (<[i := t']> h)
| rstep_move i t t' :
    s !! i = Some t -> Rm t t' ->
    registry_step Rs Ra Rm F s h (delete i s) (t' :: h)
| rstep_delete_setup i : registry_step Rs Ra Rm F s h (delete i s) h
| rstep_delete_active i : registry_step Rs Ra Rm F s h s (delete i h).

(** The handles and the calls the channel loop leaves behind. *)
Definition created_handles (env : alloc_env) (chans : list nat)
    (channels : list Z) : list Z :=
  foldl (fun c chan => <[chan := create_channel_ret env chan]> c) channels chans.

Definition create_channel_event (K : kernel_config) (t : ltt_trace)
    (chan : nat) : event :=
  let s := default zero_setting (settings t !! chan) in
  Ev_create_channel (trace_name t) chan
    (prepare_chan_size_num (PAGE_SIZE K) (sb_size s) (n_sb s))
    (overwrite s) (switch_timer_interval s) (read_timer_interval s).

(** The stores [ltt_trace_alloc] makes before it looks at the transport. *)
Definition alloc_inits (env : alloc_env) (t : ltt_trace) : ltt_trace :=
  set_freq_scale (clock_freq_scale env)
    (set_active 0 (set_kref_wq true (set_kref 1 t))).

(** The record [ltt_trace_alloc] links into the active list. *)
Definition allocated_trace (env : alloc_env) (tr : ltt_transport)
    (t : ltt_trace) : ltt_trace :=
  set_channels (created_handles env (seq 0 (nr_channels t)) (channels t))
    (set_start_stamps (clock_frequency env) (clock_read64 env)
       (gettimeofday env) (set_ops (Some tr) (alloc_inits env t))).

(** The calls [__ltt_trace_destroy] makes for the channels of a trace,
    most recent first. *)
Definition channel_destroy_events (t : ltt_trace) : list event :=
  rev (map (fun c => Ev_channel_destroy (default 0 (channels t !! c)))
         (seq 0 (nr_channels t))).


(** *** A registry with the callbacks installed *)

(** Module 7 provides the filter and the state dump, module 8 the filter
    control; "t1" is allocated on "mem" and not started. *)
Definition example_allocated_history : list request :=
  [ Req_module_register LTT_FUNCTION_RUN_FILTER (Some 1%positive)
      (Some 7%positive);
    Req_module_register LTT_FUNCTION_STATEDUMP (Some 2%positive)
      (Some 7%positive);
    Req_module_register LTT_FUNCTION_FILTER_CONTROL (Some 3%positive)
      (Some 8%positive);
    Req_transport_register mem_transport;
    Req_trace_setup "t1" setup_ok;
    Req_trace_set_type "t1" "mem";
    Req_trace_alloc "t1" alloc_ok ].

Definition example_allocated : ltt_state :=
  run K0 ltt_init_state example_allocated_history.
(** * Properties *)

(** ** Geometry normalisation *)

Lemma to_uint_small x : 0 <= x < 2 ^ 32 -> to_uint x = x.
Proof. intros H. unfold to_uint, UINT_MOD. apply Z.mod_small. lia. Qed.

Lemma land_pred_pow2 b : 0 <= b -> Z.land (2 ^ b) (2 ^ b - 1) = 0.
Proof.
  intros Hb. replace (2 ^ b - 1) with (Z.ones b).
  - rewrite Z.land_ones by lia. apply Z.mod_same. lia.
  - rewrite Z.ones_equiv. lia.
Qed.

Lemma land_pred_not_pow2 x :
  0 < x -> x <> 2 ^ Z.log2 x -> Z.land x (x - 1) <> 0.
Proof.
  intros Hx Hne Hland.
  destruct (Z.log2_spec x Hx) as [Hlo Hhi].
  assert (Hj : 0 <= Z.log2 x) by apply Z.log2_nonneg.
  assert (Hlog : Z.log2 (x - 1) = Z.log2 x).
  { apply Z.log2_unique; [lia|]. split; lia. }
  assert (Hb1 : Z.testbit x (Z.log2 x) = true) by (apply Z.bit_log2; lia).
  assert (Hb2 : Z.testbit (x - 1) (Z.log2 x) = true).
  { rewrite <- Hlog. apply Z.bit_log2. lia. }
  assert (Hb : Z.testbit (Z.land x (x - 1)) (Z.log2 x) = true).
  { rewrite Z.land_spec, Hb1, Hb2. reflexivity. }
  rewrite Hland, Z.bits_0 in Hb. discriminate.
Qed.

(** On a non-zero [unsigned int], [get_count_order] is the base-2
    logarithm rounded up. *)
Lemma get_count_order_log2_up x :
  0 < x < 2 ^ 32 -> get_count_order x = Z.log2_up x.
Proof.
  intros Hx. unfold get_count_order, fls.
  rewrite to_uint_small by lia.
  destruct (Z.eqb_spec x 0) as [|_]; [lia|].
  destruct (Z.eq_dec x (2 ^ Z.log2 x)) as [Hp|Hp].
  - assert (Hl : Z.log2 x = Z.log2_up x).
    { apply Z.log2_log2_up_exact; [lia|]. eauto. }
    rewrite Hp at 1 2. rewrite land_pred_pow2 by apply Z.log2_nonneg.
    simpl. lia.
  - destruct (Z.eqb_spec (Z.land x (x - 1)) 0) as [H0|_].
    + exfalso. eapply land_pred_not_pow2; eauto. lia.
    + assert (Hl : Z.log2 x <> Z.log2_up x).
      { intros Hl. apply Z.log2_log2_up_exact in Hl; [|lia].
        destruct Hl as [b Hb]. apply Hp. rewrite Hb at 2.
        destruct (Z.le_gt_cases 0 b).
        - rewrite Z.log2_pow2 by lia. exact Hb.
        - rewrite Z.pow_neg_r in Hb by lia. lia. }
      pose proof (Z.le_log2_log2_up x). pose proof (Z.le_log2_up_succ_log2 x).
      lia.
Qed.

Lemma get_count_order_pow2 k : 0 <= k < 32 -> get_count_order (2 ^ k) = k.
Proof.
  intros Hk. rewrite get_count_order_log2_up.
  - apply Z.log2_up_pow2. lia.
  - split; [apply Z.pow_pos_nonneg; lia|apply Z.pow_lt_mono_r; lia].
Qed.

Lemma shl_one_pow2 k : 0 <= k < 32 -> shl_one k = Some (2 ^ k).
Proof.
  intros Hk. unfold shl_one.
  replace ((0 <=? k) && (k <? 32)) with true
    by (symmetry; apply andb_true_iff; split; [apply Z.leb_le|apply Z.ltb_lt]; lia).
  rewrite Z.shiftl_1_l. rewrite to_uint_small; [reflexivity|].
  split; [apply Z.pow_nonneg; lia|apply Z.pow_lt_mono_r; lia].
Qed.

(** Rounding up to the next power of two, for an input in [1 .. 2^31]. *)
Lemma round_up_pow2 x :
  0 < x <= 2 ^ 31 ->
  exists k, 0 <= k < 32 /\ shl_one (get_count_order x) = Some (2 ^ k) /\
            x <= 2 ^ k.
Proof.
  intros Hx. exists (Z.log2_up x).
  assert (Hk : 0 <= Z.log2_up x <= 31).
  { split; [apply Z.log2_up_nonneg|]. apply Z.log2_up_le_pow2; lia. }
  rewrite get_count_order_log2_up by lia.
  split; [lia|]. split; [apply shl_one_pow2; lia|].
  apply Z.log2_log2_up_spec. lia.
Qed.

(** Where every shift is in range the code does what its comments say:
    for a page size of at most 2^31, a size of at most 2^31 and a count
    between 1 and 2^31, prepare_chan_size_num yields a size that is a power
    of two and at least one page and a count that is a power of two, and
    applying it to its own output returns that output. *)
Lemma prepare_chan_size_num_in_range page size count :
  0 < page <= 2 ^ 31 -> 0 <= size <= 2 ^ 31 -> 0 < count <= 2 ^ 31 ->
  normalize_ok page size count.
Proof.
  intros Hp Hs Hc. unfold normalize_ok, prepare_chan_size_num.
  rewrite (to_uint_small size), (to_uint_small page), (to_uint_small count)
    by lia.
  destruct (round_up_pow2 (Z.max size page)) as (ks & Hks & Es & Ls); [lia|].
  destruct (round_up_pow2 count) as (kn & Hkn & En & Ln); [lia|].
  exists (2 ^ ks), (2 ^ kn). rewrite Es, En.
  assert (Hbs : 0 < 2 ^ ks < 2 ^ 32).
  { split; [apply Z.pow_pos_nonneg; lia|apply Z.pow_lt_mono_r; lia]. }
  split; [reflexivity|]. split; [exists ks; split; [lia|reflexivity]|].
  split; [lia|]. split; [exists kn; split; [lia|reflexivity]|].
  assert (Hbn : 0 < 2 ^ kn < 2 ^ 32).
  { split; [apply Z.pow_pos_nonneg; lia|apply Z.pow_lt_mono_r; lia]. }
  rewrite (to_uint_small (2 ^ ks)), (to_uint_small (2 ^ kn)) by lia.
  rewrite Z.max_l by lia.
  rewrite !get_count_order_pow2, !shl_one_pow2 by lia. reflexivity.
Qed.

(** No [unsigned int] is a power of two above 2^31. *)
Lemma pow2_uint_bound r : 0 <= r < 2 ^ 32 -> is_pow2 r -> r <= 2 ^ 31.
Proof.
  intros Hr (k & Hk & ->).
  assert (k < 32).
  { apply (Z.pow_lt_mono_r_iff 2); lia. }
  apply Z.pow_le_mono_r; lia.
Qed.

(** C8, at a failing input: a 4 KiB page, a size of 2^31 + 1 and a count
    of 2.  The size is an [unsigned int] above one page, its order is 32,
    and the code shifts a 32-bit 1 by 32: the shift has no defined value,
    so the call leaves no normalised result, and no value it could leave
    would do, since no [unsigned int] is a power of two that reaches the
    size.  The count, taken alone, is normalised to 2. *)
Theorem prepare_chan_size_num_overflow :
  let size := 2 ^ 31 + 1 in
  to_uint size = size /\
  Z.max (to_uint size) (to_uint 4096) = size /\
  get_count_order size = 32 /\
  shl_one (get_count_order size) = None /\
  shl_one (get_count_order (to_uint 2)) = Some 2 /\
  prepare_chan_size_num 4096 size 2 = None /\
  ~ normalize_ok 4096 size 2 /\
  forall s, 0 <= s < 2 ^ 32 -> is_pow2 s -> s < size.
Proof.
  intros size.
  split; [vm_compute; reflexivity|]. split; [vm_compute; reflexivity|].
  split; [vm_compute; reflexivity|]. split; [vm_compute; reflexivity|].
  split; [vm_compute; reflexivity|]. split; [vm_compute; reflexivity|].
  split.
  - intros (s & n & H & _). vm_compute in H. discriminate.
  - intros s Hs Hp. pose proof (pow2_uint_bound s Hs Hp). unfold size. lia.
Qed.

(** ** C strings *)

Lemma is_nul_zero c : is_nul c = true <-> c = zero.
Proof.
  unfold is_nul. rewrite Nat.eqb_eq. split.
  - intros H. rewrite <- (ascii_nat_embedding c), H. reflexivity.
  - intros ->. reflexivity.
Qed.

Lemma char_diff_zero c1 c2 : char_diff c1 c2 = 0 <-> c1 = c2.
Proof.
  unfold char_diff. split.
  - intros H. assert (E : nat_of_ascii c1 = nat_of_ascii c2) by lia.
    rewrite <- (ascii_nat_embedding c1), E. apply ascii_nat_embedding.
  - intros ->. lia.
Qed.

Lemma ascii_eqb_false c1 c2 : Ascii.eqb c1 c2 = false <-> c1 <> c2.
Proof.
  destruct (Ascii.eqb_spec c1 c2); split; intros; congruence.
Qed.

(** The prefix [strncpy] keeps, one character at a time. *)
Lemma strncpy_step s n :
  strncpy s (S n) =
  if is_nul (head_char s) then EmptyString
  else String (head_char s) (strncpy (tail_str s) n).
Proof. destruct s as [|c r]; reflexivity. Qed.

(** [strncmp] returns 0 exactly when the two buffers hold the same
    characters up to the first NUL or the [n]-th character. *)
Lemma strncmp_zero_iff n : forall s1 s2,
  strncmp s1 s2 n = 0 <-> strncpy s1 n = strncpy s2 n.
Proof.
  induction n as [|n IH]; intros s1 s2.
  - simpl. split; reflexivity.
  - rewrite !strncpy_step. cbn [strncmp].
    destruct (Ascii.eqb_spec (head_char s1) (head_char s2)) as [E|E]; cbn [negb].
    + rewrite <- E. destruct (is_nul (head_char s1)); [split; reflexivity|].
      rewrite IH. split; [intros ->; reflexivity|intros H; congruence].
    + rewrite char_diff_zero.
      destruct (is_nul (head_char s1)) eqn:N1, (is_nul (head_char s2)) eqn:N2;
        split; intros H; try contradiction; try discriminate.
      * apply is_nul_zero in N1, N2. congruence.
      * congruence.
Qed.

Lemma strncpy_idem n : forall s, strncpy (strncpy s n) n = strncpy s n.
Proof.
  induction n as [|n IH]; intros s; [reflexivity|].
  destruct s as [|c r]; [reflexivity|]. simpl.
  destruct (is_nul c) eqn:N; [reflexivity|]. simpl. rewrite N, IH. reflexivity.
Qed.

(** The name stored by [strncpy] is found again by [strncmp]. *)
Lemma strncmp_strncpy s n : strncmp (strncpy s n) s n = 0.
Proof. apply strncmp_zero_iff, strncpy_idem. Qed.

(** Two names equal to the same buffer under [strcmp] are equal to each
    other. *)
Lemma strcmp_zero_trans c : forall a b,
  strcmp c a = 0 -> strcmp c b = 0 -> strcmp a b = 0.
Proof.
  assert (Hnul : forall a b, head_char a = zero -> head_char b = zero ->
                             strcmp a b = 0).
  { intros a b Ha Hb. destruct a as [|c1 r]; simpl in *.
    - rewrite Hb. reflexivity.
    - subst c1. rewrite Hb. reflexivity. }
  induction c as [|c1 r1 IH]; intros a b Ha Hb; simpl in Ha, Hb.
  - apply char_diff_zero in Ha, Hb. apply Hnul; congruence.
  - destruct (Ascii.eqb_spec c1 (head_char a)) as [Ea|Ea];
      [|apply char_diff_zero in Ha; contradiction].
    destruct (Ascii.eqb_spec c1 (head_char b)) as [Eb|Eb];
      [|apply char_diff_zero in Hb; contradiction].
    simpl in Ha, Hb. destruct (is_nul c1) eqn:N.
    + apply is_nul_zero in N. apply Hnul; congruence.
    + destruct a as [|ca ra]; simpl in Ea.
      { subst c1. discriminate. }
      subst ca. simpl. rewrite <- Eb, Ascii.eqb_refl, N. simpl.
      apply IH; assumption.
Qed.

(** ** Lookups by name *)

Lemma name_matches_key name t :
  name_matches name t <-> trace_key t = strncpy name NAME_MAX.
Proof. unfold name_matches, trace_key. apply strncmp_zero_iff. Qed.

Lemma find_Some_lookup name (l : list ltt_trace) i t :
  list_find (name_matches name) l = Some (i, t) ->
  l !! i = Some t /\ trace_key t = strncpy name NAME_MAX.
Proof.
  intros H. apply list_find_Some in H as (Hl & Hm & _).
  split; [exact Hl|]. apply name_matches_key, Hm.
Qed.

Lemma find_None_keys name (l : list ltt_trace) :
  list_find (name_matches name) l = None <->
  Forall (fun t => trace_key t <> strncpy name NAME_MAX) l.
Proof.
  rewrite list_find_None. apply Forall_iff. intros t.
  rewrite name_matches_key. reflexivity.
Qed.

(** With unique names, the first match is the only match. *)
Lemma find_unique name (l : list ltt_trace) i t :
  NoDup (map trace_key l) -> l !! i = Some t ->
  trace_key t = strncpy name NAME_MAX ->
  list_find (name_matches name) l = Some (i, t).
Proof.
  intros Hnd Hl Hk. apply list_find_Some. split; [exact Hl|].
  split; [apply name_matches_key, Hk|].
  intros j y Hj Hlt Hy. apply name_matches_key in Hy.
  assert (j = i); [|lia].
  eapply NoDup_lookup; [exact Hnd| |].
  - rewrite list_lookup_fmap, Hj. reflexivity.
  - rewrite list_lookup_fmap, Hl. simpl. congruence.
Qed.

(** ** The channel loops *)

Section Loops.

Variable K : kernel_config.

(** With [err] at 0 the channel loop runs to its end, whatever
    [ltt_create_channel] returns; it changes the channel handles of the
    trace and records its calls, nothing else. *)
Lemma create_channels_completes env chans : forall trace st,
  exists chs evs,
    create_channels K env 0 chans trace st =
    (set_channels chs trace, with_events evs st, None).
Proof.
  induction chans as [|chan rest IH]; intros trace st.
  - exists (channels trace), (events st). destruct trace, st. reflexivity.
  - cbn [create_channels create_one_channel]. simpl negb. cbv iota.
    match goal with
    | |- context [create_channels K env 0 rest ?t ?s] =>
        destruct (IH t s) as (chs & evs & E); rewrite E
    end.
    exists chs, evs. reflexivity.
Qed.

Lemma destroy_created_channels_events trace chan st :
  exists evs, destroy_created_channels trace chan st = with_events evs st.
Proof.
  unfold destroy_created_channels. generalize (reverse (seq 0 chan)).
  intros l. revert st. induction l as [|c l IH]; intros st.
  - exists (events st). destruct st. reflexivity.
  - simpl. destruct (IH (emit (Ev_channel_destroy (default 0 (channels trace !! c))) st))
      as (evs & E). rewrite E. exists evs. reflexivity.
Qed.

Lemma __ltt_trace_destroy_lists st trace :
  setup_head (__ltt_trace_destroy st trace) = setup_head st /\
  head (__ltt_trace_destroy st trace) = head st /\
  kernel_trace_flag (__ltt_trace_destroy st trace) = kernel_trace_flag st /\
  num_active_traces (__ltt_trace_destroy st trace) = num_active_traces st.
Proof.
  unfold __ltt_trace_destroy.
  assert (H : forall l st,
             exists evs,
               foldl (fun st i => emit (Ev_channel_destroy (default 0 (channels trace !! i))) st)
                 st l = with_events evs st).
  { induction l as [|c l IH]; intros s.
    - exists (events s). destruct s. reflexivity.
    - simpl. destruct (IH (emit (Ev_channel_destroy (default 0 (channels trace !! c))) s))
        as (evs & E). rewrite E. exists evs. reflexivity. }
  destruct (H (seq 0 (nr_channels trace)) st) as (evs & ->).
  unfold ltt_release_trace.
  destruct (kref trace - 1 =? 0); [|simpl; auto].
  destruct (transport trace) as [[n [m|]]|]; simpl; auto.
Qed.

End Loops.

(** ** Channel indices and settings *)

Section Registry.

Variable K : kernel_config.

Lemma index_registered name :
  0 <= ltt_channels_get_index_from_name K name ->
  exists c,
    registered_channels K !! Z.to_nat (ltt_channels_get_index_from_name K name)
      = Some c /\ strcmp c name = 0.
Proof.
  unfold ltt_channels_get_index_from_name.
  destruct (list_find _ _) as [[i c]|] eqn:E; [|lia].
  intros _. apply list_find_Some in E as (Hl & Hc & _).
  exists c. rewrite Nat2Z.id. auto.
Qed.

(** Two names with the same channel index are the same C string. *)
Lemma index_same_name a b :
  0 <= ltt_channels_get_index_from_name K a ->
  ltt_channels_get_index_from_name K a = ltt_channels_get_index_from_name K b ->
  strcmp a b = 0.
Proof.
  intros Ha E.
  destruct (index_registered a Ha) as (c & Hc & Sa).
  destruct (index_registered b) as (c' & Hc' & Sb); [lia|].
  rewrite <- E, Hc in Hc'. injection Hc' as <-.
  eapply strcmp_zero_trans; eauto.
Qed.

Lemma overwrite_alter (g : ltt_channel_setting -> ltt_channel_setting)
    (i m : nat) (l : list ltt_channel_setting) :
  (forall s, overwrite (g s) = overwrite s) ->
  overwrite <$> alter g i l !! m = overwrite <$> l !! m.
Proof.
  intros Hg. destruct (decide (i = m)) as [->|Hne].
  - rewrite list_lookup_alter_eq. destruct (l !! m); simpl; [|reflexivity].
    rewrite Hg. reflexivity.
  - rewrite list_lookup_alter_ne by exact Hne. reflexivity.
Qed.

Lemma overwrite_array_update (g : ltt_channel_setting -> ltt_channel_setting)
    (i : Z) (m : nat) (l : list ltt_channel_setting) :
  (forall s, overwrite (g s) = overwrite s) ->
  overwrite <$> array_update g i l !! m = overwrite <$> l !! m.
Proof.
  intros Hg. unfold array_update. destruct (i <? 0); [reflexivity|].
  apply overwrite_alter, Hg.
Qed.

(** The defaults loop changes sizes and counts only. *)
Lemma set_channel_defaults_frame t :
  trace_name (set_channel_defaults K t) = trace_name t /\
  transport (set_channel_defaults K t) = transport t /\
  forall m,
    overwrite <$> settings (set_channel_defaults K t) !! m =
    overwrite <$> settings t !! m.
Proof.
  unfold set_channel_defaults. generalize (seq 0 (nr_channels t)).
  intros l. revert t. induction l as [|c l IH]; intros t; [auto|].
  simpl. match goal with |- context [foldl ?f ?a l] => destruct (IH a) as (H1 & H2 & H3) end.
  rewrite H1, H2. split; [reflexivity|]. split; [reflexivity|].
  intros m. rewrite H3. simpl. apply overwrite_alter. reflexivity.
Qed.

(** Storing an overwrite flag for a channel that is not refused leaves a
    metadata flag that is off, off. *)
Lemma set_overwrite_keeps_metadata channel_name v t :
  negb (v =? 0) && (strcmp channel_name "metadata" =? 0) = false ->
  0 <= ltt_channels_get_index_from_name K channel_name ->
  metadata_registered K ->
  metadata_overwrite K t = Some 0 ->
  metadata_overwrite K
    (set_settings
       (array_update (set_overwrite v)
          (ltt_channels_get_index_from_name K channel_name) (settings t)) t)
  = Some 0.
Proof.
  intros Hguard Hidx Hreg Hm. unfold metadata_overwrite in *. simpl.
  unfold array_update. destruct (Z.ltb_spec (ltt_channels_get_index_from_name K channel_name) 0); [lia|].
  destruct (decide (ltt_channels_get_index_from_name K channel_name
                    = ltt_channels_get_index_from_name K "metadata")) as [E|E].
  - assert (S : strcmp channel_name "metadata" = 0) by (apply index_same_name; auto).
    rewrite S in Hguard. simpl in Hguard. rewrite andb_true_r in Hguard.
    apply negb_false_iff, Z.eqb_eq in Hguard. subst v.
    rewrite E, list_lookup_alter_eq.
    destruct (settings t !! _); simpl in *; [reflexivity|discriminate].
  - rewrite list_lookup_alter_ne; [exact Hm|].
    unfold metadata_registered in Hreg. intros Hn. apply E. lia.
Qed.

(** The trace [_ltt_trace_setup] links has its metadata channel in
    non-overwrite mode. *)
Lemma fresh_metadata_overwrite name env :
  metadata_registered K ->
  let nr := length (registered_channels K) in
  metadata_overwrite K
    (set_channel_defaults K
       (set_settings
          (array_update (set_overwrite 0)
             (ltt_channels_get_index_from_name K "metadata")
             (map (fresh_settings env) (seq 0 nr)))
          (mk_trace (strncpy name NAME_MAX) nr
             (map (fresh_settings env) (seq 0 nr)) (replicate nr 0)
             None None 0 0 false 0 0 0 0))) = Some 0.
Proof.
  intros Hreg nr. unfold metadata_overwrite.
  destruct (set_channel_defaults_frame
              (set_settings
                 (array_update (set_overwrite 0)
                    (ltt_channels_get_index_from_name K "metadata")
                    (map (fresh_settings env) (seq 0 nr)))
                 (mk_trace (strncpy name NAME_MAX) nr
                    (map (fresh_settings env) (seq 0 nr)) (replicate nr 0)
                    None None 0 0 false 0 0 0 0))) as (_ & _ & H).
  rewrite H. simpl. unfold array_update.
  destruct (Z.ltb_spec (ltt_channels_get_index_from_name K "metadata") 0) as [Hlt|_];
    [unfold metadata_registered in Hreg; lia|].
  destruct (index_registered "metadata" Hreg) as (c & Hc & _).
  apply lookup_lt_Some in Hc.
  rewrite list_lookup_alter_eq.
  destruct (map (fresh_settings env) (seq 0 nr) !! _) eqn:E; [reflexivity|].
  apply lookup_ge_None in E. rewrite length_map, length_seq in E.
  subst nr. lia.
Qed.

End Registry.

(** ** The shape of one call *)

#[global] Arguments strncpy : simpl never.
#[global] Arguments strncmp : simpl never.

Section Steps.

Variable K : kernel_config.

Local Abbreviation kept b := (session_kept K b).
Local Abbreviation step b st st' :=
  (lists_step (session_kept K b) (session_fresh K)
     (setup_head st) (head st) (setup_head st') (head st')).

Lemma kept_refl b t : kept b t t.
Proof. unfold session_kept. auto. Qed.

Lemma try_module_get_lists m live st :
  setup_head (snd (try_module_get m live st)) = setup_head st /\
  head (snd (try_module_get m live st)) = head st /\
  kernel_trace_flag (snd (try_module_get m live st)) = kernel_trace_flag st /\
  num_active_traces (snd (try_module_get m live st)) = num_active_traces st.
Proof. destruct m, live; simpl; auto. Qed.

Lemma module_put_lists m st :
  setup_head (module_put m st) = setup_head st /\
  head (module_put m st) = head st /\
  kernel_trace_flag (module_put m st) = kernel_trace_flag st /\
  num_active_traces (module_put m st) = num_active_traces st.
Proof. destruct m; simpl; auto. Qed.

Lemma step_setup st name env b :
  step b st (fst (_ltt_trace_setup K st name env)).
Proof.
  unfold _ltt_trace_setup.
  destruct (_ltt_trace_find_setup st name) eqn:Hs; [apply step_same|].
  destruct (_ltt_trace_find st name) eqn:Ha; [apply step_same|].
  destruct (kzalloc_ok env); [|apply step_same]. simpl negb. cbv iota.
  destruct (channels_trace_alloc_ret env =? 0); [|apply step_same].
  simpl negb. cbv iota. cbn [fst setup_head head with_setup_head].
  apply find_None_keys in Hs, Ha.
  match goal with
  | |- context [set_channel_defaults K ?t] =>
      destruct (set_channel_defaults_frame K t) as (Hn & Ht & _)
  end.
  apply step_new.
  - split; [rewrite Ht; reflexivity|].
    intros Hreg. apply fresh_metadata_overwrite, Hreg.
  - unfold trace_key at 2. rewrite Hn. simpl. rewrite strncpy_idem.
    apply Forall_app. split; assumption.
Qed.

Lemma step_set_type st name ty :
  step true st (fst (ltt_trace_set_type st name ty)).
Proof.
  unfold ltt_trace_set_type.
  destruct (_ltt_trace_find_setup st name) as [[i t]|] eqn:Hs; [|apply step_same].
  destruct (list_find _ (ltt_transport_list st)) as [[j tr]|]; [|apply step_same].
  apply find_Some_lookup in Hs as [Hl _].
  simpl. eapply step_update_setup; [exact Hl|].
  split; [reflexivity|]. split; [auto|discriminate].
Qed.

Lemma kept_settings b g index t :
  (forall s, overwrite (g s) = overwrite s) ->
  kept b t (set_settings (array_update g index (settings t)) t).
Proof.
  intros Hg. split; [reflexivity|]. split; [|reflexivity].
  intros _. unfold metadata_overwrite. simpl.
  rewrite overwrite_array_update by exact Hg. auto.
Qed.

Lemma step_set_subbufsize st name c v b :
  step b st (fst (ltt_trace_set_channel_subbufsize K st name c v)).
Proof.
  unfold ltt_trace_set_channel_subbufsize.
  destruct (_ltt_trace_find_setup st name) as [[i t]|] eqn:Hs; [|apply step_same].
  destruct (_ <? 0); [apply step_same|].
  apply find_Some_lookup in Hs as [Hl _].
  simpl. eapply step_update_setup; [exact Hl|].
  apply kept_settings. reflexivity.
Qed.

Lemma step_set_subbufcount st name c v b :
  step b st (fst (ltt_trace_set_channel_subbufcount K st name c v)).
Proof.
  unfold ltt_trace_set_channel_subbufcount.
  destruct (_ltt_trace_find_setup st name) as [[i t]|] eqn:Hs; [|apply step_same].
  destruct (_ <? 0); [apply step_same|].
  apply find_Some_lookup in Hs as [Hl _].
  simpl. eapply step_update_setup; [exact Hl|].
  apply kept_settings. reflexivity.
Qed.

Lemma step_set_switch_timer st name c v b :
  step b st (fst (ltt_trace_set_channel_switch_timer K st name c v)).
Proof.
  unfold ltt_trace_set_channel_switch_timer.
  destruct (_ltt_trace_find_setup st name) as [[i t]|] eqn:Hs; [|apply step_same].
  destruct (_ <? 0); [apply step_same|].
  apply find_Some_lookup in Hs as [Hl _].
  simpl. eapply step_update_setup; [exact Hl|].
  apply kept_settings. reflexivity.
Qed.

Lemma step_set_overwrite st name c v b :
  step b st (fst (ltt_trace_set_channel_overwrite K st name c v)).
Proof.
  unfold ltt_trace_set_channel_overwrite.
  destruct (_ltt_trace_find_setup st name) as [[i t]|] eqn:Hs; [|apply step_same].
  destruct (negb (v =? 0) && _) eqn:Hg; [apply step_same|].
  destruct (Z.ltb_spec (ltt_channels_get_index_from_name K c) 0);
    [apply step_same|].
  apply find_Some_lookup in Hs as [Hl _].
  simpl. eapply step_update_setup; [exact Hl|].
  split; [reflexivity|]. split; [|reflexivity].
  intros Hreg Hm. apply set_overwrite_keeps_metadata; auto.
Qed.

Lemma step_alloc st name env b :
  step b st (fst (ltt_trace_alloc K st name env)).
Proof.
  unfold ltt_trace_alloc.
  destruct (_ltt_trace_find_setup st name) as [[i t]|] eqn:Hs; [|apply step_same].
  apply find_Some_lookup in Hs as [Hl _].
  cbn [transport set_freq_scale set_active set_kref_wq set_kref].
  assert (Hk : forall t', trace_name t' = trace_name t ->
                          settings t' = settings t ->
                          transport t' = transport t -> kept b t t').
  { intros t' H1 H2 H3. split; [exact H1|]. split; [|auto].
    unfold metadata_overwrite. rewrite H2. auto. }
  destruct (transport t) as [tr|] eqn:Htr.
  2:{ simpl. eapply step_update_setup; [exact Hl|]. apply Hk; auto. }
  destruct (try_module_get (tr_owner tr) (transport_live env) (get_trace_clock st))
    as [pinned st1] eqn:Hget.
  pose proof (try_module_get_lists (tr_owner tr) (transport_live env)
                (get_trace_clock st)) as (G1 & G2 & _).
  rewrite Hget in G1, G2. simpl in G1, G2.
  destruct pinned; simpl negb; cbv iota.
  2:{ simpl. rewrite G1, G2. eapply step_update_setup; [exact Hl|]. apply Hk; auto. }
  destruct (create_dirs_ret env =? 0) eqn:Hd; simpl negb; cbv iota.
  2:{ cbn [fst]. destruct (module_put_lists (tr_owner tr)
        (store_setup i
           (set_ops (Some tr)
              (set_freq_scale (clock_freq_scale env)
                 (set_active 0 (set_kref_wq true (set_kref 1 t)))))
           (emit (Ev_create_dirs (trace_name t)) st1))) as (M1 & M2 & _).
      simpl in M1, M2 |- *. rewrite M1, M2, G1, G2.
      eapply step_update_setup; [exact Hl|]. apply Hk; auto. }
  apply Z.eqb_eq in Hd. rewrite Hd.
  match goal with
  | |- context [create_channels K env 0 ?l ?t0 ?s0] =>
      destruct (create_channels_completes K env l t0 s0) as (chs & evs & E);
      rewrite E
  end.
  simpl. rewrite G1, G2.
  destruct (head st) eqn:Hhead; simpl; rewrite ?G1, ?G2;
    (eapply step_move; [exact Hl|]; apply Hk; auto).
Qed.

Lemma step_destroy st name b :
  step b st (fst (ltt_trace_destroy st name)).
Proof.
  unfold ltt_trace_destroy, _ltt_trace_destroy.
  destruct (_ltt_trace_find st name) as [[i t]|] eqn:Ha.
  - destruct (active t =? 0); simpl negb; cbv iota; [|apply step_same].
    destruct (delete i (head st)) as [|u l] eqn:Hd; simpl;
      rewrite ?Hd; simpl;
      match goal with
      | |- context [__ltt_trace_destroy ?s t] =>
          destruct (__ltt_trace_destroy_lists s t) as (D1 & D2 & _);
          rewrite D1, D2; simpl
      end; rewrite <- Hd; apply step_delete_active.
  - destruct (_ltt_trace_find_setup st name) as [[i t]|]; [|apply step_same].
    simpl. apply step_delete_setup.
Qed.

Lemma kept_active b v t : kept b t (set_active v t).
Proof. split; [reflexivity|]. split; auto. Qed.

Lemma step_start st name env b :
  step b st (fst (ltt_trace_start st name env)).
Proof.
  unfold ltt_trace_start, _ltt_trace_start.
  destruct (_ltt_trace_find st name) as [[i t]|] eqn:Ha; [|apply step_same].
  apply find_Some_lookup in Ha as [Hl _].
  destruct (try_module_get (ltt_run_filter_owner st) (run_filter_live env) st)
    as [pinned st1] eqn:Hget.
  pose proof (try_module_get_lists (ltt_run_filter_owner st)
                (run_filter_live env) st) as (G1 & G2 & _).
  rewrite Hget in G1, G2. simpl in G1, G2.
  destruct pinned; simpl negb; cbv iota.
  2:{ simpl. rewrite G1, G2. apply step_same. }
  simpl.
  match goal with
  | |- context [try_module_get ?m ?l ?s] =>
      destruct (try_module_get m l s) as [pinned2 st2] eqn:Hget2;
      pose proof (try_module_get_lists m l s) as (P1 & P2 & _);
      rewrite Hget2 in P1, P2; simpl in P1, P2
  end.
  destruct pinned2; simpl.
  - match goal with
    | |- context [module_put ?m ?s] =>
        destruct (module_put_lists m s) as (M1 & M2 & _); rewrite M1, M2
    end.
    simpl. rewrite P1, P2, G1, G2.
    eapply step_update_active; [exact Hl|apply kept_active].
  - rewrite P1, P2, G1, G2.
    eapply step_update_active; [exact Hl|apply kept_active].
Qed.

Lemma step_stop st name b :
  step b st (fst (ltt_trace_stop st name)).
Proof.
  unfold ltt_trace_stop, _ltt_trace_stop.
  destruct (_ltt_trace_find st name) as [[i t]|] eqn:Ha; [|apply step_same].
  apply find_Some_lookup in Ha as [Hl _].
  cbn [fst].
  match goal with
  | |- context [module_put ?m ?s] =>
      destruct (module_put_lists m s) as (M1 & M2 & _); rewrite M1, M2
  end.
  destruct (active t =? 0); simpl; [apply step_same|].
  eapply step_update_active; [exact Hl|apply kept_active].
Qed.

Lemma step_filter_control st msg name live ret b :
  step b st (fst (ltt_filter_control st msg name live ret)).
Proof.
  unfold ltt_filter_control.
  destruct (_ltt_trace_find st name) as [[i t]|]; [|apply step_same].
  destruct (try_module_get (ltt_filter_control_owner st) live st)
    as [pinned st1] eqn:Hget.
  pose proof (try_module_get_lists (ltt_filter_control_owner st) live st)
    as (G1 & G2 & _).
  rewrite Hget in G1, G2. simpl in G1, G2.
  destruct pinned; simpl negb; cbv iota.
  2:{ simpl. rewrite G1, G2. apply step_same. }
  destruct msg; cbn [fst];
    match goal with
    | |- context [module_put ?m ?s] =>
        destruct (module_put_lists m s) as (M1 & M2 & _); rewrite M1, M2
    end; simpl; rewrite G1, G2; apply step_same.
Qed.

Lemma step_module_register st name f o b :
  step b st (fst (ltt_module_register st name f o)).
Proof.
  unfold ltt_module_register. destruct name; simpl;
    match goal with |- context [match ?x with _ => _ end] => destruct x end;
    simpl; apply step_same.
Qed.

Lemma step_module_unregister st name b :
  step b st (ltt_module_unregister st name).
Proof. destruct name; simpl; apply step_same. Qed.

(** Every call changes the lists in one of the listed ways; only
    [ltt_trace_set_type] may change a transport. *)
Lemma handle_step st r : step (is_set_type r) st (fst (handle K st r)).
Proof.
  destruct r; simpl handle; simpl is_set_type.
  - apply step_module_register.
  - apply step_module_unregister.
  - simpl. apply step_same.
  - simpl. apply step_same.
  - apply step_setup.
  - apply step_set_type.
  - apply step_set_subbufsize.
  - apply step_set_subbufcount.
  - apply step_set_switch_timer.
  - apply step_set_overwrite.
  - apply step_alloc.
  - apply step_destroy.
  - apply step_start.
  - apply step_stop.
  - apply step_filter_control.
Qed.

End Steps.

(** ** Invariants of the registry *)

Lemma elem_of_insert_inv {A} (l : list A) i x y :
  y ∈ <[i := x]> l -> y = x \/ y ∈ l.
Proof.
  intros H. apply list_elem_of_lookup in H as [j Hj].
  apply list_lookup_insert_Some in Hj as [(_ & -> & _)|[_ Hj]]; [auto|].
  right. apply list_elem_of_lookup. eauto.
Qed.

Lemma insert_nil_iff {A} (l : list A) i x : <[i := x]> l = [] <-> l = [].
Proof.
  split.
  - intros H. apply (f_equal length) in H. rewrite length_insert in H.
    destruct l; [reflexivity|discriminate].
  - intros ->. reflexivity.
Qed.

(** Two traces of a registry with unique names that answer to the same
    name are the same trace. *)
Lemma key_inj (l : list ltt_trace) t u :
  NoDup (map trace_key l) -> t ∈ l -> u ∈ l -> trace_key t = trace_key u ->
  t = u.
Proof.
  intros Hnd Ht Hu Hk.
  apply list_elem_of_lookup in Ht as [i Hi], Hu as [j Hj].
  assert (i = j).
  { eapply NoDup_lookup; [exact Hnd| |].
    - rewrite list_lookup_fmap, Hi. reflexivity.
    - rewrite list_lookup_fmap, Hj. simpl. congruence. }
  subst j. congruence.
Qed.

Section ListsStep.

Variables (R : ltt_trace -> ltt_trace -> Prop) (F : ltt_trace -> Prop).
Hypothesis R_name : forall t t', R t t' -> trace_name t' = trace_name t.

Lemma R_key t t' : R t t' -> trace_key t' = trace_key t.
Proof. intros H. unfold trace_key. rewrite (R_name _ _ H). reflexivity. Qed.

(** Names stay unique. *)
Lemma lists_step_unique s h s' h' :
  lists_step R F s h s' h' ->
  NoDup (map trace_key (s ++ h)) -> NoDup (map trace_key (s' ++ h')).
Proof.
  intros Hstep Hnd. destruct Hstep as [|t Ht Hf|i t t' Hl Hr|i t t' Hl Hr|i t t' Hl Hr|i|i].
  - exact Hnd.
  - simpl. apply NoDup_cons. split; [|exact Hnd].
    intros Hin. apply list_elem_of_fmap in Hin as (u & Hu & Hin).
    rewrite Forall_forall in Hf. apply (Hf u Hin). congruence.
  - rewrite map_app.
    assert (E : map trace_key (<[i := t']> s) = map trace_key s).
    { change (trace_key <$> <[i := t']> s = trace_key <$> s).
      rewrite list_fmap_insert. apply list_insert_id.
      rewrite list_lookup_fmap, Hl. simpl. rewrite (R_key _ _ Hr). reflexivity. }
    rewrite E, <- map_app. exact Hnd.
  - rewrite map_app.
    assert (E : map trace_key (<[i := t']> h) = map trace_key h).
    { change (trace_key <$> <[i := t']> h = trace_key <$> h).
      rewrite list_fmap_insert. apply list_insert_id.
      rewrite list_lookup_fmap, Hl. simpl. rewrite (R_key _ _ Hr). reflexivity. }
    rewrite E, <- map_app. exact Hnd.
  - assert (P : map trace_key (delete i s ++ t' :: h)
                ≡ₚ map trace_key (s ++ h)).
    { rewrite !map_app. simpl. rewrite (R_key _ _ Hr).
      rewrite (delete_Permutation s i t Hl) at 2. simpl.
      rewrite Permutation_middle. reflexivity. }
    rewrite P. exact Hnd.
  - eapply sublist_NoDup; [exact Hnd|].
    apply (fmap_sublist trace_key), sublist_app; [apply sublist_delete|reflexivity].
  - eapply sublist_NoDup; [exact Hnd|].
    apply (fmap_sublist trace_key), sublist_app; [reflexivity|apply sublist_delete].
Qed.

(** Where a trace of the lists after a call comes from: it was there
    before, or it is the image of a trace that was there, or it is new and
    no earlier trace answers to its name. *)
Lemma lists_step_elem s h s' h' t' :
  lists_step R F s h s' h' -> t' ∈ s' ++ h' ->
  t' ∈ s ++ h \/
  (exists t, t ∈ s ++ h /\ R t t') \/
  (F t' /\ Forall (fun u => trace_key u <> trace_key t') (s ++ h)).
Proof.
  intros Hstep Hin.
  destruct Hstep as [|t Ht Hf|i t u Hl Hr|i t u Hl Hr|i t u Hl Hr|i|i];
    rewrite ?elem_of_app, ?elem_of_cons in *.
  - auto.
  - destruct Hin as [[->|Hin]|Hin]; auto.
  - destruct Hin as [Hin|Hin]; [|auto].
    apply elem_of_insert_inv in Hin as [->|Hin]; [|auto].
    right; left. exists t. split; [|exact Hr].
    apply elem_of_app. left. apply list_elem_of_lookup. eauto.
  - destruct Hin as [Hin|Hin]; [auto|].
    apply elem_of_insert_inv in Hin as [->|Hin]; [|auto].
    right; left. exists t. split; [|exact Hr].
    apply elem_of_app. right. apply list_elem_of_lookup. eauto.
  - destruct Hin as [Hin|[->|Hin]]; [| |auto].
    + left. left. eapply list_elem_of_delete_inv, Hin.
    + right; left. exists t. split; [|exact Hr].
      apply elem_of_app. left. apply list_elem_of_lookup. eauto.
  - destruct Hin as [Hin|Hin]; [|auto].
    left. left. eapply list_elem_of_delete_inv, Hin.
  - destruct Hin as [Hin|Hin]; [auto|].
    left. right. eapply list_elem_of_delete_inv, Hin.
Qed.

End ListsStep.

Lemma run_app K rs1 : forall st rs2,
  run K st (rs1 ++ rs2) = run K (run K st rs1) rs2.
Proof. induction rs1 as [|r rs IH]; intros st rs2; [reflexivity|apply IH]. Qed.

(** A property of the initial state that every call preserves holds after
    every history. *)
Lemma run_invariant K (P : ltt_state -> Prop) :
  (forall st r, P st -> P (fst (handle K st r))) ->
  forall rs st, P st -> P (run K st rs).
Proof.
  intros Hstep. induction rs as [|r rs IH]; intros st Hst; [exact Hst|].
  simpl. apply IH, Hstep, Hst.
Qed.

Section Invariants.

Variable K : kernel_config.

Lemma session_kept_name b t t' :
  session_kept K b t t' -> trace_name t' = trace_name t.
Proof. intros (H & _). exact H. Qed.

Lemma handle_names_unique st r :
  names_unique st -> names_unique (fst (handle K st r)).
Proof.
  unfold names_unique, sessions.
  apply (lists_step_unique (session_kept K (is_set_type r)) (session_fresh K)).
  - apply session_kept_name.
  - apply handle_step.
Qed.

(** Names are unique after every history of calls. *)
Lemma run_names_unique rs : names_unique (run K ltt_init_state rs).
Proof.
  apply run_invariant; [intros st r; apply handle_names_unique|].
  unfold names_unique. simpl. apply NoDup_nil_2.
Qed.

Lemma handle_metadata_off st r :
  metadata_registered K ->
  Forall (fun t => metadata_overwrite K t = Some 0) (sessions st) ->
  Forall (fun t => metadata_overwrite K t = Some 0)
    (sessions (fst (handle K st r))).
Proof.
  intros Hreg Hst. rewrite Forall_forall in *. intros t' Hin.
  destruct (lists_step_elem _ _ _ _ _ _ t' (handle_step K st r) Hin)
    as [H|[(t & Ht & Hk)|[(_ & Hf) _]]].
  - apply Hst, H.
  - destruct Hk as (_ & Hm & _). apply Hm; [exact Hreg|]. apply Hst, Ht.
  - apply Hf, Hreg.
Qed.

Lemma run_metadata_off rs :
  metadata_registered K ->
  Forall (fun t => metadata_overwrite K t = Some 0)
    (sessions (run K ltt_init_state rs)).
Proof.
  intros Hreg.
  apply (run_invariant K
           (fun st => Forall (fun t => metadata_overwrite K t = Some 0)
                        (sessions st))).
  - intros st r. apply handle_metadata_off, Hreg.
  - apply Forall_nil_2.
Qed.

(** A call other than [ltt_trace_set_type] leaves every trace it keeps
    with the transport it had. *)
Lemma handle_transport_kept st r t t' :
  is_set_type r = false -> names_unique st ->
  t ∈ sessions st -> t' ∈ sessions (fst (handle K st r)) ->
  trace_name t' = trace_name t -> transport t' = transport t.
Proof.
  intros Hr Hnd Ht Ht' Hname.
  assert (Hkey : trace_key t' = trace_key t)
    by (unfold trace_key; rewrite Hname; reflexivity).
  pose proof (handle_step K st r) as Hstep. rewrite Hr in Hstep.
  destruct (lists_step_elem _ _ _ _ _ _ t' Hstep Ht')
    as [H|[(u & Hu & Hk)|[_ Hf]]].
  - f_equal. eapply key_inj; eauto.
  - destruct Hk as (Hn & _ & Htr). rewrite Htr by reflexivity. f_equal.
    eapply key_inj; eauto. unfold trace_key. congruence.
  - rewrite Forall_forall in Hf. exfalso. apply (Hf t Ht). congruence.
Qed.

End Invariants.

(** [ltt_control] adds no transition of its own: the state it leaves is the
    state after a history of the calls it dispatches to. *)
Lemma ltt_control_history K st msg name trace_type senv aenv tenv :
  exists rs,
    fst (ltt_control K st msg name trace_type senv aenv tenv) = run K st rs.
Proof.
  destruct msg; simpl.
  - exists [Req_trace_start name tenv]. reflexivity.
  - exists [Req_trace_stop name]. reflexivity.
  - unfold ltt_trace_create.
    destruct (ltt_trace_setup K st name senv) as [st1 e1] eqn:E1.
    destruct (IS_ERR_VALUE e1).
    { exists [Req_trace_setup name senv]. simpl. rewrite E1. reflexivity. }
    destruct (ltt_trace_set_type st1 name trace_type) as [st2 e2] eqn:E2.
    destruct (IS_ERR_VALUE e2).
    { exists [Req_trace_setup name senv; Req_trace_set_type name trace_type].
      simpl. rewrite E1. simpl. rewrite E2. reflexivity. }
    exists [Req_trace_setup name senv; Req_trace_set_type name trace_type;
            Req_trace_alloc name aenv].
    simpl. rewrite E1. simpl. rewrite E2. reflexivity.
  - exists [Req_trace_destroy name]. reflexivity.
  - exists []. reflexivity.
Qed.

(** ** Trace setup and name uniqueness *)

Lemma not_in_use_None st name :
  ~ name_in_use st name ->
  _ltt_trace_find_setup st name = None /\ _ltt_trace_find st name = None.
Proof.
  unfold name_in_use. intros H.
  destruct (_ltt_trace_find_setup st name) eqn:E1;
    [exfalso; apply H; left; eauto|].
  destruct (_ltt_trace_find st name) eqn:E2;
    [exfalso; apply H; right; eauto|]. auto.
Qed.

(** A name is in use exactly when a trace of the registry answers to it;
    in particular when a trace is stored under that very name. *)
Lemma name_in_use_iff st name :
  name_in_use st name <->
  exists t, t ∈ sessions st /\ trace_key t = strncpy name NAME_MAX.
Proof.
  unfold name_in_use, sessions, _ltt_trace_find_setup, _ltt_trace_find. split.
  - intros [[[i t] H]|[[i t] H]]; apply find_Some_lookup in H as [Hl Hk];
      exists t; (split; [|exact Hk]); apply elem_of_app;
      [left|right]; apply list_elem_of_lookup; eauto.
  - intros (t & Hin & Hk). apply elem_of_app in Hin as [Hin|Hin].
    + left. destruct (list_find (name_matches name) (setup_head st)) eqn:E;
        [eauto|].
      apply find_None_keys in E. rewrite Forall_forall in E.
      exfalso. exact (E t Hin Hk).
    + right. destruct (list_find (name_matches name) (head st)) eqn:E;
        [eauto|].
      apply find_None_keys in E. rewrite Forall_forall in E.
      exfalso. exact (E t Hin Hk).
Qed.

Lemma stored_name_in_use st t :
  t ∈ sessions st -> name_in_use st (trace_name t).
Proof. intros Hin. apply name_in_use_iff. exists t. split; [exact Hin|reflexivity]. Qed.

Lemma setup_in_use K st name env :
  name_in_use st name -> ltt_trace_setup K st name env = (st, - EEXIST).
Proof.
  unfold ltt_trace_setup, _ltt_trace_setup. intros [[x H]|[x H]].
  - rewrite H. reflexivity.
  - rewrite H. destruct (_ltt_trace_find_setup st name); reflexivity.
Qed.

Lemma setup_links K st name env :
  ~ name_in_use st name -> allocations_succeed env ->
  exists t,
    ltt_trace_setup K st name env = (with_setup_head (t :: setup_head st) st, 0)
    /\ trace_name t = strncpy name NAME_MAX.
Proof.
  intros Hfree (Hk & Hc). apply not_in_use_None in Hfree as (E1 & E2).
  unfold ltt_trace_setup, _ltt_trace_setup. rewrite E1, E2, Hk, Hc.
  simpl negb. cbv iota.
  eexists. split; [reflexivity|].
  match goal with
  | |- context [set_channel_defaults K ?t] =>
      destruct (set_channel_defaults_frame K t) as (Hn & _)
  end.
  rewrite Hn. reflexivity.
Qed.

Lemma find_setup_head st t name :
  trace_name t = strncpy name NAME_MAX ->
  _ltt_trace_find_setup (with_setup_head (t :: setup_head st) st) name
  = Some (0%nat, t).
Proof.
  intros Hn. unfold _ltt_trace_find_setup. simpl.
  destruct (decide (name_matches name t)) as [|Hno]; [reflexivity|].
  exfalso. apply Hno. unfold name_matches. rewrite Hn.
  apply strncmp_strncpy.
Qed.

(** *** Membership and the lookups *)

Lemma name_held_in_use st name : name_held st name <-> name_in_use st name.
Proof.
  rewrite name_in_use_iff. unfold name_held, sessions.
  split; intros (t & Hin & Hk); exists t; (split; [|exact Hk]).
  - apply elem_of_app. exact Hin.
  - apply elem_of_app in Hin. exact Hin.
Qed.

(** *** Calls that are not destructions keep every name *)

Lemma lists_grow_name s h s' h' t :
  lists_grow s h s' h' -> t ∈ s \/ t ∈ h ->
  exists t', (t' ∈ s' \/ t' ∈ h') /\ trace_name t' = trace_name t.
Proof.
  intros Hg Hin.
  destruct Hg as [|u|i u u' Hl Hn|i u u' Hl Hn|i u u' Hl Hn].
  - exists t. auto.
  - exists t. split; [|reflexivity].
    destruct Hin as [Hin|Hin]; [left; apply list_elem_of_further, Hin|auto].
  - destruct Hin as [Hin|Hin]; [|exists t; auto].
    apply list_elem_of_lookup in Hin as [j Hj].
    destruct (decide (i = j)) as [->|Hne].
    + exists u'. split; [|congruence]. left. apply list_elem_of_lookup.
      exists j. apply list_lookup_insert_eq. eapply lookup_lt_Some, Hl.
    + exists t. split; [|reflexivity]. left. apply list_elem_of_lookup.
      exists j. rewrite list_lookup_insert_ne by exact Hne. exact Hj.
  - destruct Hin as [Hin|Hin]; [exists t; auto|].
    apply list_elem_of_lookup in Hin as [j Hj].
    destruct (decide (i = j)) as [->|Hne].
    + exists u'. split; [|congruence]. right. apply list_elem_of_lookup.
      exists j. apply list_lookup_insert_eq. eapply lookup_lt_Some, Hl.
    + exists t. split; [|reflexivity]. right. apply list_elem_of_lookup.
      exists j. rewrite list_lookup_insert_ne by exact Hne. exact Hj.
  - destruct Hin as [Hin|Hin];
      [|exists t; split; [right; apply list_elem_of_further, Hin|reflexivity]].
    rewrite (delete_Permutation s i u Hl) in Hin.
    apply elem_of_cons in Hin as [->|Hin].
    + exists u'. split; [right; apply list_elem_of_here|exact Hn].
    + exists t. auto.
Qed.

Section Grow.

Variable K : kernel_config.

Local Abbreviation grow st st' :=
  (lists_grow (setup_head st) (head st) (setup_head st') (head st')).

Lemma grow_setup st name env :
  grow st (fst (ltt_trace_setup K st name env)).
Proof.
  unfold ltt_trace_setup, _ltt_trace_setup.
  destruct (_ltt_trace_find_setup st name); [apply grow_same|].
  destruct (_ltt_trace_find st name); [apply grow_same|].
  destruct (kzalloc_ok env); [|apply grow_same]. simpl negb. cbv iota.
  destruct (channels_trace_alloc_ret env =? 0); [|apply grow_same].
  simpl negb. cbv iota. cbn [fst setup_head head with_setup_head].
  apply grow_new.
Qed.

Lemma grow_set_type st name ty :
  grow st (fst (ltt_trace_set_type st name ty)).
Proof.
  unfold ltt_trace_set_type.
  destruct (_ltt_trace_find_setup st name) as [[i t]|] eqn:Hs; [|apply grow_same].
  destruct (list_find _ (ltt_transport_list st)) as [[j tr]|]; [|apply grow_same].
  apply find_Some_lookup in Hs as [Hl _].
  simpl. eapply grow_update_setup; [exact Hl|reflexivity].
Qed.

Lemma grow_set_subbufsize st name c v :
  grow st (fst (ltt_trace_set_channel_subbufsize K st name c v)).
Proof.
  unfold ltt_trace_set_channel_subbufsize.
  destruct (_ltt_trace_find_setup st name) as [[i t]|] eqn:Hs; [|apply grow_same].
  destruct (_ <? 0); [apply grow_same|].
  apply find_Some_lookup in Hs as [Hl _].
  simpl. eapply grow_update_setup; [exact Hl|reflexivity].
Qed.

Lemma grow_set_subbufcount st name c v :
  grow st (fst (ltt_trace_set_channel_subbufcount K st name c v)).
Proof.
  unfold ltt_trace_set_channel_subbufcount.
  destruct (_ltt_trace_find_setup st name) as [[i t]|] eqn:Hs; [|apply grow_same].
  destruct (_ <? 0); [apply grow_same|].
  apply find_Some_lookup in Hs as [Hl _].
  simpl. eapply grow_update_setup; [exact Hl|reflexivity].
Qed.

Lemma grow_set_switch_timer st name c v :
  grow st (fst (ltt_trace_set_channel_switch_timer K st name c v)).
Proof.
  unfold ltt_trace_set_channel_switch_timer.
  destruct (_ltt_trace_find_setup st name) as [[i t]|] eqn:Hs; [|apply grow_same].
  destruct (_ <? 0); [apply grow_same|].
  apply find_Some_lookup in Hs as [Hl _].
  simpl. eapply grow_update_setup; [exact Hl|reflexivity].
Qed.

Lemma grow_set_overwrite st name c v :
  grow st (fst (ltt_trace_set_channel_overwrite K st name c v)).
Proof.
  unfold ltt_trace_set_channel_overwrite.
  destruct (_ltt_trace_find_setup st name) as [[i t]|] eqn:Hs; [|apply grow_same].
  destruct (negb (v =? 0) && _); [apply grow_same|].
  destruct (_ <? 0); [apply grow_same|].
  apply find_Some_lookup in Hs as [Hl _].
  simpl. eapply grow_update_setup; [exact Hl|reflexivity].
Qed.

Lemma grow_alloc st name env :
  grow st (fst (ltt_trace_alloc K st name env)).
Proof.
  unfold ltt_trace_alloc.
  destruct (_ltt_trace_find_setup st name) as [[i t]|] eqn:Hs; [|apply grow_same].
  apply find_Some_lookup in Hs as [Hl _].
  cbn [transport set_freq_scale set_active set_kref_wq set_kref].
  destruct (transport t) as [tr|] eqn:Htr.
  2:{ simpl. eapply grow_update_setup; [exact Hl|reflexivity]. }
  destruct (try_module_get (tr_owner tr) (transport_live env) (get_trace_clock st))
    as [pinned st1] eqn:Hget.
  pose proof (try_module_get_lists (tr_owner tr) (transport_live env)
                (get_trace_clock st)) as (G1 & G2 & _).
  rewrite Hget in G1, G2. simpl in G1, G2.
  destruct pinned; simpl negb; cbv iota.
  2:{ simpl. rewrite G1, G2. eapply grow_update_setup; [exact Hl|reflexivity]. }
  destruct (create_dirs_ret env =? 0) eqn:Hd; simpl negb; cbv iota.
  2:{ cbn [fst]. destruct (module_put_lists (tr_owner tr)
        (store_setup i
           (set_ops (Some tr)
              (set_freq_scale (clock_freq_scale env)
                 (set_active 0 (set_kref_wq true (set_kref 1 t)))))
           (emit (Ev_create_dirs (trace_name t)) st1))) as (M1 & M2 & _).
      simpl in M1, M2 |- *. rewrite M1, M2, G1, G2.
      eapply grow_update_setup; [exact Hl|reflexivity]. }
  apply Z.eqb_eq in Hd. rewrite Hd.
  match goal with
  | |- context [create_channels K env 0 ?l ?t0 ?s0] =>
      destruct (create_channels_completes K env l t0 s0) as (chs & evs & E);
      rewrite E
  end.
  simpl. rewrite G1, G2.
  destruct (head st) eqn:Hhead; simpl; rewrite ?G1, ?G2;
    (eapply grow_move; [exact Hl|reflexivity]).
Qed.

Lemma grow_start st name env :
  grow st (fst (ltt_trace_start st name env)).
Proof.
  unfold ltt_trace_start, _ltt_trace_start.
  destruct (_ltt_trace_find st name) as [[i t]|] eqn:Ha; [|apply grow_same].
  apply find_Some_lookup in Ha as [Hl _].
  destruct (try_module_get (ltt_run_filter_owner st) (run_filter_live env) st)
    as [pinned st1] eqn:Hget.
  pose proof (try_module_get_lists (ltt_run_filter_owner st)
                (run_filter_live env) st) as (G1 & G2 & _).
  rewrite Hget in G1, G2. simpl in G1, G2.
  destruct pinned; simpl negb; cbv iota.
  2:{ simpl. rewrite G1, G2. apply grow_same. }
  simpl.
  match goal with
  | |- context [try_module_get ?m ?l ?s] =>
      destruct (try_module_get m l s) as [pinned2 st2] eqn:Hget2;
      pose proof (try_module_get_lists m l s) as (P1 & P2 & _);
      rewrite Hget2 in P1, P2; simpl in P1, P2
  end.
  destruct pinned2; simpl.
  - match goal with
    | |- context [module_put ?m ?s] =>
        destruct (module_put_lists m s) as (M1 & M2 & _); rewrite M1, M2
    end.
    simpl. rewrite P1, P2, G1, G2.
    eapply grow_update_active; [exact Hl|reflexivity].
  - rewrite P1, P2, G1, G2.
    eapply grow_update_active; [exact Hl|reflexivity].
Qed.

Lemma grow_stop st name :
  grow st (fst (ltt_trace_stop st name)).
Proof.
  unfold ltt_trace_stop, _ltt_trace_stop.
  destruct (_ltt_trace_find st name) as [[i t]|] eqn:Ha; [|apply grow_same].
  apply find_Some_lookup in Ha as [Hl _].
  cbn [fst].
  match goal with
  | |- context [module_put ?m ?s] =>
      destruct (module_put_lists m s) as (M1 & M2 & _); rewrite M1, M2
  end.
  destruct (active t =? 0); simpl; [apply grow_same|].
  eapply grow_update_active; [exact Hl|reflexivity].
Qed.

Lemma grow_filter_control st msg name live ret :
  grow st (fst (ltt_filter_control st msg name live ret)).
Proof.
  unfold ltt_filter_control.
  destruct (_ltt_trace_find st name) as [[i t]|]; [|apply grow_same].
  destruct (try_module_get (ltt_filter_control_owner st) live st)
    as [pinned st1] eqn:Hget.
  pose proof (try_module_get_lists (ltt_filter_control_owner st) live st)
    as (G1 & G2 & _).
  rewrite Hget in G1, G2. simpl in G1, G2.
  destruct pinned; simpl negb; cbv iota.
  2:{ simpl. rewrite G1, G2. apply grow_same. }
  destruct msg; cbn [fst];
    match goal with
    | |- context [module_put ?m ?s] =>
        destruct (module_put_lists m s) as (M1 & M2 & _); rewrite M1, M2
    end; simpl; rewrite G1, G2; apply grow_same.
Qed.

Lemma grow_module_register st name f o :
  grow st (fst (ltt_module_register st name f o)).
Proof.
  unfold ltt_module_register. destruct name; simpl;
    match goal with |- context [match ?x with _ => _ end] => destruct x end;
    simpl; apply grow_same.
Qed.

(** A destruction removes a trace of the name it is given, and no other. *)
Lemma destroy_keeps_other st n name :
  strncpy n NAME_MAX <> strncpy name NAME_MAX ->
  name_held st name -> name_held (fst (ltt_trace_destroy st n)) name.
Proof.
  intros Hne (t & Hin & Hk).
  assert (Hdel : forall (l : list ltt_trace) i u,
             list_find (name_matches n) l = Some (i, u) -> t ∈ l ->
             t ∈ delete i l).
  { intros l i u Hf Ht. apply find_Some_lookup in Hf as [Hl Hku].
    rewrite (delete_Permutation l i u Hl) in Ht.
    apply elem_of_cons in Ht as [->|Ht]; [congruence|exact Ht]. }
  unfold ltt_trace_destroy, _ltt_trace_destroy.
  destruct (_ltt_trace_find st n) as [[i u]|] eqn:Ha.
  - destruct (active u =? 0); simpl negb; cbv iota; [|exists t; auto].
    exists t. split; [|exact Hk].
    destruct (delete i (head st)) as [|v l] eqn:Hd; simpl;
      rewrite ?Hd; simpl;
      match goal with
      | |- context [__ltt_trace_destroy ?s u] =>
          destruct (__ltt_trace_destroy_lists s u) as (D1 & D2 & _);
          rewrite D1, D2; simpl
      end; rewrite <- Hd;
      (destruct Hin as [Hin|Hin]; [left; exact Hin|right; eapply Hdel; eauto]).
  - destruct (_ltt_trace_find_setup st n) as [[i u]|] eqn:Hs; [|exists t; auto].
    exists t. split; [|exact Hk]. simpl.
    destruct Hin as [Hin|Hin]; [left; eapply Hdel; eauto|right; exact Hin].
Qed.

(** Every call that is not a destruction of the name leaves the name held. *)
Lemma handle_keeps_held st r name :
  ~ destroys name r -> name_held st name ->
  name_held (fst (handle K st r)) name.
Proof.
  intros Hr Hheld.
  assert (Hgrow : grow st (fst (handle K st r)) -> 
                  name_held (fst (handle K st r)) name).
  { intros Hg. destruct Hheld as (t & Hin & Hk).
    destruct (lists_grow_name _ _ _ _ t Hg Hin) as (t' & Hin' & Hn).
    exists t'. split; [exact Hin'|]. unfold trace_key in *. rewrite Hn. exact Hk. }
  destruct r; simpl handle in *;
    try (apply Hgrow; simpl; first
      [ apply grow_module_register | apply grow_setup | apply grow_set_type
      | apply grow_set_subbufsize | apply grow_set_subbufcount
      | apply grow_set_switch_timer | apply grow_set_overwrite
      | apply grow_alloc | apply grow_start | apply grow_stop
      | apply grow_filter_control
      | destruct name0; apply grow_same | apply grow_same ]).
  apply destroy_keeps_other; [|exact Hheld]. exact Hr.
Qed.

Lemma run_keeps_held rs name : forall st,
  Forall (fun r => ~ destroys name r) rs -> name_held st name ->
  name_held (run K st rs) name.
Proof.
  induction rs as [|r rs IH]; intros st Hall Hheld; [exact Hheld|].
  apply Forall_cons in Hall as [Hr Hrs]. simpl.
  apply IH; [exact Hrs|]. apply handle_keeps_held; assumption.
Qed.

(** A creation that returns 0 has linked a trace of that name. *)
Lemma setup_success_held st name env :
  snd (ltt_trace_setup K st name env) = 0 ->
  name_held (fst (ltt_trace_setup K st name env)) name.
Proof.
  unfold ltt_trace_setup, _ltt_trace_setup.
  destruct (_ltt_trace_find_setup st name); [discriminate|].
  destruct (_ltt_trace_find st name); [discriminate|].
  destruct (kzalloc_ok env); [|discriminate]. simpl negb. cbv iota.
  destruct (channels_trace_alloc_ret env =? 0); [|discriminate].
  simpl negb. cbv iota. intros _.
  match goal with
  | |- context [set_channel_defaults K ?t] =>
      destruct (set_channel_defaults_frame K t) as (Hn & _);
      exists (set_channel_defaults K t)
  end.
  split; [left; apply list_elem_of_here|].
  unfold trace_key. rewrite Hn. simpl. apply strncpy_idem.
Qed.

End Grow.

(** C1, as amended: creating a trace fails with -EEXIST and changes nothing
    whenever a trace stored under that name is a member of the setup list
    or of the active list, and this stays so after any further calls that
    do not destroy that name (a trace that was configured, allocated,
    started or stopped in between still holds its name).  When no trace of
    either list holds the name and both memory allocations succeed, the
    call returns 0 and links a new trace storing the name at the head of
    the setup list.  Hence once a creation of a name has returned 0, every
    later creation of it returns -EEXIST without any effect until the name
    is destroyed.  When no trace holds the name and an allocation fails,
    the call returns -ENOMEM and adds nothing. *)
Theorem ltt_trace_setup_name_in_use K st name :
  (name_held st name ->
   forall rs env, Forall (fun r => ~ destroys name r) rs ->
     ltt_trace_setup K (run K st rs) name env = (run K st rs, - EEXIST)) /\
  (~ name_held st name ->
   forall env, allocations_succeed env ->
     exists t,
       ltt_trace_setup K st name env
       = (with_setup_head (t :: setup_head st) st, 0) /\
       trace_name t = strncpy name NAME_MAX) /\
  (forall env rs env',
     snd (ltt_trace_setup K st name env) = 0 ->
     Forall (fun r => ~ destroys name r) rs ->
     let st' := run K (fst (ltt_trace_setup K st name env)) rs in
     ltt_trace_setup K st' name env' = (st', - EEXIST)) /\
  (~ name_held st name ->
   forall env, ~ allocations_succeed env ->
     ltt_trace_setup K st name env = (st, - ENOMEM)).
Proof.
  split; [|split; [|split]].
  - intros Hheld rs env Hrs. apply setup_in_use, name_held_in_use.
    apply run_keeps_held; assumption.
  - intros Hfree env Hok.
    assert (Hfree' : ~ name_in_use st name)
      by (intros H; apply Hfree, name_held_in_use, H).
    destruct (setup_links K st name env Hfree' Hok) as (t & E & Hn).
    exists t. split; [exact E|exact Hn].
  - intros env rs env' H0 Hrs st'. apply setup_in_use, name_held_in_use.
    apply run_keeps_held; [exact Hrs|]. apply setup_success_held, H0.
  - intros Hfree env Hfail.
    assert (Hfree' : ~ name_in_use st name)
      by (intros H; apply Hfree, name_held_in_use, H).
    apply not_in_use_None in Hfree' as (E1 & E2).
    unfold ltt_trace_setup, _ltt_trace_setup. rewrite E1, E2.
    destruct (kzalloc_ok env) eqn:Hk; simpl negb; cbv iota; [|reflexivity].
    destruct (Z.eqb_spec (channels_trace_alloc_ret env) 0) as [Hc|Hc];
      [|reflexivity].
    exfalso. apply Hfail. split; assumption.
Qed.

(** The amended C1 on the example history, where "t1" is a member of the
    active list and of no other: a creation of "t1" is refused, also after
    a stop, and a creation of "t2" is not; from the empty registry "t1"
    is created, configured and allocated, and then refused. *)
Lemma ltt_trace_setup_name_in_use_witness :
  let st := run K0 ltt_init_state example_started_history in
  map trace_name (setup_head st) = [] /\
  map trace_name (head st) = ["t1"%string] /\
  ltt_trace_setup K0 (run K0 st [Req_trace_stop "t1"]) "t1" setup_ok
  = (run K0 st [Req_trace_stop "t1"], - EEXIST) /\
  snd (ltt_trace_setup K0 st "t2" setup_ok) = 0 /\
  snd (ltt_trace_setup K0
         (run K0 (fst (ltt_trace_setup K0 ltt_init_state "t1" setup_ok))
            [ Req_transport_register mem_transport;
              Req_trace_set_type "t1" "mem";
              Req_trace_alloc "t1" alloc_ok ])
         "t1" setup_ok) = - EEXIST.
Proof.
  intros st.
  destruct (ltt_trace_setup_name_in_use K0 st "t1") as (Hheld & _).
  destruct (ltt_trace_setup_name_in_use K0 st "t2") as (_ & Hfree & _).
  destruct (ltt_trace_setup_name_in_use K0 ltt_init_state "t1")
    as (_ & _ & Hseq & _).
  split; [vm_compute; reflexivity|]. split; [vm_compute; reflexivity|].
  split; [|split].
  - apply Hheld.
    + eexists. split; [right; vm_compute; apply list_elem_of_here|].
      vm_compute. reflexivity.
    + repeat constructor. simpl. auto.
  - destruct (Hfree) with (env := setup_ok) as (t & E & _).
    + intros (u & [Hu|Hu] & Hk); vm_compute in Hu.
      * apply elem_of_nil in Hu. exact Hu.
      * apply elem_of_cons in Hu as [->|Hu];
          [vm_compute in Hk; discriminate|].
        apply elem_of_nil in Hu. exact Hu.
    + split; reflexivity.
    + rewrite E. reflexivity.
  - rewrite (Hseq setup_ok
               [ Req_transport_register mem_transport;
                 Req_trace_set_type "t1" "mem";
                 Req_trace_alloc "t1" alloc_ok ] setup_ok).
    + reflexivity.
    + vm_compute. reflexivity.
    + repeat constructor; simpl; auto.
Defined.

(** The statement of C1 fails when the name is free and [kzalloc] returns
    NULL: the call returns -ENOMEM and links nothing. *)
Lemma ltt_trace_setup_free_name_enomem :
  ~ creation_succeeds_when_free K0 ltt_init_state "t1" setup_nomem.
Proof.
  unfold creation_succeeds_when_free. intros H.
  destruct H as (t & E).
  - intros (u & [Hu|Hu] & _); vm_compute in Hu;
      apply elem_of_nil in Hu; exact Hu.
  - assert (E' : ltt_trace_setup K0 ltt_init_state "t1" setup_nomem
                 = (ltt_init_state, - ENOMEM)) by (vm_compute; reflexivity).
    rewrite E' in E. injection E as _ E. unfold ENOMEM in E. lia.
Qed.

(** ** Buffer allocation *)

(** Once the directories are created the allocation cannot fail: the
    result of [ltt_create_channel] is stored and never tested, so the trace
    moves to the active list whatever the channel creations return. *)
Lemma alloc_ignores_channel_results K st name env i t tr :
  _ltt_trace_find_setup st name = Some (i, t) ->
  transport t = Some tr ->
  fst (try_module_get (tr_owner tr) (transport_live env) (get_trace_clock st))
  = true ->
  create_dirs_ret env = 0 ->
  snd (ltt_trace_alloc K st name env) = 0 /\
  setup_head (fst (ltt_trace_alloc K st name env)) = delete i (setup_head st) /\
  exists t',
    head (fst (ltt_trace_alloc K st name env)) = t' :: head st /\
    trace_name t' = trace_name t.
Proof.
  intros Hf Htr Hpin Hd. unfold ltt_trace_alloc. rewrite Hf.
  cbn [transport set_freq_scale set_active set_kref_wq set_kref]. rewrite Htr.
  destruct (try_module_get (tr_owner tr) (transport_live env) (get_trace_clock st))
    as [pinned st1] eqn:Hget.
  pose proof (try_module_get_lists (tr_owner tr) (transport_live env)
                (get_trace_clock st)) as (G1 & G2 & _).
  rewrite Hget in G1, G2. simpl in G1, G2, Hpin. subst pinned.
  simpl negb. cbv iota. rewrite Hd. simpl negb. cbv iota.
  match goal with
  | |- context [create_channels K env 0 ?l ?t0 ?s0] =>
      destruct (create_channels_completes K env l t0 s0) as (chs & evs & E);
      rewrite E
  end.
  simpl. rewrite G1, G2.
  destruct (head st); simpl; rewrite ?G1, ?G2; eauto.
Qed.

(** C2, at a failing input: "t1" is pending with the transport "mem" and
    [ltt_create_channel] returns NULL for channel 1.  The call returns 0,
    "t1" is moved to the active list, the transport module stays pinned
    and no channel or directory is torn down. *)
Theorem ltt_trace_alloc_channel_failure_unnoticed :
  let r := ltt_trace_alloc K0 example_configured "t1" alloc_channel_fails in
  snd r = 0 /\
  map trace_name (head (fst r)) = ["t1"%string] /\
  map channels (head (fst r)) = [[100; 0; 102]] /\
  setup_head (fst r) = [] /\
  module_refcount (fst r) 5%positive = 1 /\
  filter (fun e => is_teardown e = true) (events (fst r)) = [].
Proof. vm_compute. repeat split; reflexivity. Qed.

(** ** The metadata channel *)

(** C3: provided the metadata channel is registered, the trace linked by a
    successful creation has its metadata overwrite flag at 0; a call of
    ltt_trace_set_channel_overwrite on a pending trace for the channel
    "metadata" with a non-zero value returns -EINVAL and changes nothing;
    and after every history of calls the metadata overwrite flag of every
    trace of the registry is 0. *)
Theorem metadata_overwrite_always_off K :
  metadata_registered K ->
  (forall st name env st',
     ltt_trace_setup K st name env = (st', 0) ->
     exists t, setup_head st' = t :: setup_head st /\
               metadata_overwrite K t = Some 0) /\
  (forall st name v,
     is_Some (_ltt_trace_find_setup st name) -> v <> 0 ->
     ltt_trace_set_channel_overwrite K st name "metadata" v = (st, - EINVAL)) /\
  (forall rs t,
     t ∈ sessions (run K ltt_init_state rs) -> metadata_overwrite K t = Some 0).
Proof.
  intros Hreg. split; [|split].
  - intros st name env st'. unfold ltt_trace_setup, _ltt_trace_setup.
    destruct (_ltt_trace_find_setup st name); [discriminate|].
    destruct (_ltt_trace_find st name); [discriminate|].
    destruct (kzalloc_ok env); simpl negb; cbv iota; [|discriminate].
    destruct (channels_trace_alloc_ret env =? 0); simpl negb; cbv iota;
      [|discriminate].
    intros E. injection E as <-. eexists. split; [reflexivity|].
    apply fresh_metadata_overwrite, Hreg.
  - intros st name v [[i t] Hf] Hv.
    unfold ltt_trace_set_channel_overwrite. rewrite Hf.
    destruct (Z.eqb_spec v 0) as [|_]; [contradiction|]. reflexivity.
  - intros rs t Ht. pose proof (run_metadata_off K rs Hreg) as H.
    rewrite Forall_forall in H. apply H, Ht.
Qed.

(** C3 on the example configuration: the pending trace "t1" refuses
    overwrite mode for its metadata channel. *)
Lemma metadata_overwrite_always_off_witness :
  ltt_trace_set_channel_overwrite K0 example_pending "t1" "metadata" 1
  = (example_pending, - EINVAL) /\
  Forall (fun t => metadata_overwrite K0 t = Some 0)
    (sessions (run K0 ltt_init_state example_started_history)).
Proof.
  assert (Hreg : metadata_registered K0) by (vm_compute; discriminate).
  destruct (metadata_overwrite_always_off K0 Hreg) as (_ & Hset & Hinv).
  split.
  - apply Hset; [vm_compute; eauto|lia].
  - apply Forall_forall. intros t. apply Hinv.
Defined.

(** ** Transport selection *)

Lemma transport_lookup_None st trace_type :
  ~ transport_registered st trace_type ->
  list_find (fun tran_iter => strcmp (tr_name tran_iter) trace_type = 0)
    (ltt_transport_list st) = None.
Proof.
  intros H. apply list_find_None. apply Forall_forall. intros tr Hin Hs.
  apply H. unfold transport_registered. apply Exists_exists. eauto.
Qed.

(** C4, as amended: ltt_trace_set_type looks the trace up in the setup list
    only.  It returns -ENOENT when no pending trace has that name and
    -EINVAL when the trace is pending but no registered transport has the
    given name; in both cases the registry is unchanged. *)
Theorem ltt_trace_set_type_unresolved st name trace_type :
  (_ltt_trace_find_setup st name = None ->
   ltt_trace_set_type st name trace_type = (st, - ENOENT)) /\
  (is_Some (_ltt_trace_find_setup st name) ->
   ~ transport_registered st trace_type ->
   ltt_trace_set_type st name trace_type = (st, - EINVAL)).
Proof.
  unfold ltt_trace_set_type. split.
  - intros ->. reflexivity.
  - intros [[i t] ->] Hno. rewrite (transport_lookup_None st trace_type Hno).
    reflexivity.
Qed.

(** C4 as amended, on the example registry: an unknown trace gives
    -ENOENT, an unknown transport gives -EINVAL. *)
Lemma ltt_trace_set_type_unresolved_witness :
  ltt_trace_set_type example_pending "t2" "mem" = (example_pending, - ENOENT) /\
  ltt_trace_set_type example_pending "t1" "net" = (example_pending, - EINVAL).
Proof.
  split.
  - apply (proj1 (ltt_trace_set_type_unresolved example_pending "t2" "mem")).
    reflexivity.
  - apply (proj2 (ltt_trace_set_type_unresolved example_pending "t1" "net")).
    + vm_compute. eauto.
    + unfold transport_registered. rewrite Exists_exists.
      intros (tr & Hin & Hs). vm_compute in Hin.
      apply elem_of_cons in Hin as [->|Hin];
        [vm_compute in Hs; discriminate|].
      apply elem_of_cons in Hin as [->|Hin];
        [vm_compute in Hs; discriminate|].
      apply elem_of_nil in Hin. exact Hin.
Defined.

(** The statement of C4 fails when the trace is pending and the transport
    name is unknown: the call returns -EINVAL, not -ENOENT. *)
Lemma ltt_trace_set_type_unknown_transport_einval :
  ~ set_type_not_found example_pending "t1" "net".
Proof.
  unfold set_type_not_found. intros H.
  assert (E : ltt_trace_set_type example_pending "t1" "net"
              = (example_pending, - EINVAL)) by (vm_compute; reflexivity).
  rewrite E in H.
  assert (Hno : ~ transport_registered example_pending "net").
  { unfold transport_registered. rewrite Exists_exists.
    intros (tr & Hin & Hs). vm_compute in Hin.
    apply elem_of_cons in Hin as [->|Hin]; [vm_compute in Hs; discriminate|].
    apply elem_of_cons in Hin as [->|Hin]; [vm_compute in Hs; discriminate|].
    apply elem_of_nil in Hin. exact Hin. }
  specialize (H (or_intror Hno)). injection H. unfold EINVAL, ENOENT. lia.
Qed.

(** ** Allocation without a transport *)

Lemma put_get_trace_clock st : put_trace_clock (get_trace_clock st) = st.
Proof.
  destruct st. unfold put_trace_clock, get_trace_clock, with_trace_clock_users.
  cbn. f_equal. lia.
Qed.

(** C5, as amended: for a pending trace without a transport,
    ltt_trace_alloc returns -EINVAL and the trace stays in the setup list at
    its position; its reference count is initialised to 1, its wait queue
    initialised, its active flag cleared and its frequency scale latched
    from the trace clock, and nothing else in the registry changes. *)
Theorem ltt_trace_alloc_without_transport K st name env i t :
  _ltt_trace_find_setup st name = Some (i, t) -> transport t = None ->
  ltt_trace_alloc K st name env
  = (store_setup i
       (set_freq_scale (clock_freq_scale env)
          (set_active 0 (set_kref_wq true (set_kref 1 t)))) st,
     - EINVAL).
Proof.
  intros Hf Htr. unfold ltt_trace_alloc. rewrite Hf.
  cbn [transport set_freq_scale set_active set_kref_wq set_kref]. rewrite Htr.
  f_equal. destruct st.
  unfold put_trace_clock, get_trace_clock, store_setup,
    with_trace_clock_users, with_setup_head.
  cbn. f_equal. lia.
Qed.

(** C5 as amended, on the freshly created trace "t1". *)
Lemma ltt_trace_alloc_without_transport_witness :
  exists t,
    setup_head example_pending = [t] /\
    ltt_trace_alloc K0 example_pending "t1" alloc_ok
    = (store_setup 0
         (set_freq_scale 1 (set_active 0 (set_kref_wq true (set_kref 1 t))))
         example_pending,
       - EINVAL).
Proof.
  destruct (setup_head example_pending) as [|t l] eqn:E;
    [vm_compute in E; discriminate|].
  exists t. destruct l; [|vm_compute in E; discriminate].
  split; [reflexivity|].
  apply (ltt_trace_alloc_without_transport K0 example_pending "t1" alloc_ok 0 t).
  - unfold _ltt_trace_find_setup. rewrite E. vm_compute in E.
    injection E as <-. vm_compute. reflexivity.
  - vm_compute in E. injection E as <-. reflexivity.
Defined.

(** The statement of C5 fails on a freshly created trace: the failed call
    leaves its reference count at 1 instead of 0. *)
Lemma ltt_trace_alloc_without_transport_alters :
  ~ alloc_without_transport_unaltered K0 example_pending "t1" alloc_ok.
Proof.
  intros H.
  destruct (_ltt_trace_find_setup example_pending "t1") as [[i t]|] eqn:E;
    [|vm_compute in E; discriminate].
  assert (E' := E). vm_compute in E'. injection E' as Hi Ht. subst i t.
  destruct (H _ _ E) as (_ & Hs); [reflexivity|].
  vm_compute in Hs. discriminate.
Qed.

(** ** The kernel trace flag *)

Section Flag.

Variable K : kernel_config.

Lemma flag_step_same st st' :
  kernel_trace_flag st' = kernel_trace_flag st -> head st' = head st ->
  flag_step st st'.
Proof. intros H1 H2. left. rewrite H1, H2. tauto. Qed.

Lemma flag_step_alloc st name env :
  flag_step st (fst (ltt_trace_alloc K st name env)).
Proof.
  unfold ltt_trace_alloc.
  destruct (_ltt_trace_find_setup st name) as [[i t]|];
    [|apply flag_step_same; reflexivity].
  cbn [transport set_freq_scale set_active set_kref_wq set_kref].
  destruct (transport t) as [tr|];
    [|apply flag_step_same; reflexivity].
  destruct (try_module_get (tr_owner tr) (transport_live env) (get_trace_clock st))
    as [pinned st1] eqn:Hget.
  pose proof (try_module_get_lists (tr_owner tr) (transport_live env)
                (get_trace_clock st)) as (_ & G2 & G3 & _).
  rewrite Hget in G2, G3. simpl in G2, G3.
  destruct pinned; simpl negb; cbv iota;
    [|apply flag_step_same; simpl; assumption].
  destruct (create_dirs_ret env =? 0) eqn:Hd; simpl negb; cbv iota.
  2:{ cbn [fst].
      match goal with
      | |- context [module_put ?m ?s] =>
          destruct (module_put_lists m s) as (_ & M2 & M3 & _)
      end.
      apply flag_step_same; simpl in *; congruence. }
  apply Z.eqb_eq in Hd. rewrite Hd.
  match goal with
  | |- context [create_channels K env 0 ?l ?t0 ?s0] =>
      destruct (create_channels_completes K env l t0 s0) as (chs & evs & E);
      rewrite E
  end.
  right; left. simpl. rewrite G2.
  destruct (head st); simpl; rewrite ?G2, ?G3; eauto.
Qed.

Lemma flag_step_destroy st name :
  flag_step st (fst (ltt_trace_destroy st name)).
Proof.
  unfold ltt_trace_destroy, _ltt_trace_destroy.
  destruct (_ltt_trace_find st name) as [[i t]|] eqn:Ha.
  - apply find_Some_lookup in Ha as [Hl _].
    destruct (active t =? 0); simpl negb; cbv iota;
      [|apply flag_step_same; reflexivity].
    right; right. exists i, t. split; [exact Hl|].
    destruct (delete i (head st)) as [|u l] eqn:Hd; simpl;
      rewrite ?Hd; simpl;
      match goal with
      | |- context [__ltt_trace_destroy ?s t] =>
          destruct (__ltt_trace_destroy_lists s t) as (_ & D2 & D3 & _);
          rewrite D2, D3; simpl
      end; rewrite ?Hd; auto.
  - destruct (_ltt_trace_find_setup st name) as [[i t]|];
      apply flag_step_same; reflexivity.
Qed.

Lemma flag_step_start st name env :
  flag_step st (fst (ltt_trace_start st name env)).
Proof.
  unfold ltt_trace_start, _ltt_trace_start.
  destruct (_ltt_trace_find st name) as [[i t]|];
    [|apply flag_step_same; reflexivity].
  destruct (try_module_get (ltt_run_filter_owner st) (run_filter_live env) st)
    as [pinned st1] eqn:Hget.
  pose proof (try_module_get_lists (ltt_run_filter_owner st)
                (run_filter_live env) st) as (_ & G2 & G3 & _).
  rewrite Hget in G2, G3. simpl in G2, G3.
  destruct pinned; simpl negb; cbv iota;
    [|apply flag_step_same; simpl; assumption].
  simpl.
  match goal with
  | |- context [try_module_get ?m ?l ?s] =>
      destruct (try_module_get m l s) as [pinned2 st2] eqn:Hget2;
      pose proof (try_module_get_lists m l s) as (_ & P2 & P3 & _);
      rewrite Hget2 in P2, P3; simpl in P2, P3
  end.
  left. destruct pinned2; simpl.
  - match goal with
    | |- context [module_put ?m ?s] =>
        destruct (module_put_lists m s) as (_ & M2 & M3 & _); rewrite M2, M3
    end.
    simpl. rewrite P2, P3, G2, G3. split; [reflexivity|apply insert_nil_iff].
  - rewrite P2, P3, G2, G3. split; [reflexivity|apply insert_nil_iff].
Qed.

Lemma flag_step_stop st name :
  flag_step st (fst (ltt_trace_stop st name)).
Proof.
  unfold ltt_trace_stop, _ltt_trace_stop.
  destruct (_ltt_trace_find st name) as [[i t]|];
    [|apply flag_step_same; reflexivity].
  cbn [fst].
  match goal with
  | |- context [module_put ?m ?s] =>
      destruct (module_put_lists m s) as (_ & M2 & M3 & _)
  end.
  left. rewrite M2, M3.
  destruct (active t =? 0); simpl; [tauto|].
  split; [reflexivity|apply insert_nil_iff].
Qed.

Lemma flag_step_filter_control st msg name live ret :
  flag_step st (fst (ltt_filter_control st msg name live ret)).
Proof.
  unfold ltt_filter_control.
  destruct (_ltt_trace_find st name) as [[i t]|];
    [|apply flag_step_same; reflexivity].
  destruct (try_module_get (ltt_filter_control_owner st) live st)
    as [pinned st1] eqn:Hget.
  pose proof (try_module_get_lists (ltt_filter_control_owner st) live st)
    as (_ & G2 & G3 & _).
  rewrite Hget in G2, G3. simpl in G2, G3.
  destruct pinned; simpl negb; cbv iota;
    [|apply flag_step_same; simpl; assumption].
  destruct msg; cbn [fst];
    match goal with
    | |- context [module_put ?m ?s] =>
        destruct (module_put_lists m s) as (_ & M2 & M3 & _)
    end; apply flag_step_same; simpl in *; congruence.
Qed.

Lemma flag_step_handle st r : flag_step st (fst (handle K st r)).
Proof.
  destruct r; simpl handle.
  - unfold ltt_module_register. destruct name; simpl;
      match goal with |- context [match ?x with _ => _ end] => destruct x end;
      apply flag_step_same; reflexivity.
  - destruct name; apply flag_step_same; reflexivity.
  - apply flag_step_same; reflexivity.
  - apply flag_step_same; reflexivity.
  - unfold ltt_trace_setup, _ltt_trace_setup.
    repeat match goal with
           | |- context [match ?x with _ => _ end] => destruct x
           end; apply flag_step_same; reflexivity.
  - unfold ltt_trace_set_type.
    repeat match goal with
           | |- context [match ?x with _ => _ end] => destruct x
           end; apply flag_step_same; reflexivity.
  - unfold ltt_trace_set_channel_subbufsize.
    repeat match goal with
           | |- context [match ?x with _ => _ end] => destruct x
           end; apply flag_step_same; reflexivity.
  - unfold ltt_trace_set_channel_subbufcount.
    repeat match goal with
           | |- context [match ?x with _ => _ end] => destruct x
           end; apply flag_step_same; reflexivity.
  - unfold ltt_trace_set_channel_switch_timer.
    repeat match goal with
           | |- context [match ?x with _ => _ end] => destruct x
           end; apply flag_step_same; reflexivity.
  - unfold ltt_trace_set_channel_overwrite.
    repeat match goal with
           | |- context [match ?x with _ => _ end] => destruct x
           end; apply flag_step_same; reflexivity.
  - apply flag_step_alloc.
  - apply flag_step_destroy.
  - apply flag_step_start.
  - apply flag_step_stop.
  - apply flag_step_filter_control.
Qed.

Lemma flag_step_consistent st st' :
  flag_step st st' -> kernel_flag_consistent st -> kernel_flag_consistent st'.
Proof.
  unfold kernel_flag_consistent.
  intros [(Hf & Hh)|[(t & Hh & Hf)|(i & t & Hl & Hh & Hf)]] Hc.
  - rewrite Hf, Hc. tauto.
  - rewrite Hh, Hf. destruct (head st) eqn:E.
    + split; [discriminate|reflexivity].
    + split; [discriminate|]. intros _. apply Hc. discriminate.
  - rewrite Hf. destruct (head st') eqn:E.
    + split; [discriminate|congruence].
    + split; [discriminate|]. intros _. apply Hc. intros Hnil.
      rewrite Hnil in Hl. discriminate.
Qed.

Lemma run_flag_consistent rs :
  kernel_flag_consistent (run K ltt_init_state rs).
Proof.
  apply run_invariant.
  - intros st r. apply flag_step_consistent, flag_step_handle.
  - unfold kernel_flag_consistent. simpl. split; [discriminate|congruence].
Qed.

(** A call of [ltt_trace_alloc] that returns 0 has linked a trace. *)
Lemma alloc_success_links st name env :
  snd (ltt_trace_alloc K st name env) = 0 ->
  head (fst (ltt_trace_alloc K st name env)) <> [].
Proof.
  unfold ltt_trace_alloc.
  destruct (_ltt_trace_find_setup st name) as [[i t]|];
    [|simpl; unfold ENOENT; lia].
  cbn [transport set_freq_scale set_active set_kref_wq set_kref].
  destruct (transport t) as [tr|]; [|simpl; unfold EINVAL; lia].
  destruct (try_module_get (tr_owner tr) (transport_live env) (get_trace_clock st))
    as [pinned st1] eqn:Hget.
  destruct pinned; simpl negb; cbv iota; [|simpl; unfold ENODEV; lia].
  destruct (Z.eqb_spec (create_dirs_ret env) 0) as [Hd|Hd]; simpl negb; cbv iota;
    [|simpl; intros; contradiction].
  rewrite Hd.
  match goal with
  | |- context [create_channels K env 0 ?l ?t0 ?s0] =>
      destruct (create_channels_completes K env l t0 s0) as (chs & evs & E);
      rewrite E
  end.
  intros _. simpl. destruct (head st1); simpl; discriminate.
Qed.

End Flag.

(** C7: after every history of calls the kernel trace flag is set exactly
    when the active list is non-empty.  In particular it is set after
    every allocation that returns 0, and it is clear after a destroy that
    returns 0 and leaves the active list empty. *)
Theorem kernel_trace_flag_tracks_active_list K rs :
  let st := run K ltt_init_state rs in
  (kernel_trace_flag st = true <-> head st <> []) /\
  (forall name env,
     snd (ltt_trace_alloc K st name env) = 0 ->
     kernel_trace_flag (fst (ltt_trace_alloc K st name env)) = true) /\
  (forall name,
     snd (ltt_trace_destroy st name) = 0 ->
     head (fst (ltt_trace_destroy st name)) = [] ->
     kernel_trace_flag (fst (ltt_trace_destroy st name)) = false).
Proof.
  intros st. split; [apply (run_flag_consistent K rs)|]. split.
  - intros name env Hret.
    pose proof (run_flag_consistent K (rs ++ [Req_trace_alloc name env])) as Hc.
    rewrite run_app in Hc. apply Hc. apply alloc_success_links, Hret.
  - intros name _ Hnil.
    pose proof (run_flag_consistent K (rs ++ [Req_trace_destroy name])) as Hc.
    rewrite run_app in Hc. simpl in Hc. fold st in Hc.
    destruct (kernel_trace_flag (fst (ltt_trace_destroy st name))) eqn:E;
      [|reflexivity].
    exfalso. exact (proj1 Hc E Hnil).
Qed.

(** C7 on the example history: after the allocation of "t1" the flag is
    set, and after stopping and destroying "t1" it is clear. *)
Lemma kernel_trace_flag_tracks_active_list_witness :
  kernel_trace_flag
    (fst (ltt_trace_alloc K0 example_configured "t1" alloc_ok)) = true /\
  kernel_trace_flag
    (fst (ltt_trace_destroy
            (run K0 ltt_init_state
               (example_started_history ++ [Req_trace_stop "t1"])) "t1"))
  = false.
Proof.
  split.
  - apply (proj1 (proj2 (kernel_trace_flag_tracks_active_list K0
             [ Req_transport_register mem_transport;
               Req_transport_register relay_transport;
               Req_trace_setup "t1" setup_ok;
               Req_trace_set_type "t1" "mem" ]))).
    vm_compute. reflexivity.
  - apply (proj2 (proj2 (kernel_trace_flag_tracks_active_list K0
             (example_started_history ++ [Req_trace_stop "t1"])))).
    + vm_compute. reflexivity.
    + vm_compute. reflexivity.
Defined.

(** ** Destroying an active trace *)

Lemma destroy_busy st name i t :
  _ltt_trace_find st name = Some (i, t) -> active t <> 0 ->
  ltt_trace_destroy st name = (st, - EBUSY).
Proof.
  intros Hf Ha. unfold ltt_trace_destroy, _ltt_trace_destroy. rewrite Hf.
  destruct (Z.eqb_spec (active t) 0) as [|_]; [contradiction|].
  simpl. reflexivity.
Qed.

Lemma destroy_effect st name i t :
  _ltt_trace_find st name = Some (i, t) -> active t = 0 ->
  snd (ltt_trace_destroy st name) = 0 /\
  setup_head (fst (ltt_trace_destroy st name)) = setup_head st /\
  head (fst (ltt_trace_destroy st name)) = delete i (head st).
Proof.
  intros Hf Ha. unfold ltt_trace_destroy, _ltt_trace_destroy.
  rewrite Hf, Ha. simpl negb. cbv iota.
  destruct (delete i (head st)) as [|u l] eqn:Hd; simpl;
    rewrite ?Hd; simpl;
    match goal with
    | |- context [__ltt_trace_destroy ?s t] =>
        destruct (__ltt_trace_destroy_lists s t) as (D1 & D2 & _);
        rewrite D1, D2; simpl
    end; auto.
Qed.

Lemma stop_effect st name i t :
  _ltt_trace_find st name = Some (i, t) ->
  snd (ltt_trace_stop st name) = 0 /\
  setup_head (fst (ltt_trace_stop st name)) = setup_head st /\
  head (fst (ltt_trace_stop st name))
  = if active t =? 0 then head st else <[i := set_active 0 t]> (head st).
Proof.
  intros Hf. unfold ltt_trace_stop, _ltt_trace_stop. rewrite Hf.
  cbn [fst snd]. split; [reflexivity|].
  match goal with
  | |- context [module_put ?m ?s] =>
      destruct (module_put_lists m s) as (M1 & M2 & _); rewrite M1, M2
  end.
  destruct (active t =? 0); simpl; auto.
Qed.

Lemma delete_other_keys (l : list ltt_trace) i t :
  NoDup (map trace_key l) -> l !! i = Some t ->
  Forall (fun u => trace_key u <> trace_key t) (delete i l).
Proof.
  intros Hnd Hl.
  assert (P : map trace_key l ≡ₚ trace_key t :: map trace_key (delete i l)).
  { rewrite (delete_Permutation l i t Hl) at 1. reflexivity. }
  rewrite P in Hnd. apply NoDup_cons in Hnd as [Hnot _].
  apply Forall_forall. intros u Hu E. apply Hnot.
  rewrite <- E. apply list_elem_of_fmap. eauto.
Qed.

Lemma names_unique_split st :
  names_unique st ->
  NoDup (map trace_key (setup_head st)) /\
  NoDup (map trace_key (head st)) /\
  forall s h, s ∈ setup_head st -> h ∈ head st -> trace_key s <> trace_key h.
Proof.
  unfold names_unique, sessions. rewrite map_app. intros H.
  apply NoDup_app in H as (H1 & H2 & H3). split; [exact H1|].
  split; [exact H3|]. intros s h Hs Hh E.
  apply (H2 (trace_key s)).
  - apply list_elem_of_fmap. eauto.
  - rewrite E. apply list_elem_of_fmap. eauto.
Qed.

(** In a registry with unique names every active trace is the one its
    own name finds. *)
Lemma find_own_name st i t :
  names_unique st -> head st !! i = Some t ->
  _ltt_trace_find st (trace_name t) = Some (i, t).
Proof.
  intros Hu Hl. apply names_unique_split in Hu as (_ & Hh & _).
  apply find_unique; auto.
Qed.

(** The steps of C6 in a registry with unique names. *)
Lemma destroy_after_stop st i t :
  names_unique st -> head st !! i = Some t -> active t <> 0 ->
  ltt_trace_destroy st (trace_name t) = (st, - EBUSY) /\
  snd (ltt_trace_stop st (trace_name t)) = 0 /\
  let st1 := fst (ltt_trace_stop st (trace_name t)) in
  snd (ltt_trace_destroy st1 (trace_name t)) = 0 /\
  let st2 := fst (ltt_trace_destroy st1 (trace_name t)) in
  _ltt_trace_find st2 (trace_name t) = None /\
  _ltt_trace_find_setup st2 (trace_name t) = None.
Proof.
  intros Hu Hl Ha.
  pose proof (find_own_name st i t Hu Hl) as Hf.
  pose proof (names_unique_split st Hu) as (_ & Hh & Hdisj).
  split; [apply (destroy_busy st _ i t Hf Ha)|].
  destruct (stop_effect st _ i t Hf) as (S0 & S1 & S2).
  destruct (Z.eqb_spec (active t) 0) as [|_]; [contradiction|].
  split; [exact S0|]. intros st1.
  assert (Hl1 : head st1 !! i = Some (set_active 0 t)).
  { unfold st1. rewrite S2. apply list_lookup_insert_eq.
    eapply lookup_lt_Some, Hl. }
  assert (Hk1 : map trace_key (head st1) = map trace_key (head st)).
  { unfold st1. rewrite S2.
    change (trace_key <$> <[i := set_active 0 t]> (head st)
            = trace_key <$> head st).
    rewrite list_fmap_insert. apply list_insert_id.
    rewrite list_lookup_fmap, Hl. reflexivity. }
  assert (Hf1 : _ltt_trace_find st1 (trace_name t) = Some (i, set_active 0 t)).
  { apply find_unique; [rewrite Hk1; exact Hh|exact Hl1|reflexivity]. }
  destruct (destroy_effect st1 _ i (set_active 0 t) Hf1 eq_refl)
    as (D0 & D1 & D2).
  split; [exact D0|]. intros st2. split.
  - unfold _ltt_trace_find. apply find_None_keys. unfold st2. rewrite D2.
    apply (delete_other_keys (head st1) i (set_active 0 t));
      [rewrite Hk1; exact Hh|exact Hl1].
  - unfold _ltt_trace_find_setup. apply find_None_keys.
    unfold st2. rewrite D1. unfold st1. rewrite S1.
    apply Forall_forall. intros s Hs.
    apply (Hdisj s t Hs). apply list_elem_of_lookup. eauto.
Qed.

(** C6: after every history of calls, for every trace of the active list
    whose active flag is on, ltt_trace_destroy of its name returns -EBUSY
    and changes nothing (the trace stays in the active list); ltt_trace_stop
    of that name returns 0, and after it ltt_trace_destroy returns 0 and the
    name is found neither in the active list nor in the setup list. *)
Theorem ltt_trace_destroy_busy_until_stopped K rs i t :
  let st := run K ltt_init_state rs in
  head st !! i = Some t -> active t <> 0 ->
  ltt_trace_destroy st (trace_name t) = (st, - EBUSY) /\
  snd (ltt_trace_stop st (trace_name t)) = 0 /\
  let st1 := fst (ltt_trace_stop st (trace_name t)) in
  snd (ltt_trace_destroy st1 (trace_name t)) = 0 /\
  let st2 := fst (ltt_trace_destroy st1 (trace_name t)) in
  _ltt_trace_find st2 (trace_name t) = None /\
  _ltt_trace_find_setup st2 (trace_name t) = None.
Proof.
  intros st. apply destroy_after_stop. apply run_names_unique.
Qed.

(** C6 on the example history, in which "t1" is allocated and started. *)
Lemma ltt_trace_destroy_busy_until_stopped_witness :
  let st := run K0 ltt_init_state example_started_history in
  ltt_trace_destroy st "t1" = (st, - EBUSY) /\
  snd (ltt_trace_destroy (fst (ltt_trace_stop st "t1")) "t1") = 0.
Proof.
  intros st.
  destruct (head st) as [|t l] eqn:E; [vm_compute in E; discriminate|].
  assert (Hn : trace_name t = "t1"%string).
  { vm_compute in E. injection E as <- _. reflexivity. }
  assert (Ha : active t <> 0).
  { vm_compute in E. injection E as <- _. simpl. lia. }
  destruct (ltt_trace_destroy_busy_until_stopped K0 example_started_history
              0 t) as (H1 & _ & H2 & _).
  - fold st. rewrite E. reflexivity.
  - exact Ha.
  - fold st in H1, H2. rewrite Hn in H1, H2. split; assumption.
Defined.

(** ** The transport of a trace *)

(** C9, as amended: the transport of a trace is not set once.  After every
    history of calls, a call of ltt_trace_set_type that resolves both names
    stores the transport it found in the pending trace, whatever transport
    the trace had; and every other call leaves each trace that it keeps in
    the registry with the transport it had. *)
Theorem transport_changed_only_by_set_type K rs :
  let st := run K ltt_init_state rs in
  (forall name trace_type i t j tr,
     _ltt_trace_find_setup st name = Some (i, t) ->
     list_find (fun x => strcmp (tr_name x) trace_type = 0)
       (ltt_transport_list st) = Some (j, tr) ->
     ltt_trace_set_type st name trace_type
     = (store_setup i (set_transport (Some tr) t) st, 0)) /\
  (forall r t t',
     is_set_type r = false ->
     t ∈ sessions st -> t' ∈ sessions (fst (handle K st r)) ->
     trace_name t' = trace_name t -> transport t' = transport t).
Proof.
  intros st. split.
  - intros name ty i t j tr Hf Ht. unfold ltt_trace_set_type.
    rewrite Hf, Ht. reflexivity.
  - intros r t t' Hr. apply handle_transport_kept; [exact Hr|].
    apply run_names_unique.
Qed.

(** C9 as amended, on the example registry: "t1" has the transport "mem";
    a second call assigns "relay", and a call that sets a sub-buffer count
    keeps "mem". *)
Lemma transport_changed_only_by_set_type_witness :
  ltt_trace_set_type example_configured "t1" "relay"
  = (store_setup 0 (set_transport (Some relay_transport) example_t1)
       example_configured, 0) /\
  (forall t',
     t' ∈ sessions (fst (ltt_trace_set_channel_subbufcount K0
                           example_configured "t1" "kernel" 8)) ->
     trace_name t' = trace_name example_t1 ->
     transport t' = transport example_t1).
Proof.
  pose (rs := [ Req_transport_register mem_transport;
                Req_transport_register relay_transport;
                Req_trace_setup "t1" setup_ok;
                Req_trace_set_type "t1" "mem" ]).
  destruct (transport_changed_only_by_set_type K0 rs) as (Hset & Hkeep).
  change (run K0 ltt_init_state rs) with example_configured in Hset, Hkeep.
  split.
  - apply (Hset "t1"%string "relay"%string 0%nat example_t1 1%nat
             relay_transport); vm_compute; reflexivity.
  - intros t'.
    apply (Hkeep (Req_set_channel_subbufcount "t1" "kernel" 8) example_t1 t').
    + reflexivity.
    + vm_compute. apply list_elem_of_here.
Defined.

(** The statement of C9 fails on the example registry: "t1" has the
    transport "mem" and a second call of ltt_trace_set_type replaces it
    with "relay". *)
Lemma transport_replaced_by_second_set_type :
  ~ transport_set_once example_configured "t1" "relay".
Proof.
  intros H.
  destruct (_ltt_trace_find_setup example_configured "t1") as [[i t]|] eqn:E;
    [|vm_compute in E; discriminate].
  assert (E' := E). vm_compute in E'. injection E' as Hi Ht. subst i t.
  specialize (H _ _ mem_transport E eq_refl).
  destruct (sessions (fst (ltt_trace_set_type example_configured "t1" "relay")))
    as [|t' l] eqn:Es; [vm_compute in Es; discriminate|].
  specialize (H t' (list_elem_of_here t' l)).
  vm_compute in Es. injection Es as <- _.
  specialize (H eq_refl). vm_compute in H. discriminate.
Qed.

(** ** Starting a trace again *)

Lemma try_module_get_succeeds m live st :
  pin_succeeds m live ->
  try_module_get m live st
  = (true,
     match m with
     | None => st
     | Some m =>
         with_module_refs (<[m := module_refcount st m + 1]> (module_refs st)) st
     end).
Proof. intros [->| ->]; [reflexivity|]. destruct m; reflexivity. Qed.

Lemma find_insert_same_name name (l : list ltt_trace) i t t' :
  list_find (name_matches name) l = Some (i, t) ->
  trace_name t' = trace_name t ->
  list_find (name_matches name) (<[i := t']> l) = Some (i, t').
Proof.
  intros Hf Hn. apply list_find_Some in Hf as (Hl & Hm & Hfirst).
  apply list_find_Some. split; [|split].
  - apply list_lookup_insert_eq. eapply lookup_lt_Some, Hl.
  - unfold name_matches in *. rewrite Hn. exact Hm.
  - intros j y Hj Hlt. rewrite list_lookup_insert_ne in Hj by lia.
    eapply Hfirst; eauto.
Qed.

(** [_ltt_trace_start] does not look at the active flag: with the filter
    module pinned it sets the flag, counts the trace and returns 0. *)
Lemma _ltt_trace_start_effect st i t env :
  pin_succeeds (ltt_run_filter_owner st) (run_filter_live env) ->
  let r := _ltt_trace_start st (Some (i, t)) env in
  snd r = 0 /\
  setup_head (fst r) = setup_head st /\
  head (fst r) = <[i := set_active 1 t]> (head st) /\
  num_active_traces (fst r) = to_uint (num_active_traces st + 1) /\
  ltt_run_filter_owner (fst r) = ltt_run_filter_owner st /\
  forall m, ltt_run_filter_owner st = Some m ->
            module_refcount (fst r) m = module_refcount st m + 1.
Proof.
  intros Hpin. unfold _ltt_trace_start.
  rewrite (try_module_get_succeeds _ _ st Hpin). simpl negb. cbv iota.
  destruct (ltt_run_filter_owner st) as [m|] eqn:Ho; simpl;
    repeat split; try assumption; try discriminate.
  intros m' [= <-]. unfold module_refcount at 1. simpl.
  rewrite lookup_insert_eq. reflexivity.
Qed.






(** * Further properties *)

(** ** Geometry: the least power of two *)

Lemma pow2_log2_up_below x : 0 < x -> 2 ^ Z.log2_up x < 2 * x.
Proof.
  intros Hx. destruct (Z.eq_dec x 1) as [->|Hne]; [reflexivity|].
  destruct (Z.log2_up_spec x) as [Hlo _]; [lia|].
  assert (Hpos : 0 < Z.log2_up x) by (apply Z.log2_up_pos; lia).
  replace (Z.log2_up x) with (Z.succ (Z.pred (Z.log2_up x))) at 1 by lia.
  rewrite Z.pow_succ_r by lia. lia.
Qed.

Lemma round_up_pow2_least x :
  0 < x <= 2 ^ 31 ->
  exists k, 0 <= k < 32 /\ shl_one (get_count_order x) = Some (2 ^ k) /\
            x <= 2 ^ k < 2 * x.
Proof.
  intros Hx. exists (Z.log2_up x).
  assert (Hk : 0 <= Z.log2_up x <= 31).
  { split; [apply Z.log2_up_nonneg|]. apply Z.log2_up_le_pow2; lia. }
  rewrite get_count_order_log2_up by lia.
  split; [lia|]. split; [apply shl_one_pow2; lia|].
  split; [apply Z.log2_log2_up_spec; lia|apply pow2_log2_up_below; lia].
Qed.

(** X1: on its defined range prepare_chan_size_num rounds up to the next
    power of two and no further: the size it returns is the power of two
    [s] with [max(size, page) <= s < 2 * max(size, page)], and the count
    the power of two [n] with [count <= n < 2 * count]. *)
Theorem prepare_chan_size_num_least page size count :
  0 < page <= 2 ^ 31 -> 0 <= size <= 2 ^ 31 -> 0 < count <= 2 ^ 31 ->
  exists s n,
    prepare_chan_size_num page size count = Some (s, n) /\
    is_pow2 s /\ Z.max size page <= s < 2 * Z.max size page /\
    is_pow2 n /\ count <= n < 2 * count.
Proof.
  intros Hp Hs Hc. unfold prepare_chan_size_num.
  rewrite (to_uint_small size), (to_uint_small page), (to_uint_small count)
    by lia.
  destruct (round_up_pow2_least (Z.max size page)) as (ks & Hks & Es & Ls);
    [lia|].
  destruct (round_up_pow2_least count) as (kn & Hkn & En & Ln); [lia|].
  exists (2 ^ ks), (2 ^ kn). rewrite Es, En.
  split; [reflexivity|]. split; [exists ks; split; [lia|reflexivity]|].
  split; [exact Ls|]. split; [exists kn; split; [lia|reflexivity]|exact Ln].
Qed.

(** X1 at a 4 KiB page: 5000 bytes become 8192 and 3 sub-buffers become 4. *)
Lemma prepare_chan_size_num_least_witness :
  exists s n,
    prepare_chan_size_num 4096 5000 3 = Some (s, n) /\
    is_pow2 s /\ Z.max 5000 4096 <= s < 2 * Z.max 5000 4096 /\
    is_pow2 n /\ 3 <= n < 2 * 3.
Proof. apply (prepare_chan_size_num_least 4096 5000 3); lia. Defined.

(** ** Channel classification *)

Lemma chan_infos_indices_complete c : c ∈ chan_infos_indices.
Proof.
  unfold chan_infos_indices.
  destruct c; repeat (first [apply list_elem_of_here | apply list_elem_of_further]).
Qed.

(** X2: get_channel_type_from_name returns the default type for a NULL
    name; a result other than the default is a table entry whose name is
    the given name, and the default is returned for a name only when no
    named table entry has that name. *)
Theorem get_channel_type_from_name_sound K :
  get_channel_type_from_name K None = LTT_CHANNEL_DEFAULT /\
  (forall name c,
     get_channel_type_from_name K (Some name) = c ->
     c <> LTT_CHANNEL_DEFAULT ->
     exists n, ci_name (chan_infos K c) = Some n /\ strcmp name n = 0) /\
  (forall name c n,
     get_channel_type_from_name K (Some name) = LTT_CHANNEL_DEFAULT ->
     ci_name (chan_infos K c) = Some n -> strcmp name n <> 0).
Proof.
  split; [reflexivity|]. split.
  - intros name c. unfold get_channel_type_from_name.
    destruct (list_find _ chan_infos_indices) as [[i c']|] eqn:E;
      [|congruence].
    intros <- Hne. apply list_find_Some in E as (_ & Hhit & _).
    destruct (ci_name (chan_infos K c')) as [n|]; [|discriminate].
    exists n. split; [reflexivity|]. apply Z.eqb_eq, Hhit.
  - intros name c n. unfold get_channel_type_from_name.
    destruct (list_find _ chan_infos_indices) as [[i c']|] eqn:E.
    + intros ->. apply list_find_Some in E as (_ & Hhit & _).
      simpl in Hhit. discriminate.
    + intros _ Hn Hs. apply list_find_None in E.
      rewrite Forall_forall in E.
      apply (E c (chan_infos_indices_complete c)).
      rewrite Hn. apply Z.eqb_eq, Hs.
Qed.

(** X2 on the kernel channel and on an unlisted name. *)
Lemma get_channel_type_from_name_sound_witness :
  (exists n, ci_name (chan_infos K0 LTT_CHANNEL_KERNEL) = Some n /\
             strcmp "kernel" n = 0) /\
  strcmp "net" "kernel" <> 0.
Proof.
  destruct (get_channel_type_from_name_sound K0) as (_ & Hhit & Hmiss).
  split.
  - apply (Hhit "kernel"%string LTT_CHANNEL_KERNEL);
      [vm_compute; reflexivity|discriminate].
  - apply (Hmiss "net"%string LTT_CHANNEL_KERNEL "kernel"%string);
      vm_compute; reflexivity.
Defined.

(** ** Channel overwrite policy *)

(** X3: the overwrite policy is a flag that grows with the trace mode: no
    channel is overwritten in normal mode, and a channel overwritten in
    hybrid mode is overwritten in flight mode.  The metadata channel is
    never overwritten, whatever the mode, so the value the policy gives
    for a channel of the preset table is never the one
    ltt_trace_set_channel_overwrite refuses with -EINVAL. *)
Theorem is_channel_overwrite_ordered K chan mode :
  (is_channel_overwrite chan mode = 0 \/ is_channel_overwrite chan mode = 1) /\
  is_channel_overwrite LTT_CHANNEL_METADATA mode = 0 /\
  is_channel_overwrite chan LTT_TRACE_NORMAL = 0 /\
  is_channel_overwrite chan LTT_TRACE_HYBRID
  <= is_channel_overwrite chan LTT_TRACE_FLIGHT /\
  forall st name n,
    ci_name (chan_infos K chan) = Some n ->
    snd (ltt_trace_set_channel_overwrite K st name n
           (is_channel_overwrite chan mode)) <> - EINVAL.
Proof.
  split; [destruct mode, chan; cbn; auto|].
  split; [destruct mode; reflexivity|].
  split; [reflexivity|].
  split; [destruct chan; cbn; lia|].
  intros st name n Hn.
  assert (Hc : negb (is_channel_overwrite chan mode =? 0)
               && (strcmp n "metadata" =? 0) = false).
  { destruct chan, mode; cbn in Hn;
      first [discriminate|injection Hn as <-; vm_compute; reflexivity]. }
  unfold ltt_trace_set_channel_overwrite.
  destruct (_ltt_trace_find_setup st name) as [[i t]|];
    [|cbn; unfold ENOENT, EINVAL; lia].
  rewrite Hc.
  destruct (ltt_channels_get_index_from_name K n <? 0); cbn;
    unfold ENOENT, EINVAL; lia.
Qed.

(** X3 on the kernel channel: clear in normal mode; in flight mode the
    value is 1 and the setter takes it. *)
Lemma is_channel_overwrite_ordered_witness :
  is_channel_overwrite LTT_CHANNEL_KERNEL LTT_TRACE_NORMAL = 0 /\
  is_channel_overwrite LTT_CHANNEL_KERNEL LTT_TRACE_FLIGHT = 1 /\
  snd (ltt_trace_set_channel_overwrite K0 example_pending "t1" "kernel"
         (is_channel_overwrite LTT_CHANNEL_KERNEL LTT_TRACE_FLIGHT))
  <> - EINVAL.
Proof.
  destruct (is_channel_overwrite_ordered K0 LTT_CHANNEL_KERNEL
              LTT_TRACE_FLIGHT) as (_ & _ & Hn & _ & H).
  split; [exact Hn|]. split; [reflexivity|].
  apply H. reflexivity.
Defined.

(** ** Capability slots *)

Lemma slot_owner_emit e st name : slot_owner (emit e st) name = slot_owner st name.
Proof. destruct name; reflexivity. Qed.

(** X4: a capability slot has one owner at a time.  While the slot has a
    non-NULL owner, ltt_module_register returns -EEXIST and leaves callback
    and owner as they are; on a free slot it returns 0 and installs both
    without touching the other slots; and after ltt_module_unregister the
    slot is free again, with the default callback. *)
Theorem ltt_module_register_exclusive st name function owner :
  (is_Some (slot_owner st name) ->
   ltt_module_register st name function owner
   = (emit Ev_vmalloc_sync_all st, - EEXIST)) /\
  (slot_owner st name = None ->
   let st' := fst (ltt_module_register st name function owner) in
   snd (ltt_module_register st name function owner) = 0 /\
   slot_owner st' name = owner /\ slot_functor st' name = function /\
   forall other, other <> name ->
     slot_owner st' other = slot_owner st other /\
     slot_functor st' other = slot_functor st other) /\
  (slot_owner (ltt_module_unregister st name) name = None /\
   slot_functor (ltt_module_unregister st name) name = None /\
   snd (ltt_module_register (ltt_module_unregister st name) name function owner)
   = 0).
Proof.
  split; [|split].
  - intros [m Hm]. unfold ltt_module_register.
    destruct name; simpl in Hm |- *; rewrite Hm; reflexivity.
  - intros Hfree. unfold ltt_module_register.
    destruct name; simpl in Hfree |- *; rewrite Hfree; simpl;
      (split; [reflexivity|]); (split; [reflexivity|]);
      (split; [reflexivity|]); intros other Hne;
      destruct other; try contradiction; auto.
  - destruct name; simpl; auto.
Qed.

(** X4 on a filter-control slot owned by module 9. *)
Lemma ltt_module_register_exclusive_witness :
  let st := fst (ltt_module_register ltt_init_state
                   LTT_FUNCTION_FILTER_CONTROL (Some 1%positive)
                   (Some 9%positive)) in
  ltt_module_register st LTT_FUNCTION_FILTER_CONTROL (Some 2%positive)
    (Some 8%positive)
  = (emit Ev_vmalloc_sync_all st, - EEXIST) /\
  slot_owner st LTT_FUNCTION_FILTER_CONTROL = Some 9%positive.
Proof.
  intros st. split.
  - apply (proj1 (ltt_module_register_exclusive st
                    LTT_FUNCTION_FILTER_CONTROL (Some 2%positive)
                    (Some 8%positive))).
    vm_compute. eauto.
  - destruct (ltt_module_register_exclusive ltt_init_state
                LTT_FUNCTION_FILTER_CONTROL (Some 1%positive)
                (Some 9%positive)) as (_ & Hfree & _).
    destruct (Hfree eq_refl) as (_ & Ho & _). exact Ho.
Defined.

(** A registration with a NULL owner does not reserve the slot: the next
    registration succeeds and replaces the callback. *)
Lemma ltt_module_register_null_owner st name f1 f2 owner :
  slot_owner st name = None ->
  let st1 := fst (ltt_module_register st name f1 None) in
  snd (ltt_module_register st1 name f2 owner) = 0 /\
  slot_functor (fst (ltt_module_register st1 name f2 owner)) name = f2.
Proof.
  intros Hfree. unfold ltt_module_register.
  destruct name; simpl in Hfree |- *; rewrite Hfree; simpl; auto.
Qed.

(** ** The transport list *)

Lemma list_del_transport_app_new t l :
  t ∉ l -> list_del_transport t (l ++ [t]) = l.
Proof.
  induction l as [|x l IH]; intros Hnot; simpl.
  - destruct (decide (t = t)); [reflexivity|contradiction].
  - apply not_elem_of_cons in Hnot as [Hne Hnot].
    destruct (decide (x = t)) as [->|_]; [contradiction|].
    rewrite IH by exact Hnot. reflexivity.
Qed.

(** X5: transports are scanned in registration order.  When a transport of
    the requested name is already registered, registering another one does
    not change what ltt_trace_set_type does; when none is, a newly
    registered transport of that name is the one found.  Unregistering a
    transport that was registered last and only once restores the list. *)
Theorem ltt_transport_register_order st t name trace_type :
  (is_Some (find_transport st trace_type) ->
   ltt_trace_set_type (ltt_transport_register st t) name trace_type
   = (ltt_transport_register (fst (ltt_trace_set_type st name trace_type)) t,
      snd (ltt_trace_set_type st name trace_type))) /\
  (find_transport st trace_type = None ->
   strcmp (tr_name t) trace_type = 0 ->
   find_transport (ltt_transport_register st t) trace_type
   = Some (length (ltt_transport_list st), t)) /\
  (t ∉ ltt_transport_list st ->
   ltt_transport_list (ltt_transport_unregister (ltt_transport_register st t) t)
   = ltt_transport_list st).
Proof.
  split; [|split].
  - intros [[j tr] Hf]. unfold find_transport in Hf.
    unfold ltt_trace_set_type.
    change (_ltt_trace_find_setup (ltt_transport_register st t) name)
      with (_ltt_trace_find_setup st name).
    destruct (_ltt_trace_find_setup st name) as [[i u]|]; [|reflexivity].
    change (ltt_transport_list (ltt_transport_register st t))
      with (ltt_transport_list st ++ [t]).
    rewrite (list_find_app_l _ _ _ _ _ Hf), Hf. reflexivity.
  - intros Hnone Hs. unfold find_transport in *.
    change (ltt_transport_list (ltt_transport_register st t))
      with (ltt_transport_list st ++ [t]).
    rewrite (list_find_app_r _ _ _ Hnone). simpl.
    destruct (decide (strcmp (tr_name t) trace_type = 0)); [|contradiction].
    reflexivity.
  - intros Hnot. simpl. apply list_del_transport_app_new, Hnot.
Qed.

(** X5 on the example registry: "mem" is registered, so a second transport
    named "mem" is never selected; "net" is not, so a new "net" is. *)
Lemma ltt_transport_register_order_witness :
  let shadow := mk_transport "mem" (Some 7%positive) in
  let net := mk_transport "net" None in
  map transport
    (setup_head (fst (ltt_trace_set_type
                        (ltt_transport_register example_pending shadow)
                        "t1" "mem")))
  = [Some mem_transport] /\
  find_transport (ltt_transport_register example_pending net) "net"
  = Some (2%nat, net) /\
  ltt_transport_list
    (ltt_transport_unregister (ltt_transport_register example_pending net) net)
  = ltt_transport_list example_pending.
Proof.
  intros shadow net.
  split; [|split].
  - rewrite (proj1 (ltt_transport_register_order example_pending shadow
                      "t1" "mem")); [vm_compute; reflexivity|].
    vm_compute. eauto.
  - apply (proj1 (proj2 (ltt_transport_register_order example_pending net
                           "t1" "net"))); vm_compute; reflexivity.
  - apply (proj2 (proj2 (ltt_transport_register_order example_pending net
                           "t1" "net"))).
    vm_compute. intros Hin.
    apply elem_of_cons in Hin as [Hin|Hin]; [discriminate|].
    apply elem_of_cons in Hin as [Hin|Hin]; [discriminate|].
    apply elem_of_nil in Hin. exact Hin.
Defined.

Section TransportList.

Variable K : kernel_config.

Lemma create_channels_transport_list env err chans : forall trace st l,
  create_channels K env err chans trace (with_transport_list l st)
  = (let '(t', s', f) := create_channels K env err chans trace st in
     (t', with_transport_list l s', f)).
Proof.
  induction chans as [|chan rest IH]; intros trace st l; [reflexivity|].
  cbn [create_channels create_one_channel].
  destruct (negb (err =? 0)); [reflexivity|].
  match goal with
  | |- create_channels K env err rest ?t (emit ?e (with_transport_list l st)) = _ =>
      change (emit e (with_transport_list l st))
        with (with_transport_list l (emit e st))
  end.
  apply IH.
Qed.

Lemma try_module_get_transport_list m live st l :
  try_module_get m live (with_transport_list l st)
  = (fst (try_module_get m live st),
     with_transport_list l (snd (try_module_get m live st))).
Proof. destruct m, live; reflexivity. Qed.

(** X6: ltt_trace_alloc never reads the transport list: it works from the
    transport stored in the trace.  Unregistering a transport therefore
    does not detach it from a trace it was assigned to, and the allocation
    afterwards does exactly what it would have done before. *)
Theorem ltt_trace_alloc_after_unregister st name env tran :
  ltt_trace_alloc K (ltt_transport_unregister st tran) name env
  = (ltt_transport_unregister (fst (ltt_trace_alloc K st name env)) tran,
     snd (ltt_trace_alloc K st name env)).
Proof.
  unfold ltt_transport_unregister.
  assert (Hl : ltt_transport_list (fst (ltt_trace_alloc K st name env))
               = ltt_transport_list st).
  { unfold ltt_trace_alloc.
    destruct (_ltt_trace_find_setup st name) as [[i t]|]; [|reflexivity].
    cbn [transport set_freq_scale set_active set_kref_wq set_kref].
    destruct (transport t) as [tr|]; [|reflexivity].
    destruct (try_module_get (tr_owner tr) (transport_live env) (get_trace_clock st))
      as [pinned st1] eqn:Hget.
    assert (G : ltt_transport_list st1 = ltt_transport_list st).
    { replace st1 with (snd (try_module_get (tr_owner tr) (transport_live env)
                               (get_trace_clock st))) by (rewrite Hget; reflexivity).
      destruct (tr_owner tr), (transport_live env); reflexivity. }
    destruct pinned; simpl negb; cbv iota; [|exact G].
    destruct (Z.eqb_spec (create_dirs_ret env) 0) as [Hd|Hd]; simpl negb; cbv iota.
    2:{ destruct (tr_owner tr); exact G. }
    rewrite Hd.
    match goal with
    | |- context [create_channels K env 0 ?c ?t0 ?s0] =>
        destruct (create_channels_completes K env c t0 s0) as (chs & evs & E);
        rewrite E
    end.
    simpl. destruct (head st1); exact G. }
  rewrite Hl.
  generalize (list_del_transport tran (ltt_transport_list st)). intros l.
  unfold ltt_trace_alloc.
  change (_ltt_trace_find_setup (with_transport_list l st) name)
    with (_ltt_trace_find_setup st name).
  destruct (_ltt_trace_find_setup st name) as [[i t]|]; [|reflexivity].
  cbn [transport set_freq_scale set_active set_kref_wq set_kref].
  destruct (transport t) as [tr|]; [|reflexivity].
  change (get_trace_clock (with_transport_list l st))
    with (with_transport_list l (get_trace_clock st)).
  rewrite try_module_get_transport_list.
  destruct (try_module_get (tr_owner tr) (transport_live env) (get_trace_clock st))
    as [pinned st1].
  cbn [fst snd]. destruct pinned; simpl negb; cbv iota; [|reflexivity].
  destruct (Z.eqb_spec (create_dirs_ret env) 0) as [Hd|Hd]; simpl negb; cbv iota.
  2:{ destruct (tr_owner tr); reflexivity. }
  rewrite Hd.
  match goal with
  | |- context [create_channels K env 0 ?c ?t0 (emit ?e (with_transport_list l st1))] =>
      change (emit e (with_transport_list l st1))
        with (with_transport_list l (emit e st1));
      rewrite (create_channels_transport_list env 0 c t0 (emit e st1) l);
      destruct (create_channels_completes K env c t0 (emit e st1))
        as (chs & evs & E);
      rewrite E
  end.
  cbn. destruct (head st1); reflexivity.
Qed.

End TransportList.

(** X6 on the example: "mem" is unregistered after it was assigned to
    "t1"; the allocation still succeeds and pins the module of "mem". *)
Lemma ltt_trace_alloc_after_unregister_witness :
  let st := ltt_transport_unregister example_configured mem_transport in
  snd (ltt_trace_alloc K0 st "t1" alloc_ok) = 0 /\
  module_refcount (fst (ltt_trace_alloc K0 st "t1" alloc_ok)) 5%positive = 1.
Proof.
  intros st. unfold st.
  rewrite (ltt_trace_alloc_after_unregister K0 example_configured "t1"
             alloc_ok mem_transport).
  vm_compute. split; reflexivity.
Defined.

(** ** Names as the lookups read them *)

Lemma name_matches_agree a b t :
  strncpy a NAME_MAX = strncpy b NAME_MAX ->
  name_matches a t <-> name_matches b t.
Proof. intros H. rewrite !name_matches_key, H. reflexivity. Qed.

(** X7: the registry reads NAME_MAX characters of a name.  Two names that
    agree on their first NAME_MAX characters are one name for it: both
    lookups and ltt_trace_setup give the same result for either. *)
Theorem names_agree_up_to_name_max st a b :
  strncpy a NAME_MAX = strncpy b NAME_MAX ->
  _ltt_trace_find st a = _ltt_trace_find st b /\
  _ltt_trace_find_setup st a = _ltt_trace_find_setup st b /\
  forall K env, ltt_trace_setup K st a env = ltt_trace_setup K st b env.
Proof.
  intros H.
  assert (Hf : _ltt_trace_find st a = _ltt_trace_find st b).
  { apply list_find_ext. intros t. apply name_matches_agree, H. }
  assert (Hs : _ltt_trace_find_setup st a = _ltt_trace_find_setup st b).
  { apply list_find_ext. intros t. apply name_matches_agree, H. }
  split; [exact Hf|]. split; [exact Hs|].
  intros K env. unfold ltt_trace_setup, _ltt_trace_setup.
  rewrite Hf, Hs, H. reflexivity.
Qed.

(** X7 on two names of 256 characters that differ in the last one: after
    the first is created the second is refused. *)
Lemma names_agree_up_to_name_max_witness :
  let a := long_name "x" "A" in
  let b := long_name "x" "B" in
  a <> b /\
  snd (ltt_trace_setup K0 (fst (ltt_trace_setup K0 ltt_init_state a setup_ok))
         b setup_ok) = - EEXIST.
Proof.
  intros a b. split; [vm_compute; discriminate|].
  destruct (names_agree_up_to_name_max
              (fst (ltt_trace_setup K0 ltt_init_state a setup_ok)) a b)
    as (_ & _ & H); [vm_compute; reflexivity|].
  rewrite <- H. vm_compute. reflexivity.
Defined.

(** ** What a creation links *)

Section SetupDefaults.

Variable K : kernel_config.

Lemma defaults_fold_settings (l : list nat) : forall t,
  let t' :=
    foldl (fun t chan =>
             set_settings (alter (default_geometry K chan) chan (settings t)) t)
      t l in
  t' = set_settings (settings t') t /\
  (NoDup l ->
   forall chan,
     settings t' !! chan
     = if decide (chan ∈ l)
       then default_geometry K chan <$> settings t !! chan
       else settings t !! chan).
Proof.
  induction l as [|c l IH]; intros t t'.
  - subst t'. simpl. split; [destruct t; reflexivity|].
    intros _ chan. destruct (decide (chan ∈ [])) as [Hin|_]; [|reflexivity].
    apply elem_of_nil in Hin. contradiction.
  - subst t'. cbn [foldl].
    destruct (IH (set_settings (alter (default_geometry K c) c (settings t)) t))
      as (Heq & Hlook).
    split; [rewrite Heq at 1; reflexivity|].
    intros Hnd chan. apply NoDup_cons in Hnd as [Hc Hnd].
    rewrite (Hlook Hnd chan). cbn [settings set_settings].
    destruct (decide (chan = c)) as [->|Hne].
    + destruct (decide (c ∈ l)) as [|_]; [contradiction|].
      destruct (decide (c ∈ c :: l)) as [_|Hno];
        [|exfalso; apply Hno, list_elem_of_here].
      apply list_lookup_alter_eq.
    + rewrite list_lookup_alter_ne by congruence.
      destruct (decide (chan ∈ l)) as [Hin|Hno];
        destruct (decide (chan ∈ c :: l)) as [Hin'|Hno']; try reflexivity.
      * exfalso. apply Hno'. apply list_elem_of_further, Hin.
      * exfalso. apply elem_of_cons in Hin' as [?|?]; contradiction.
Qed.

(** The defaults loop rewrites size and count of the channels below
    [nr_channels] and nothing else. *)
Lemma set_channel_defaults_effect t :
  set_channel_defaults K t
  = set_settings (settings (set_channel_defaults K t)) t /\
  forall chan,
    settings (set_channel_defaults K t) !! chan
    = if decide (chan < nr_channels t)%nat
      then default_geometry K chan <$> settings t !! chan
      else settings t !! chan.
Proof.
  destruct (defaults_fold_settings (seq 0 (nr_channels t)) t) as (Heq & Hlook).
  split; [exact Heq|]. intros chan.
  change (set_channel_defaults K t)
    with (foldl (fun t chan =>
                   set_settings
                     (alter (default_geometry K chan) chan (settings t)) t)
            t (seq 0 (nr_channels t))).
  rewrite (Hlook (NoDup_seq 0 _) chan).
  destruct (decide (chan ∈ seq 0 (nr_channels t))) as [Hin|Hno];
    destruct (decide (chan < nr_channels t)%nat) as [Hlt|Hge]; try reflexivity.
  - apply elem_of_seq in Hin. lia.
  - exfalso. apply Hno, elem_of_seq. lia.
Qed.

(** X8: a successful creation links a trace that has one setting and one
    NULL channel handle per registered channel, no transport, a clear
    active flag and a zero reference count; each channel has the size and
    count its type has in the preset table, the timers the allocation
    handed out, and its overwrite flag as handed out except for the
    metadata channel, where it is 0. *)
Theorem ltt_trace_setup_links_defaults st name env :
  ~ name_in_use st name -> allocations_succeed env ->
  exists t,
    ltt_trace_setup K st name env
    = (with_setup_head (t :: setup_head st) st, 0) /\
    trace_name t = strncpy name NAME_MAX /\
    nr_channels t = length (registered_channels K) /\
    length (settings t) = nr_channels t /\
    channels t = replicate (nr_channels t) 0 /\
    transport t = None /\ ops t = None /\ active t = 0 /\ kref t = 0 /\
    forall chan cname,
      registered_channels K !! chan = Some cname ->
      exists s,
        settings t !! chan = Some s /\
        sb_size s
        = def_sb_size (chan_infos K (get_channel_type_from_name K (Some cname))) /\
        n_sb s
        = def_n_sb (chan_infos K (get_channel_type_from_name K (Some cname))) /\
        switch_timer_interval s
        = switch_timer_interval (fresh_settings env chan) /\
        read_timer_interval s = read_timer_interval (fresh_settings env chan) /\
        overwrite s
        = if decide (Z.of_nat chan = ltt_channels_get_index_from_name K "metadata")
          then 0 else overwrite (fresh_settings env chan).
Proof.
  intros Hfree (Hk & Hc). apply not_in_use_None in Hfree as (E1 & E2).
  unfold ltt_trace_setup, _ltt_trace_setup. rewrite E1, E2, Hk, Hc.
  simpl negb. cbv iota.
  match goal with
  | |- context [set_channel_defaults K ?t0] =>
      destruct (set_channel_defaults_effect t0) as (Heq & Hlook);
      set (t := set_channel_defaults K t0) in *
  end.
  exists t. split; [reflexivity|].
  rewrite Heq. cbn [trace_name nr_channels channels transport ops active kref
                    set_settings settings].
  repeat (split; [reflexivity|]).
  assert (Hlen : length (settings t) = length (registered_channels K)).
  { apply Nat.le_antisymm.
    - destruct (le_lt_dec (length (settings t)) (length (registered_channels K)))
        as [|Hlt]; [assumption|].
      destruct (lookup_lt_is_Some_2 (settings t) (length (registered_channels K)) Hlt)
        as [s Hs].
      rewrite Hlook in Hs. cbn [nr_channels set_settings] in Hs.
      destruct (decide _) as [Habs|_]; [lia|].
      cbn [settings set_settings] in Hs. unfold array_update in Hs.
      apply lookup_lt_Some in Hs.
      destruct (_ <? 0) in Hs;
        rewrite ?length_alter, length_map, length_seq in Hs; lia.
    - destruct (le_lt_dec (length (registered_channels K)) (length (settings t)))
        as [|Hlt]; [assumption|].
      assert (Hn : settings t !! length (settings t) = None)
        by (apply lookup_ge_None; lia).
      rewrite Hlook in Hn. cbn [nr_channels set_settings] in Hn.
      destruct (decide _) as [_|Habs]; [|lia].
      cbn [settings set_settings] in Hn.
      apply fmap_None, lookup_ge_None in Hn. unfold array_update in Hn.
      destruct (_ <? 0) in Hn;
        rewrite ?length_alter, length_map, length_seq in Hn; lia. }
  split; [exact Hlen|]. repeat (split; [reflexivity|]).
  intros chan cname Hreg.
  assert (Hlt : (chan < length (registered_channels K))%nat)
    by (eapply lookup_lt_Some, Hreg).
  rewrite Hlook. cbn [nr_channels set_settings settings].
  destruct (decide _) as [_|Habs]; [|lia].
  assert (Hfresh : map (fresh_settings env) (seq 0 (length (registered_channels K)))
                     !! chan = Some (fresh_settings env chan)).
  { change (map (fresh_settings env) (seq 0 (length (registered_channels K))))
      with (fresh_settings env <$> seq 0 (length (registered_channels K))).
    rewrite list_lookup_fmap, lookup_seq_lt by exact Hlt. reflexivity. }
  unfold array_update, default_geometry, ltt_channels_get_name_from_index.
  rewrite Hreg.
  destruct (Z.ltb_spec (ltt_channels_get_index_from_name K "metadata") 0) as [Hneg|Hpos].
  - rewrite Hfresh. eexists. split; [reflexivity|]. cbn.
    repeat (split; [reflexivity|]).
    destruct (decide _) as [Habs|_]; [lia|reflexivity].
  - destruct (decide (Z.to_nat (ltt_channels_get_index_from_name K "metadata") = chan))
      as [Em|Em].
    + rewrite Em, list_lookup_alter_eq, Hfresh. eexists.
      split; [reflexivity|]. cbn. repeat (split; [reflexivity|]).
      destruct (decide _) as [_|Habs]; [reflexivity|lia].
    + rewrite list_lookup_alter_ne by exact Em. rewrite Hfresh. eexists.
      split; [reflexivity|]. cbn. repeat (split; [reflexivity|]).
      destruct (decide _) as [Habs|_]; [lia|reflexivity].
Qed.

End SetupDefaults.

(** X8 on the example configuration: the kernel channel of a new trace
    gets the high-volume preset. *)
Lemma ltt_trace_setup_links_defaults_witness :
  exists t s,
    ltt_trace_setup K0 ltt_init_state "t1" setup_ok
    = (with_setup_head [t] ltt_init_state, 0) /\
    settings t !! 1%nat = Some s /\ sb_size s = 1048576 /\ n_sb s = 2.
Proof.
  destruct (ltt_trace_setup_links_defaults K0 ltt_init_state "t1" setup_ok)
    as (t & E & _ & _ & _ & _ & _ & _ & _ & _ & Hchan).
  - intros [[x H]|[x H]]; vm_compute in H; discriminate.
  - split; reflexivity.
  - destruct (Hchan 1%nat "kernel"%string eq_refl) as (s & Hs & Hsz & Hn & _).
    exists t, s. split; [exact E|]. split; [exact Hs|].
    split; [rewrite Hsz|rewrite Hn]; vm_compute; reflexivity.
Defined.

(** ** One trace per name *)

Lemma registry_names_unique_aux K rs :
  let st := run K ltt_init_state rs in
  NoDup (map trace_key (sessions st)) /\
  (forall name,
     _ltt_trace_find_setup st name = None \/ _ltt_trace_find st name = None) /\
  (forall i j t u,
     sessions st !! i = Some t -> sessions st !! j = Some u ->
     trace_name t = trace_name u -> i = j).
Proof.
  intros st. pose proof (run_names_unique K rs) as Hu. fold st in Hu.
  split; [exact Hu|]. split.
  - intros name.
    destruct (_ltt_trace_find_setup st name) as [[i t]|] eqn:Es; [|auto].
    destruct (_ltt_trace_find st name) as [[j u]|] eqn:Ea; [|auto].
    exfalso. apply find_Some_lookup in Es as [Hs Ks], Ea as [Ha Ka].
    destruct (names_unique_split st Hu) as (_ & _ & Hdisj).
    apply (Hdisj t u).
    + apply list_elem_of_lookup. eauto.
    + apply list_elem_of_lookup. eauto.
    + congruence.
  - intros i j t u Hi Hj Hn. unfold names_unique in Hu.
    eapply NoDup_lookup; [exact Hu| |].
    + rewrite list_lookup_fmap, Hi. reflexivity.
    + rewrite list_lookup_fmap, Hj. unfold trace_key. simpl. congruence.
Qed.

(** X9: after every history of calls no two traces of the registry answer
    to the same name: the names read by the lookups are pairwise distinct
    across the setup list and the active list, so no name is found in both
    lists and two positions holding the same stored name are one. *)
Theorem registry_names_unique K rs :
  let st := run K ltt_init_state rs in
  NoDup (map trace_key (sessions st)) /\
  (forall name,
     _ltt_trace_find_setup st name = None \/ _ltt_trace_find st name = None) /\
  (forall i j t u,
     sessions st !! i = Some t -> sessions st !! j = Some u ->
     trace_name t = trace_name u -> i = j).
Proof. apply registry_names_unique_aux. Qed.

(** X9 on the example history: "t1" is allocated, so it is not pending. *)
Lemma registry_names_unique_witness :
  _ltt_trace_find_setup (run K0 ltt_init_state example_started_history) "t1"
  = None.
Proof.
  destruct (registry_names_unique K0 example_started_history) as (_ & H & _).
  destruct (H "t1"%string) as [E|E]; [exact E|].
  vm_compute in E. discriminate.
Defined.

(** ** The shape of the records *)

Lemma length_array_update {A} (f : A -> A) i (l : list A) :
  length (array_update f i l) = length l.
Proof. unfold array_update. destruct (i <? 0); [reflexivity|apply length_alter]. Qed.

Lemma same_shape_refl t : same_shape t t.
Proof. repeat split. Qed.

Lemma created_handles_length env chans : forall c,
  length (created_handles env chans c) = length c.
Proof.
  induction chans as [|chan rest IH]; intros c; [reflexivity|].
  unfold created_handles in *. simpl. rewrite IH. apply length_insert.
Qed.

Section Shape.

Variable K : kernel_config.

(** The channel loop with [err] at 0: the handle of every channel is
    stored, whatever it is, and every creation is recorded in order. *)
Lemma create_channels_exact env chans : forall trace st,
  create_channels K env 0 chans trace st
  = (set_channels (created_handles env chans (channels trace)) trace,
     with_events (rev (map (create_channel_event K trace) chans) ++ events st) st,
     None).
Proof.
  induction chans as [|chan rest IH]; intros trace st.
  - destruct trace, st. reflexivity.
  - cbn [create_channels create_one_channel]. simpl negb. cbv iota.
    rewrite IH. cbn [map rev]. rewrite <- app_assoc.
    destruct trace, st. reflexivity.
Qed.

Local Abbreviation rstep st st' :=
  (registry_step pending_kept active_kept allocated (pending_ok K)
     (setup_head st) (head st) (setup_head st') (head st')).

Lemma rstep_setup st name env :
  rstep st (fst (_ltt_trace_setup K st name env)).
Proof.
  unfold _ltt_trace_setup.
  destruct (_ltt_trace_find_setup st name); [apply rstep_same|].
  destruct (_ltt_trace_find st name); [apply rstep_same|].
  destruct (kzalloc_ok env); [|apply rstep_same]. simpl negb. cbv iota.
  destruct (channels_trace_alloc_ret env =? 0); [|apply rstep_same].
  simpl negb. cbv iota. cbn [fst setup_head head with_setup_head].
  apply rstep_new.
  match goal with
  | |- pending_ok K (set_channel_defaults K ?t0) =>
      destruct (set_channel_defaults_effect K t0) as (Heq & Hlook);
      set (t := set_channel_defaults K t0) in *
  end.
  assert (Hlen : length (settings t) = length (registered_channels K)).
  { apply Nat.le_antisymm.
    - destruct (le_lt_dec (length (settings t)) (length (registered_channels K)))
        as [|Hlt]; [assumption|].
      destruct (lookup_lt_is_Some_2 (settings t) (length (registered_channels K)) Hlt)
        as [s Hs].
      rewrite Hlook in Hs. cbn [nr_channels set_settings] in Hs.
      destruct (decide _) as [Habs|_]; [lia|].
      cbn [settings set_settings] in Hs.
      apply lookup_lt_Some in Hs.
      rewrite length_array_update, length_map, length_seq in Hs. lia.
    - destruct (le_lt_dec (length (registered_channels K)) (length (settings t)))
        as [|Hlt]; [assumption|].
      assert (Hn : settings t !! length (settings t) = None)
        by (apply lookup_ge_None; lia).
      rewrite Hlook in Hn. cbn [nr_channels set_settings] in Hn.
      destruct (decide _) as [_|Habs]; [|lia].
      cbn [settings set_settings] in Hn.
      apply fmap_None, lookup_ge_None in Hn.
      rewrite length_array_update, length_map, length_seq in Hn. lia. }
  unfold pending_ok, shape_ok. rewrite Hlen. rewrite Heq.
  cbn [nr_channels channels active set_settings].
  rewrite length_replicate. auto.
Qed.

Lemma pending_kept_settings g index t :
  pending_kept t (set_settings (array_update g index (settings t)) t).
Proof.
  split; [|auto]. split; [reflexivity|]. split; [|reflexivity].
  cbn [settings set_settings]. apply length_array_update.
Qed.

Lemma rstep_set_type st name ty :
  rstep st (fst (ltt_trace_set_type st name ty)).
Proof.
  unfold ltt_trace_set_type.
  destruct (_ltt_trace_find_setup st name) as [[i t]|] eqn:Hs; [|apply rstep_same].
  destruct (list_find _ (ltt_transport_list st)) as [[j tr]|]; [|apply rstep_same].
  apply find_Some_lookup in Hs as [Hl _].
  simpl. eapply rstep_update_setup; [exact Hl|].
  split; [repeat split|auto].
Qed.

Lemma rstep_set_subbufsize st name c v :
  rstep st (fst (ltt_trace_set_channel_subbufsize K st name c v)).
Proof.
  unfold ltt_trace_set_channel_subbufsize.
  destruct (_ltt_trace_find_setup st name) as [[i t]|] eqn:Hs; [|apply rstep_same].
  destruct (_ <? 0); [apply rstep_same|].
  apply find_Some_lookup in Hs as [Hl _].
  simpl. eapply rstep_update_setup; [exact Hl|apply pending_kept_settings].
Qed.

Lemma rstep_set_subbufcount st name c v :
  rstep st (fst (ltt_trace_set_channel_subbufcount K st name c v)).
Proof.
  unfold ltt_trace_set_channel_subbufcount.
  destruct (_ltt_trace_find_setup st name) as [[i t]|] eqn:Hs; [|apply rstep_same].
  destruct (_ <? 0); [apply rstep_same|].
  apply find_Some_lookup in Hs as [Hl _].
  simpl. eapply rstep_update_setup; [exact Hl|apply pending_kept_settings].
Qed.

Lemma rstep_set_switch_timer st name c v :
  rstep st (fst (ltt_trace_set_channel_switch_timer K st name c v)).
Proof.
  unfold ltt_trace_set_channel_switch_timer.
  destruct (_ltt_trace_find_setup st name) as [[i t]|] eqn:Hs; [|apply rstep_same].
  destruct (_ <? 0); [apply rstep_same|].
  apply find_Some_lookup in Hs as [Hl _].
  simpl. eapply rstep_update_setup; [exact Hl|apply pending_kept_settings].
Qed.

Lemma rstep_set_overwrite st name c v :
  rstep st (fst (ltt_trace_set_channel_overwrite K st name c v)).
Proof.
  unfold ltt_trace_set_channel_overwrite.
  destruct (_ltt_trace_find_setup st name) as [[i t]|] eqn:Hs; [|apply rstep_same].
  destruct (negb (v =? 0) && _); [apply rstep_same|].
  destruct (_ <? 0); [apply rstep_same|].
  apply find_Some_lookup in Hs as [Hl _].
  simpl. eapply rstep_update_setup; [exact Hl|apply pending_kept_settings].
Qed.

Lemma rstep_alloc st name env :
  rstep st (fst (ltt_trace_alloc K st name env)).
Proof.
  unfold ltt_trace_alloc.
  destruct (_ltt_trace_find_setup st name) as [[i t]|] eqn:Hs; [|apply rstep_same].
  apply find_Some_lookup in Hs as [Hl _].
  cbn [transport set_freq_scale set_active set_kref_wq set_kref].
  assert (Hk : forall t', same_shape t t' -> active t' = 0 -> pending_kept t t')
    by (intros t' H1 H2; split; auto).
  destruct (transport t) as [tr|] eqn:Htr.
  2:{ simpl. eapply rstep_update_setup; [exact Hl|].
      apply Hk; [repeat split|reflexivity]. }
  destruct (try_module_get (tr_owner tr) (transport_live env) (get_trace_clock st))
    as [pinned st1] eqn:Hget.
  pose proof (try_module_get_lists (tr_owner tr) (transport_live env)
                (get_trace_clock st)) as (G1 & G2 & _).
  rewrite Hget in G1, G2. simpl in G1, G2.
  destruct pinned; simpl negb; cbv iota.
  2:{ simpl. rewrite G1, G2. eapply rstep_update_setup; [exact Hl|].
      apply Hk; [repeat split|reflexivity]. }
  destruct (create_dirs_ret env =? 0) eqn:Hd; simpl negb; cbv iota.
  2:{ cbn [fst].
      match goal with
      | |- context [module_put ?m ?s] =>
          destruct (module_put_lists m s) as (M1 & M2 & _)
      end.
      simpl in M1, M2 |- *. rewrite M1, M2, G1, G2.
      eapply rstep_update_setup; [exact Hl|].
      apply Hk; [repeat split|reflexivity]. }
  apply Z.eqb_eq in Hd. rewrite Hd, create_channels_exact.
  simpl. rewrite G1, G2.
  assert (Hm : forall chs, length chs = length (channels t) ->
            allocated t
              (set_channels chs
                 (set_start_stamps (clock_frequency env) (clock_read64 env)
                    (gettimeofday env)
                    (set_ops (Some tr)
                       (set_freq_scale (clock_freq_scale env)
                          (set_active 0 (set_kref_wq true (set_kref 1 t)))))))).
  { intros chs Hlen. split; [|cbn; rewrite Htr; eauto 6].
    split; [reflexivity|]. split; [reflexivity|exact Hlen]. }
  destruct (head st) eqn:Hhead; simpl; rewrite ?G1, ?G2;
    (eapply rstep_move; [exact Hl|]; apply Hm, created_handles_length).
Qed.

Lemma rstep_destroy st name :
  rstep st (fst (ltt_trace_destroy st name)).
Proof.
  unfold ltt_trace_destroy, _ltt_trace_destroy.
  destruct (_ltt_trace_find st name) as [[i t]|] eqn:Ha.
  - destruct (active t =? 0); simpl negb; cbv iota; [|apply rstep_same].
    destruct (delete i (head st)) as [|u l] eqn:Hd; simpl;
      rewrite ?Hd; simpl;
      match goal with
      | |- context [__ltt_trace_destroy ?s t] =>
          destruct (__ltt_trace_destroy_lists s t) as (D1 & D2 & _);
          rewrite D1, D2; simpl
      end; rewrite <- Hd; apply rstep_delete_active.
  - destruct (_ltt_trace_find_setup st name) as [[i t]|]; [|apply rstep_same].
    simpl. apply rstep_delete_setup.
Qed.

Lemma rstep_start st name env :
  rstep st (fst (ltt_trace_start st name env)).
Proof.
  unfold ltt_trace_start, _ltt_trace_start.
  destruct (_ltt_trace_find st name) as [[i t]|] eqn:Ha; [|apply rstep_same].
  apply find_Some_lookup in Ha as [Hl _].
  destruct (try_module_get (ltt_run_filter_owner st) (run_filter_live env) st)
    as [pinned st1] eqn:Hget.
  pose proof (try_module_get_lists (ltt_run_filter_owner st)
                (run_filter_live env) st) as (G1 & G2 & _).
  rewrite Hget in G1, G2. simpl in G1, G2.
  destruct pinned; simpl negb; cbv iota.
  2:{ simpl. rewrite G1, G2. apply rstep_same. }
  simpl.
  match goal with
  | |- context [try_module_get ?m ?l ?s] =>
      destruct (try_module_get m l s) as [pinned2 st2] eqn:Hget2;
      pose proof (try_module_get_lists m l s) as (P1 & P2 & _);
      rewrite Hget2 in P1, P2; simpl in P1, P2
  end.
  destruct pinned2; simpl.
  - match goal with
    | |- context [module_put ?m ?s] =>
        destruct (module_put_lists m s) as (M1 & M2 & _); rewrite M1, M2
    end.
    simpl. rewrite P1, P2, G1, G2.
    eapply rstep_update_active; [exact Hl|]. exists 1. auto.
  - rewrite P1, P2, G1, G2.
    eapply rstep_update_active; [exact Hl|]. exists 1. auto.
Qed.

Lemma rstep_stop st name :
  rstep st (fst (ltt_trace_stop st name)).
Proof.
  unfold ltt_trace_stop, _ltt_trace_stop.
  destruct (_ltt_trace_find st name) as [[i t]|] eqn:Ha; [|apply rstep_same].
  apply find_Some_lookup in Ha as [Hl _].
  cbn [fst].
  match goal with
  | |- context [module_put ?m ?s] =>
      destruct (module_put_lists m s) as (M1 & M2 & _); rewrite M1, M2
  end.
  destruct (active t =? 0); simpl; [apply rstep_same|].
  eapply rstep_update_active; [exact Hl|]. exists 0. auto.
Qed.

Lemma rstep_filter_control st msg name live ret :
  rstep st (fst (ltt_filter_control st msg name live ret)).
Proof.
  unfold ltt_filter_control.
  destruct (_ltt_trace_find st name) as [[i t]|]; [|apply rstep_same].
  destruct (try_module_get (ltt_filter_control_owner st) live st)
    as [pinned st1] eqn:Hget.
  pose proof (try_module_get_lists (ltt_filter_control_owner st) live st)
    as (G1 & G2 & _).
  rewrite Hget in G1, G2. simpl in G1, G2.
  destruct pinned; simpl negb; cbv iota.
  2:{ simpl. rewrite G1, G2. apply rstep_same. }
  destruct msg; cbn [fst];
    match goal with
    | |- context [module_put ?m ?s] =>
        destruct (module_put_lists m s) as (M1 & M2 & _); rewrite M1, M2
    end; simpl; rewrite G1, G2; apply rstep_same.
Qed.

(** Every call changes the lists in one of the listed ways. *)
Lemma rstep_handle st r : rstep st (fst (handle K st r)).
Proof.
  destruct r; simpl handle.
  - unfold ltt_module_register. destruct name; simpl;
      match goal with |- context [match ?x with _ => _ end] => destruct x end;
      simpl; apply rstep_same.
  - destruct name; simpl; apply rstep_same.
  - simpl. apply rstep_same.
  - simpl. apply rstep_same.
  - apply rstep_setup.
  - apply rstep_set_type.
  - apply rstep_set_subbufsize.
  - apply rstep_set_subbufcount.
  - apply rstep_set_switch_timer.
  - apply rstep_set_overwrite.
  - apply rstep_alloc.
  - apply rstep_destroy.
  - apply rstep_start.
  - apply rstep_stop.
  - apply rstep_filter_control.
Qed.

Lemma same_shape_ok t t' : same_shape t t' -> shape_ok K t -> shape_ok K t'.
Proof.
  intros (H1 & H2 & H3) (S1 & S2 & S3). unfold shape_ok.
  rewrite H1, H2, H3. auto.
Qed.

Lemma registry_step_forall s h s' h' :
  registry_step pending_kept active_kept allocated (pending_ok K) s h s' h' ->
  Forall (pending_ok K) s /\ Forall (active_ok K) h ->
  Forall (pending_ok K) s' /\ Forall (active_ok K) h'.
Proof.
  intros Hstep (Hs & Hh).
  destruct Hstep as [|t Ht|i t t' Hl Hr|i t t' Hl Hr|i t t' Hl Hr|i|i].
  - auto.
  - split; [apply Forall_cons; auto|exact Hh].
  - split; [|exact Hh]. apply Forall_insert; [exact Hs|].
    pose proof (Forall_lookup_1 _ _ _ _ Hs Hl) as (Hshape & Hact).
    destruct Hr as (Hsame & Hkeep).
    split; [eapply same_shape_ok; eauto|auto].
  - split; [exact Hs|]. apply Forall_insert; [exact Hh|].
    pose proof (Forall_lookup_1 _ _ _ _ Hh Hl) as (Hshape & Hact & Hrest).
    destruct Hr as (v & Hv & ->).
    split; [exact Hshape|]. split; [exact Hv|exact Hrest].
  - split; [apply Forall_delete, Hs|]. apply Forall_cons. split; [|exact Hh].
    pose proof (Forall_lookup_1 _ _ _ _ Hs Hl) as (Hshape & _).
    destruct Hr as (Hsame & Ha & Hrest).
    split; [eapply same_shape_ok; eauto|]. split; [auto|exact Hrest].
  - split; [apply Forall_delete, Hs|exact Hh].
  - split; [exact Hs|apply Forall_delete, Hh].
Qed.

Lemma registry_step_well_formed st st' :
  registry_step pending_kept active_kept allocated (pending_ok K)
    (setup_head st) (head st) (setup_head st') (head st') ->
  well_formed K st -> well_formed K st'.
Proof. unfold well_formed. apply registry_step_forall. Qed.

Lemma run_well_formed rs : well_formed K (run K ltt_init_state rs).
Proof.
  apply run_invariant.
  - intros st r. apply registry_step_well_formed, rstep_handle.
  - split; apply Forall_nil_2.
Qed.

End Shape.

(** X10: after every history of calls every trace of the registry has
    exactly one setting and one channel handle per registered channel;
    every trace of the setup list has its active flag clear; and every
    trace of the active list has an active flag of 0 or 1, a reference
    count of 1, a transport, and its operations taken from that
    transport. *)
Theorem registry_well_formed K rs :
  let st := run K ltt_init_state rs in
  (forall t, t ∈ sessions st ->
     length (settings t) = length (registered_channels K) /\
     length (channels t) = length (registered_channels K) /\
     nr_channels t = length (registered_channels K)) /\
  (forall t, t ∈ setup_head st -> active t = 0) /\
  (forall t, t ∈ head st ->
     (active t = 0 \/ active t = 1) /\ kref t = 1 /\
     is_Some (transport t) /\ ops t = transport t).
Proof.
  intros st. destruct (run_well_formed K rs) as (Hs & Hh). fold st in Hs, Hh.
  rewrite Forall_forall in Hs, Hh. split; [|split].
  - intros t Hin. apply elem_of_app in Hin as [Hin|Hin].
    + destruct (Hs t Hin) as ((S1 & S2 & S3) & _). rewrite S2, S3. auto.
    + destruct (Hh t Hin) as ((S1 & S2 & S3) & _). rewrite S2, S3. auto.
  - intros t Hin. apply (Hs t Hin).
  - intros t Hin. apply (Hh t Hin).
Qed.

(** X10 on the example history: the started trace "t1". *)
Lemma registry_well_formed_witness :
  Forall (fun t => active t = 1 /\ kref t = 1 /\ length (channels t) = 3%nat)
    (head (run K0 ltt_init_state example_started_history)).
Proof.
  destruct (registry_well_formed K0 example_started_history)
    as (Hshape & _ & Hact).
  apply Forall_forall. intros t Hin.
  destruct (Hact t Hin) as (Ha & Hk & _).
  destruct (Hshape t) as (_ & Hc & _); [apply elem_of_app; right; exact Hin|].
  split; [|split; [exact Hk|exact Hc]].
  vm_compute in Hin. apply elem_of_cons in Hin as [->|Hin]; [reflexivity|].
  apply elem_of_nil in Hin. contradiction.
Defined.

(** ** Configuring a pending trace *)

Lemma alter_as_insert {A} (f : A -> A) (l : list A) i x :
  l !! i = Some x -> alter f i l = <[i := f x]> l.
Proof.
  intros Hl. apply list_eq. intros j.
  destruct (decide (i = j)) as [<-|Hne].
  - rewrite list_lookup_alter_eq, Hl, list_lookup_insert_eq;
      [reflexivity|eapply lookup_lt_Some, Hl].
  - rewrite list_lookup_alter_ne, list_lookup_insert_ne by exact Hne.
    reflexivity.
Qed.

Section Configure.

Variable K : kernel_config.

(** X11: the four channel setters need a pending trace and a registered
    channel.  When no trace of the setup list has the name they return
    -ENOENT; when the trace is pending but the channel name has no index,
    the size, count and timer setters return -ENOENT and the overwrite
    setter returns -ENOENT or, for a non-zero value on the name
    "metadata", -EINVAL.  In all these cases the registry is unchanged. *)
Theorem ltt_trace_set_channel_unresolved st name channel_name v :
  (_ltt_trace_find_setup st name = None ->
   ltt_trace_set_channel_subbufsize K st name channel_name v = (st, - ENOENT) /\
   ltt_trace_set_channel_subbufcount K st name channel_name v = (st, - ENOENT) /\
   ltt_trace_set_channel_switch_timer K st name channel_name v = (st, - ENOENT) /\
   ltt_trace_set_channel_overwrite K st name channel_name v = (st, - ENOENT)) /\
  (is_Some (_ltt_trace_find_setup st name) ->
   ltt_channels_get_index_from_name K channel_name < 0 ->
   ltt_trace_set_channel_subbufsize K st name channel_name v = (st, - ENOENT) /\
   ltt_trace_set_channel_subbufcount K st name channel_name v = (st, - ENOENT) /\
   ltt_trace_set_channel_switch_timer K st name channel_name v = (st, - ENOENT) /\
   ltt_trace_set_channel_overwrite K st name channel_name v
   = (st, if negb (v =? 0) && (strcmp channel_name "metadata" =? 0)
          then - EINVAL else - ENOENT)).
Proof.
  unfold ltt_trace_set_channel_subbufsize, ltt_trace_set_channel_subbufcount,
    ltt_trace_set_channel_switch_timer, ltt_trace_set_channel_overwrite.
  split.
  - intros ->. auto.
  - intros [[i t] ->] Hidx. apply Z.ltb_lt in Hidx. rewrite Hidx.
    repeat (split; [reflexivity|]).
    destruct (negb (v =? 0) && _); reflexivity.
Qed.

Lemma active_name_not_pending rs name :
  is_Some (_ltt_trace_find (run K ltt_init_state rs) name) ->
  _ltt_trace_find_setup (run K ltt_init_state rs) name = None.
Proof.
  intros [x Hx].
  destruct (proj1 (proj2 (registry_names_unique_aux K rs)) name) as [H|H];
    [exact H|congruence].
Qed.

End Configure.

(** X11 on the example registry: an unknown trace and an unknown channel. *)
Lemma ltt_trace_set_channel_unresolved_witness :
  ltt_trace_set_channel_subbufsize K0 example_pending "t2" "kernel" 4096
  = (example_pending, - ENOENT) /\
  ltt_trace_set_channel_subbufcount K0 example_pending "t1" "block" 4
  = (example_pending, - ENOENT).
Proof.
  split.
  - apply (proj1 (ltt_trace_set_channel_unresolved K0 example_pending
                    "t2"%string "kernel"%string 4096)).
    vm_compute. reflexivity.
  - apply (proj2 (ltt_trace_set_channel_unresolved K0 example_pending
                    "t1"%string "block"%string 4)).
    + vm_compute. eauto.
    + vm_compute. reflexivity.
Defined.


(** X12: configuration and allocation are for pending traces only.  After
    every history of calls, for the name of a trace of the active list
    ltt_trace_set_type, the four channel setters and ltt_trace_alloc all
    return -ENOENT and change nothing: an allocated trace cannot be
    reconfigured or allocated a second time. *)
Theorem allocated_trace_is_frozen K rs name :
  let st := run K ltt_init_state rs in
  is_Some (_ltt_trace_find st name) ->
  (forall trace_type,
     ltt_trace_set_type st name trace_type = (st, - ENOENT)) /\
  (forall channel_name v,
     ltt_trace_set_channel_subbufsize K st name channel_name v = (st, - ENOENT) /\
     ltt_trace_set_channel_subbufcount K st name channel_name v = (st, - ENOENT) /\
     ltt_trace_set_channel_switch_timer K st name channel_name v = (st, - ENOENT) /\
     ltt_trace_set_channel_overwrite K st name channel_name v = (st, - ENOENT)) /\
  (forall env, ltt_trace_alloc K st name env = (st, - ENOENT)).
Proof.
  intros st Hact.
  pose proof (active_name_not_pending K rs name Hact) as Hs. fold st in Hs.
  unfold ltt_trace_set_type, ltt_trace_set_channel_subbufsize,
    ltt_trace_set_channel_subbufcount, ltt_trace_set_channel_switch_timer,
    ltt_trace_set_channel_overwrite, ltt_trace_alloc.
  rewrite Hs. repeat split.
Qed.

(** X12 on the example history, where "t1" is allocated. *)
Lemma allocated_trace_is_frozen_witness :
  let st := run K0 ltt_init_state example_started_history in
  ltt_trace_set_type st "t1" "relay" = (st, - ENOENT) /\
  ltt_trace_alloc K0 st "t1" alloc_ok = (st, - ENOENT).
Proof.
  intros st.
  destruct (allocated_trace_is_frozen K0 example_started_history "t1")
    as (Hty & _ & Hal).
  - vm_compute. eauto.
  - split; [apply Hty|apply Hal].
Defined.

(** X13: on a pending trace and a registered channel each setter returns
    0 and stores its value in one field of the setting of that channel:
    the other fields of the setting, the settings of the other channels,
    the other fields of the trace and the rest of the registry are as
    before.  (The overwrite setter does so unless it refuses the value.) *)
Theorem ltt_trace_set_channel_stores K rs name channel_name v i t :
  let st := run K ltt_init_state rs in
  let n := Z.to_nat (ltt_channels_get_index_from_name K channel_name) in
  _ltt_trace_find_setup st name = Some (i, t) ->
  0 <= ltt_channels_get_index_from_name K channel_name ->
  exists s,
    settings t !! n = Some s /\
    ltt_trace_set_channel_subbufsize K st name channel_name v
    = (store_setup i (set_settings (<[n := set_sb_size v s]> (settings t)) t) st,
       0) /\
    ltt_trace_set_channel_subbufcount K st name channel_name v
    = (store_setup i (set_settings (<[n := set_n_sb v s]> (settings t)) t) st,
       0) /\
    ltt_trace_set_channel_switch_timer K st name channel_name v
    = (store_setup i
         (set_settings (<[n := set_switch_timer_interval v s]> (settings t)) t)
         st, 0) /\
    (negb (v =? 0) && (strcmp channel_name "metadata" =? 0) = false ->
     ltt_trace_set_channel_overwrite K st name channel_name v
     = (store_setup i (set_settings (<[n := set_overwrite v s]> (settings t)) t)
          st, 0)).
Proof.
  intros st n Hf Hidx.
  destruct (run_well_formed K rs) as (Hpend & _). fold st in Hpend.
  pose proof (find_Some_lookup _ _ _ _ Hf) as [Hl _].
  pose proof (Forall_lookup_1 _ _ _ _ Hpend Hl) as ((S1 & S2 & _) & _).
  destruct (index_registered K channel_name Hidx) as (c & Hc & _).
  apply lookup_lt_Some in Hc. fold n in Hc.
  destruct (lookup_lt_is_Some_2 (settings t) n) as [s Hs]; [lia|].
  exists s. split; [exact Hs|].
  unfold ltt_trace_set_channel_subbufsize, ltt_trace_set_channel_subbufcount,
    ltt_trace_set_channel_switch_timer, ltt_trace_set_channel_overwrite,
    ltt_channels_trace_set_timer, array_update.
  rewrite Hf.
  destruct (Z.ltb_spec (ltt_channels_get_index_from_name K channel_name) 0)
    as [|_]; [lia|].
  fold n. rewrite !(alter_as_insert _ _ _ _ Hs).
  repeat (split; [reflexivity|]).
  intros ->. reflexivity.
Qed.

(** X13 on the example registry: the count of the kernel channel of "t1"
    is set to 8 and read back. *)
Lemma ltt_trace_set_channel_stores_witness :
  exists t',
    setup_head (fst (ltt_trace_set_channel_subbufcount K0 example_pending
                       "t1" "kernel" 8)) = [t'] /\
    n_sb <$> settings t' !! 1%nat = Some 8 /\
    sb_size <$> settings t' !! 1%nat = Some 1048576.
Proof.
  destruct (_ltt_trace_find_setup example_pending "t1") as [[i t]|] eqn:E;
    [|vm_compute in E; discriminate].
  destruct (ltt_trace_set_channel_stores K0
              [ Req_transport_register mem_transport;
                Req_transport_register relay_transport;
                Req_trace_setup "t1" setup_ok ]
              "t1" "kernel" 8 i t E) as (s & Hs & _ & Hcount & _).
  - vm_compute. discriminate.
  - change (run K0 ltt_init_state
              [ Req_transport_register mem_transport;
                Req_transport_register relay_transport;
                Req_trace_setup "t1" setup_ok ]) with example_pending in Hcount.
    rewrite Hcount. vm_compute in E. injection E as <- <-.
    vm_compute in Hs. injection Hs as <-.
    eexists. split; [vm_compute; reflexivity|]. split; reflexivity.
Defined.

(** ** Allocation *)

Lemma created_handles_lookup env (chans : list nat) : forall (c : list Z) j,
  NoDup chans ->
  created_handles env chans c !! j
  = if decide (j ∈ chans /\ (j < length c)%nat)
    then Some (create_channel_ret env j) else c !! j.
Proof.
  induction chans as [|chan rest IH]; intros c j Hnd.
  - change (created_handles env [] c) with c.
    case_decide as H; [|reflexivity].
    destruct H as [Hin _]. apply elem_of_nil in Hin. contradiction.
  - apply NoDup_cons in Hnd as [Hnot Hnd].
    change (created_handles env (chan :: rest) c)
      with (created_handles env rest (<[chan := create_channel_ret env chan]> c)).
    rewrite (IH _ j Hnd), length_insert.
    destruct (decide (j = chan)) as [->|Hne].
    + case_decide as H1; [destruct H1; contradiction|].
      case_decide as H2.
      * apply list_lookup_insert_eq, H2.
      * rewrite list_insert_ge; [reflexivity|].
        destruct (le_lt_dec (length c) chan) as [|Hlt]; [assumption|].
        exfalso. apply H2. split; [apply list_elem_of_here|exact Hlt].
    + rewrite list_lookup_insert_ne by congruence.
      case_decide as H1; case_decide as H2; try reflexivity.
      * exfalso. apply H2. destruct H1 as [Hin Hlt].
        split; [apply list_elem_of_further, Hin|exact Hlt].
      * exfalso. apply H1. destruct H2 as [Hin Hlt]. split; [|exact Hlt].
        apply elem_of_cons in Hin as [?|?]; [contradiction|assumption].
Qed.

Lemma created_handles_all env n (c : list Z) :
  length c = n ->
  created_handles env (seq 0 n) c = map (create_channel_ret env) (seq 0 n).
Proof.
  intros Hlen. apply list_eq. intros j.
  rewrite (created_handles_lookup env (seq 0 n) c j (NoDup_seq 0 n)).
  change (map (create_channel_ret env) (seq 0 n))
    with (create_channel_ret env <$> seq 0 n).
  rewrite list_lookup_fmap.
  destruct (decide (j < n)%nat) as [Hlt|Hge].
  - rewrite lookup_seq_lt by exact Hlt.
    case_decide as H; [reflexivity|].
    exfalso. apply H. split; [apply elem_of_seq|]; lia.
  - rewrite lookup_seq_ge by lia.
    case_decide as H; [destruct H as [Hin _]; apply elem_of_seq in Hin; lia|].
    apply lookup_ge_None. lia.
Qed.

Lemma module_refcount_get st m m' :
  module_refcount
    (with_module_refs (<[m := module_refcount st m + 1]> (module_refs st)) st) m'
  = module_refcount st m' + (if decide (Some m = Some m') then 1 else 0).
Proof.
  unfold module_refcount at 1. cbn [module_refs with_module_refs].
  destruct (decide (Some m = Some m')) as [[= <-]|Hne].
  - rewrite lookup_insert_eq. reflexivity.
  - rewrite lookup_insert_ne by congruence. unfold module_refcount. simpl. lia.
Qed.

Section Alloc.

Variable K : kernel_config.

(** The exact effect of a successful allocation. *)
Lemma ltt_trace_alloc_success_aux st name env i t tr :
  _ltt_trace_find_setup st name = Some (i, t) -> transport t = Some tr ->
  pin_succeeds (tr_owner tr) (transport_live env) -> create_dirs_ret env = 0 ->
  let st' := fst (ltt_trace_alloc K st name env) in
  snd (ltt_trace_alloc K st name env) = 0 /\
  setup_head st' = delete i (setup_head st) /\
  head st' = allocated_trace env tr t :: head st /\
  kernel_trace_flag st'
  = match head st with [] => true | _ :: _ => kernel_trace_flag st end /\
  trace_clock_users st' = trace_clock_users st + 1 /\
  (forall m, module_refcount st' m
             = module_refcount st m
               + (if decide (tr_owner tr = Some m) then 1 else 0)) /\
  events st'
  = Ev_synchronize_trace
      :: rev (map (create_channel_event K t) (seq 0 (nr_channels t)))
      ++ Ev_create_dirs (trace_name t) :: events st /\
  (length (channels t) = nr_channels t ->
   channels (allocated_trace env tr t)
   = map (create_channel_ret env) (seq 0 (nr_channels t))).
Proof.
  intros Hf Htr Hpin Hd st'. subst st'. unfold ltt_trace_alloc. rewrite Hf.
  cbn [transport set_freq_scale set_active set_kref_wq set_kref]. rewrite Htr.
  rewrite (try_module_get_succeeds _ _ _ Hpin). simpl negb. cbv iota.
  rewrite Hd. simpl negb. cbv iota. rewrite create_channels_exact.
  assert (Hlast : length (channels t) = nr_channels t ->
                  channels (allocated_trace env tr t)
                  = map (create_channel_ret env) (seq 0 (nr_channels t))).
  { intros Hlen. unfold allocated_trace. cbn [channels set_channels].
    apply created_handles_all, Hlen. }
  destruct (tr_owner tr) as [m|] eqn:Ho; destruct (head st) eqn:Hh; cbn;
    rewrite ?Hh; cbn; rewrite ?Hh;
    (split; [reflexivity|]); (split; [reflexivity|]);
    (split; [reflexivity|]); (split; [reflexivity|]);
    (split; [reflexivity|]); (split; [|split; [reflexivity|exact Hlast]]);
    intros m';
    first [ apply (module_refcount_get st m m')
          | destruct (decide (None = Some m')); [discriminate|];
            unfold module_refcount; simpl; lia ].
Qed.

(** X14: an allocation that pins the transport module and creates the
    directories returns 0.  The trace leaves the setup list and is linked
    at the head of the active list with its reference count at 1, its
    active flag clear, its operations taken from the transport, the clock
    values latched and the handle of every channel stored; the trace clock
    and the transport module each gain one user, the kernel trace flag is
    raised if the active list was empty, and the buffer engine was asked
    for every channel in index order with the normalised geometry,
    between the directory creation and the wait for quiescence. *)
Theorem ltt_trace_alloc_success st name env i t tr :
  _ltt_trace_find_setup st name = Some (i, t) -> transport t = Some tr ->
  pin_succeeds (tr_owner tr) (transport_live env) -> create_dirs_ret env = 0 ->
  let st' := fst (ltt_trace_alloc K st name env) in
  snd (ltt_trace_alloc K st name env) = 0 /\
  setup_head st' = delete i (setup_head st) /\
  head st' = allocated_trace env tr t :: head st /\
  kernel_trace_flag st'
  = match head st with [] => true | _ :: _ => kernel_trace_flag st end /\
  trace_clock_users st' = trace_clock_users st + 1 /\
  (forall m, module_refcount st' m
             = module_refcount st m
               + (if decide (tr_owner tr = Some m) then 1 else 0)) /\
  events st'
  = Ev_synchronize_trace
      :: rev (map (create_channel_event K t) (seq 0 (nr_channels t)))
      ++ Ev_create_dirs (trace_name t) :: events st /\
  (length (channels t) = nr_channels t ->
   channels (allocated_trace env tr t)
   = map (create_channel_ret env) (seq 0 (nr_channels t))).
Proof. apply ltt_trace_alloc_success_aux. Qed.

(** X15: an allocation that fails before the channels leaves nothing
    held.  When the transport module cannot be pinned the call returns
    -ENODEV; when [create_dirs] returns a non-zero value the call returns
    that value.  In both cases the trace stays in the setup list with the
    same name, settings, handles and transport, the active list is
    untouched, and the users of the trace clock and the reference count of
    every module are as before. *)
Theorem ltt_trace_alloc_failure_releases st name env i t tr :
  _ltt_trace_find_setup st name = Some (i, t) -> transport t = Some tr ->
  (~ pin_succeeds (tr_owner tr) (transport_live env) ->
   ltt_trace_alloc K st name env
   = (store_setup i (alloc_inits env t) st, - ENODEV)) /\
  (pin_succeeds (tr_owner tr) (transport_live env) ->
   create_dirs_ret env <> 0 ->
   let st' := fst (ltt_trace_alloc K st name env) in
   snd (ltt_trace_alloc K st name env) = create_dirs_ret env /\
   setup_head st' = <[i := set_ops (Some tr) (alloc_inits env t)]> (setup_head st) /\
   head st' = head st /\
   kernel_trace_flag st' = kernel_trace_flag st /\
   trace_clock_users st' = trace_clock_users st /\
   (forall m, module_refcount st' m = module_refcount st m) /\
   events st' = Ev_create_dirs (trace_name t) :: events st).
Proof.
  intros Hf Htr. split.
  - intros Hno. unfold ltt_trace_alloc. rewrite Hf.
    cbn [transport set_freq_scale set_active set_kref_wq set_kref]. rewrite Htr.
    destruct (tr_owner tr) as [m|] eqn:Ho;
      [|exfalso; apply Hno; left; reflexivity].
    destruct (transport_live env) eqn:Hl;
      [exfalso; apply Hno; right; reflexivity|].
    simpl. f_equal. destruct st.
    unfold put_trace_clock, get_trace_clock, store_setup,
      with_trace_clock_users, with_setup_head.
    cbn. f_equal. lia.
  - intros Hpin Hd st'. subst st'. unfold ltt_trace_alloc. rewrite Hf.
    cbn [transport set_freq_scale set_active set_kref_wq set_kref]. rewrite Htr.
    rewrite (try_module_get_succeeds _ _ _ Hpin). simpl negb. cbv iota.
    destruct (Z.eqb_spec (create_dirs_ret env) 0) as [|_]; [contradiction|].
    simpl negb. cbv iota.
    destruct (tr_owner tr) as [m|] eqn:Ho; cbn;
      (split; [reflexivity|]); (split; [reflexivity|]);
      (split; [reflexivity|]); (split; [reflexivity|]);
      (split; [lia|]); (split; [|reflexivity]); intros m'.
    + unfold module_refcount. cbn.
      destruct (decide (m = m')) as [<-|Hne].
      * rewrite !lookup_insert_eq. simpl. lia.
      * rewrite !lookup_insert_ne by exact Hne. reflexivity.
    + reflexivity.
Qed.

End Alloc.

(** X14 on the example: the allocation of "t1". *)
Lemma ltt_trace_alloc_success_witness :
  let st' := fst (ltt_trace_alloc K0 example_configured "t1" alloc_ok) in
  map channels (head st') = [[100; 101; 102]] /\
  module_refcount st' 5%positive = 1 /\
  kernel_trace_flag st' = true.
Proof.
  intros st'.
  destruct (ltt_trace_alloc_success K0 example_configured "t1" alloc_ok
              0%nat example_t1 mem_transport)
    as (_ & _ & Hh & Hflag & _ & Hm & _ & Hc).
  - vm_compute. reflexivity.
  - reflexivity.
  - right. reflexivity.
  - reflexivity.
  - fold st' in Hh, Hflag, Hm. split; [|split].
    + rewrite Hh. cbn [map]. rewrite Hc by reflexivity.
      vm_compute. reflexivity.
    + rewrite Hm. vm_compute. reflexivity.
    + rewrite Hflag. vm_compute. reflexivity.
Defined.

(** X15 on the example: the module of "mem" is unloading, then
    [create_dirs] fails with -13. *)
Lemma ltt_trace_alloc_failure_releases_witness :
  snd (ltt_trace_alloc K0 example_configured "t1"
         (mk_alloc_env false 0 (fun _ => 0) 1 2 3 4)) = - ENODEV /\
  snd (ltt_trace_alloc K0 example_configured "t1"
         (mk_alloc_env true (-13) (fun _ => 0) 1 2 3 4)) = -13 /\
  module_refcount
    (fst (ltt_trace_alloc K0 example_configured "t1"
            (mk_alloc_env true (-13) (fun _ => 0) 1 2 3 4))) 5%positive = 0.
Proof.
  assert (Hf : _ltt_trace_find_setup example_configured "t1"
               = Some (0%nat, example_t1)) by (vm_compute; reflexivity).
  split; [|split].
  - rewrite (proj1 (ltt_trace_alloc_failure_releases K0 example_configured
                      "t1" (mk_alloc_env false 0 (fun _ => 0) 1 2 3 4)
                      0%nat example_t1 mem_transport Hf eq_refl));
      [reflexivity|].
    intros [H|H]; discriminate.
  - apply (proj2 (ltt_trace_alloc_failure_releases K0 example_configured
                    "t1" (mk_alloc_env true (-13) (fun _ => 0) 1 2 3 4)
                    0%nat example_t1 mem_transport Hf eq_refl));
      [right; reflexivity|simpl; lia].
  - destruct (proj2 (ltt_trace_alloc_failure_releases K0 example_configured
                       "t1" (mk_alloc_env true (-13) (fun _ => 0) 1 2 3 4)
                       0%nat example_t1 mem_transport Hf eq_refl))
      as (_ & _ & _ & _ & _ & Hm & _); [right; reflexivity|simpl; lia|].
    rewrite Hm. vm_compute. reflexivity.
Defined.

(** ** Destruction *)

Lemma channel_destroy_fold (t : ltt_trace) (l : list nat) : forall st,
  foldl (fun st i => emit (Ev_channel_destroy (default 0 (channels t !! i))) st)
    st l
  = with_events
      (rev (map (fun c => Ev_channel_destroy (default 0 (channels t !! c))) l)
       ++ events st) st.
Proof.
  induction l as [|c l IH]; intros st.
  - destruct st. reflexivity.
  - cbn [foldl map rev]. rewrite IH, <- app_assoc. destruct st. reflexivity.
Qed.

Lemma module_refcount_put st m m' :
  module_refcount
    (with_module_refs (<[m := module_refcount st m - 1]> (module_refs st)) st) m'
  = module_refcount st m' - (if decide (Some m = Some m') then 1 else 0).
Proof.
  unfold module_refcount at 1. cbn [module_refs with_module_refs].
  destruct (decide (Some m = Some m')) as [[= <-]|Hne].
  - rewrite lookup_insert_eq. reflexivity.
  - rewrite lookup_insert_ne by congruence. unfold module_refcount. simpl. lia.
Qed.

(** What [ltt_trace_destroy] does to an inactive trace of the active list
    that holds the last reference. *)
Lemma destroy_allocated_effect st name i t tr :
  _ltt_trace_find st name = Some (i, t) -> active t = 0 -> kref t = 1 ->
  transport t = Some tr ->
  let st' := fst (ltt_trace_destroy st name) in
  snd (ltt_trace_destroy st name) = 0 /\
  setup_head st' = setup_head st /\
  head st' = delete i (head st) /\
  kernel_trace_flag st'
  = match delete i (head st) with
    | [] => false
    | _ :: _ => kernel_trace_flag st
    end /\
  num_active_traces st' = num_active_traces st /\
  trace_clock_users st' = trace_clock_users st - 1 /\
  (forall m, module_refcount st' m
             = module_refcount st m
               - (if decide (tr_owner tr = Some m) then 1 else 0)) /\
  events st'
  = Ev_channels_trace_free (trace_name t)
      :: Ev_remove_dirs (trace_name t)
      :: channel_destroy_events t ++ Ev_synchronize_trace :: events st.
Proof.
  intros Hf Ha Hk Htr st'. subst st'.
  unfold ltt_trace_destroy, _ltt_trace_destroy. rewrite Hf, Ha.
  simpl negb. cbv iota. unfold channel_destroy_events.
  destruct (delete i (head st)) as [|u l] eqn:Hd; cbn; rewrite ?Hd; cbn;
    unfold __ltt_trace_destroy, ltt_release_trace;
    rewrite channel_destroy_fold, Hk, Htr; cbn;
    destruct (tr_owner tr) as [m|] eqn:Ho; cbn; rewrite ?Hd;
    (split; [reflexivity|]); (split; [reflexivity|]);
    (split; [reflexivity|]); (split; [reflexivity|]);
    (split; [reflexivity|]); (split; [reflexivity|]);
    (split; [|reflexivity]); intros m';
    first [ apply (module_refcount_put
                     (with_events
                        (Ev_remove_dirs (trace_name t)
                           :: rev (map (fun c => Ev_channel_destroy
                                                   (default 0 (channels t !! c)))
                                     (seq 0 (nr_channels t)))
                           ++ Ev_synchronize_trace :: events st) st) m m')
          | destruct (decide (None = Some m')); [discriminate|];
            unfold module_refcount; simpl; lia ].
Qed.

Section Destroy.

Variable K : kernel_config.

(** X16: after every history of calls, destroying a trace of the active
    list whose active flag is clear returns 0, unlinks it, waits for
    quiescence, destroys every channel handle in index order, removes the
    directories and releases the settings; it gives back one user of the
    trace clock and one reference of the module of the transport, and
    drops the kernel trace flag if the active list is left empty.  The
    setup list and the counter of active traces are untouched. *)
Theorem ltt_trace_destroy_releases rs name i t :
  let st := run K ltt_init_state rs in
  _ltt_trace_find st name = Some (i, t) -> active t = 0 ->
  exists tr,
    transport t = Some tr /\
    let st' := fst (ltt_trace_destroy st name) in
    snd (ltt_trace_destroy st name) = 0 /\
    setup_head st' = setup_head st /\
    head st' = delete i (head st) /\
    kernel_trace_flag st'
    = match delete i (head st) with
      | [] => false
      | _ :: _ => kernel_trace_flag st
      end /\
    num_active_traces st' = num_active_traces st /\
    trace_clock_users st' = trace_clock_users st - 1 /\
    (forall m, module_refcount st' m
               = module_refcount st m
                 - (if decide (tr_owner tr = Some m) then 1 else 0)) /\
    events st'
    = Ev_channels_trace_free (trace_name t)
        :: Ev_remove_dirs (trace_name t)
        :: channel_destroy_events t ++ Ev_synchronize_trace :: events st.
Proof.
  intros st Hf Ha.
  destruct (run_well_formed K rs) as (_ & Hact). fold st in Hact.
  pose proof (find_Some_lookup _ _ _ _ Hf) as [Hl _].
  pose proof (Forall_lookup_1 _ _ _ _ Hact Hl) as (_ & _ & Hk & [tr Htr] & _).
  exists tr. split; [exact Htr|].
  apply destroy_allocated_effect; assumption.
Qed.

(** X17: allocation followed by destruction gives everything back.  From
    any registry in which the allocation of a pending trace succeeds, the
    destruction that follows returns 0 and leaves the active list, the
    users of the trace clock and the reference count of every module as
    they were before the allocation; the trace is gone from the setup
    list, and the kernel trace flag is clear if no other trace is
    allocated. *)
Theorem ltt_trace_alloc_destroy_balanced st name env i t tr :
  _ltt_trace_find_setup st name = Some (i, t) -> transport t = Some tr ->
  pin_succeeds (tr_owner tr) (transport_live env) -> create_dirs_ret env = 0 ->
  let st1 := fst (ltt_trace_alloc K st name env) in
  let st2 := fst (ltt_trace_destroy st1 name) in
  snd (ltt_trace_destroy st1 name) = 0 /\
  setup_head st2 = delete i (setup_head st) /\
  head st2 = head st /\
  kernel_trace_flag st2
  = match head st with [] => false | _ :: _ => kernel_trace_flag st end /\
  trace_clock_users st2 = trace_clock_users st /\
  (forall m, module_refcount st2 m = module_refcount st m).
Proof.
  intros Hf Htr Hpin Hd st1 st2.
  destruct (ltt_trace_alloc_success_aux K st name env i t tr Hf Htr Hpin Hd)
    as (_ & A1 & A2 & A3 & A4 & A5 & _).
  fold st1 in A1, A2, A3, A4, A5.
  assert (Hfind : _ltt_trace_find st1 name = Some (0%nat, allocated_trace env tr t)).
  { unfold _ltt_trace_find. rewrite A2. simpl.
    apply list_find_Some in Hf as (_ & Hm & _).
    destruct (decide (name_matches name (allocated_trace env tr t)))
      as [|Hno]; [reflexivity|].
    exfalso. apply Hno. exact Hm. }
  destruct (destroy_allocated_effect st1 name 0 (allocated_trace env tr t) tr
              Hfind eq_refl eq_refl Htr)
    as (D0 & D1 & D2 & D3 & _ & D5 & D6 & _).
  fold st2 in D1, D2, D3, D5, D6.
  rewrite A2 in D2, D3. simpl in D2, D3.
  split; [exact D0|]. split; [congruence|]. split; [exact D2|].
  split; [|split; [lia|]].
  - rewrite D3. destruct (head st); [reflexivity|]. exact A3.
  - intros m. rewrite D6, A5. lia.
Qed.

(** X18: creation followed by destruction is the identity.  When the name
    is free and the allocations succeed, destroying the trace just created
    returns 0 and leaves the registry exactly as it was before the
    creation: a pending trace is discarded without any call to a
    collaborator. *)
Theorem ltt_trace_setup_destroy_identity st name env :
  ~ name_in_use st name -> allocations_succeed env ->
  ltt_trace_destroy (fst (ltt_trace_setup K st name env)) name = (st, 0).
Proof.
  intros Hfree Hok.
  destruct (setup_links K st name env Hfree Hok) as (t & E & Hn).
  apply not_in_use_None in Hfree as (_ & E2).
  rewrite E. cbn [fst]. unfold ltt_trace_destroy.
  change (_ltt_trace_find (with_setup_head (t :: setup_head st) st) name)
    with (_ltt_trace_find st name).
  rewrite E2, (find_setup_head st t name Hn).
  destruct st. reflexivity.
Qed.

End Destroy.

(** X16 on the example history followed by a stop: "t1" is destroyed and
    the registry is empty again. *)
Lemma ltt_trace_destroy_releases_witness :
  let st := run K0 ltt_init_state
              (example_started_history ++ [Req_trace_stop "t1"]) in
  snd (ltt_trace_destroy st "t1") = 0 /\
  head (fst (ltt_trace_destroy st "t1")) = [] /\
  kernel_trace_flag (fst (ltt_trace_destroy st "t1")) = false /\
  trace_clock_users (fst (ltt_trace_destroy st "t1")) = 0.
Proof.
  intros st.
  destruct (_ltt_trace_find st "t1") as [[i t]|] eqn:E;
    [|vm_compute in E; discriminate].
  destruct (ltt_trace_destroy_releases K0
              (example_started_history ++ [Req_trace_stop "t1"]) "t1" i t)
    as (tr & _ & H0 & _ & Hh & Hflag & _ & Hclock & _).
  - exact E.
  - vm_compute in E. injection E as _ <-. reflexivity.
  - fold st in H0, Hh, Hflag, Hclock.
    assert (Hd : delete i (head st) = []).
    { vm_compute in E. injection E as <- _. vm_compute. reflexivity. }
    rewrite Hd in Hh, Hflag.
    split; [exact H0|]. split; [exact Hh|]. split; [exact Hflag|].
    rewrite Hclock. vm_compute. reflexivity.
Defined.

(** X17 on the example: "t1" is allocated and destroyed at once. *)
Lemma ltt_trace_alloc_destroy_balanced_witness :
  let st1 := fst (ltt_trace_alloc K0 example_configured "t1" alloc_ok) in
  let st2 := fst (ltt_trace_destroy st1 "t1") in
  module_refcount st1 5%positive = 1 /\
  module_refcount st2 5%positive = 0 /\
  trace_clock_users st2 = 0 /\ head st2 = [] /\ setup_head st2 = [].
Proof.
  intros st1 st2.
  destruct (ltt_trace_alloc_destroy_balanced K0 example_configured "t1"
              alloc_ok 0%nat example_t1 mem_transport)
    as (_ & Hs & Hh & _ & Hc & Hm).
  - vm_compute. reflexivity.
  - reflexivity.
  - right. reflexivity.
  - reflexivity.
  - fold st1 in Hs, Hh, Hc, Hm. fold st2 in Hs, Hh, Hc, Hm.
    split; [vm_compute; reflexivity|].
    split; [rewrite Hm; vm_compute; reflexivity|].
    split; [rewrite Hc; vm_compute; reflexivity|].
    split; [rewrite Hh|rewrite Hs]; vm_compute; reflexivity.
Defined.

(** X18 from the empty registry. *)
Lemma ltt_trace_setup_destroy_identity_witness :
  ltt_trace_destroy (fst (ltt_trace_setup K0 ltt_init_state "t1" setup_ok)) "t1"
  = (ltt_init_state, 0).
Proof.
  apply (ltt_trace_setup_destroy_identity K0 ltt_init_state "t1" setup_ok).
  - intros [[x H]|[x H]]; vm_compute in H; discriminate.
  - split; reflexivity.
Defined.

(** ** Start and stop *)

Lemma set_active_same t : set_active (active t) t = t.
Proof. destruct t. reflexivity. Qed.

Lemma module_put_refcount m st m' :
  module_refcount (module_put m st) m'
  = module_refcount st m' - (if decide (m = Some m') then 1 else 0).
Proof.
  destruct m as [m|]; unfold module_put.
  - apply module_refcount_put.
  - destruct (decide (None = Some m')); [discriminate|lia].
Qed.

Lemma try_module_get_refcount m live st m' :
  pin_succeeds m live ->
  module_refcount (snd (try_module_get m live st)) m'
  = module_refcount st m' + (if decide (m = Some m') then 1 else 0).
Proof.
  intros Hpin. rewrite (try_module_get_succeeds _ _ st Hpin).
  destruct m as [m|]; cbn [snd].
  - apply module_refcount_get.
  - destruct (decide (None = Some m')); [discriminate|lia].
Qed.

(** What a successful [ltt_trace_start] leaves behind: the reference of the
    state dump module is taken and dropped again, the one of the filter
    module is kept. *)
Lemma ltt_trace_start_registry st name env i t :
  _ltt_trace_find st name = Some (i, t) -> modules_live env ->
  let st1 := fst (ltt_trace_start st name env) in
  snd (ltt_trace_start st name env) = 0 /\
  setup_head st1 = setup_head st /\
  head st1 = <[i := set_active 1 t]> (head st) /\
  kernel_trace_flag st1 = kernel_trace_flag st /\
  num_active_traces st1 = to_uint (num_active_traces st + 1) /\
  ltt_run_filter_owner st1 = ltt_run_filter_owner st /\
  forall m, module_refcount st1 m
            = module_refcount st m
              + (if decide (ltt_run_filter_owner st = Some m) then 1 else 0).
Proof.
  intros Hf (Hl1 & Hl2). unfold ltt_trace_start, _ltt_trace_start.
  rewrite Hf, Hl1, Hl2.
  destruct (ltt_run_filter_owner st) as [mf|] eqn:Hof;
    destruct (ltt_statedump_owner st) as [ms|] eqn:Hos;
    cbn; rewrite ?Hof, ?Hos; cbn; rewrite ?Hof, ?Hos; cbn;
    repeat (split; [first [reflexivity|assumption]|]);
    intros m; unfold module_refcount; cbn;
    repeat match goal with
           | |- context [<[?a := _]> _ !! ?b] =>
               destruct (decide (a = b)) as [->|];
               [rewrite !lookup_insert_eq
               |rewrite !lookup_insert_ne by assumption]; cbn
           end;
    repeat case_decide; try congruence; try lia.
Qed.

(** X19: a stop always returns 0 on a trace of the active list and always
    drops a reference of the filter module, whether or not the trace was
    active.  On a trace whose active flag is clear it changes nothing
    else: the lists, the counter of active traces and the kernel trace
    flag are as before, and no quiescence is waited for. *)
Theorem ltt_trace_stop_inactive st name i t :
  _ltt_trace_find st name = Some (i, t) -> active t = 0 ->
  ltt_trace_stop st name = (module_put (ltt_run_filter_owner st) st, 0) /\
  forall m, ltt_run_filter_owner st = Some m ->
            module_refcount (fst (ltt_trace_stop st name)) m
            = module_refcount st m - 1.
Proof.
  intros Hf Ha. unfold ltt_trace_stop, _ltt_trace_stop. rewrite Hf, Ha.
  simpl negb. cbv iota. split; [reflexivity|].
  intros m Hm. cbn [fst]. rewrite module_put_refcount.
  rewrite Hm. case_decide; [lia|congruence].
Qed.

(** X20: a start followed by a stop leaves a trace as it was.  For a trace
    of the active list whose active flag is clear, with both modules
    live, the start and the stop both return 0 and afterwards both lists,
    the kernel trace flag and the reference count of every module are as
    before the start, and the counter of active traces is back to its
    value (as an unsigned int). *)
Theorem ltt_trace_start_stop_round_trip st name env i t :
  _ltt_trace_find st name = Some (i, t) -> active t = 0 ->
  modules_live env ->
  let st1 := fst (ltt_trace_start st name env) in
  let st2 := fst (ltt_trace_stop st1 name) in
  snd (ltt_trace_start st name env) = 0 /\
  snd (ltt_trace_stop st1 name) = 0 /\
  setup_head st2 = setup_head st /\ head st2 = head st /\
  kernel_trace_flag st2 = kernel_trace_flag st /\
  num_active_traces st2 = to_uint (num_active_traces st) /\
  (forall m, module_refcount st2 m = module_refcount st m).
Proof.
  intros Hf Ha Hlive st1 st2.
  destruct (ltt_trace_start_registry st name env i t Hf Hlive)
    as (R0 & R1 & R2 & R3 & R4 & R5 & R6).
  fold st1 in R1, R2, R3, R4, R5, R6.
  assert (Hf1 : _ltt_trace_find st1 name = Some (i, set_active 1 t)).
  { unfold _ltt_trace_find. rewrite R2.
    apply (find_insert_same_name name (head st) i t); auto. }
  pose proof (find_Some_lookup _ _ _ _ Hf) as [Hlook _].
  assert (Hst2 : st2 = module_put (ltt_run_filter_owner st)
                   (synchronize_trace
                      (with_num_active_traces
                         (to_uint (num_active_traces st1 - 1))
                         (store_active i (set_active 0 (set_active 1 t)) st1)))).
  { unfold st2, ltt_trace_stop, _ltt_trace_stop. rewrite Hf1.
    cbn [active set_active Z.eqb negb fst]. simpl. rewrite R5. reflexivity. }
  split; [exact R0|].
  split; [unfold ltt_trace_stop, _ltt_trace_stop; rewrite Hf1; reflexivity|].
  rewrite Hst2.
  destruct (module_put_lists (ltt_run_filter_owner st)
    (synchronize_trace
       (with_num_active_traces (to_uint (num_active_traces st1 - 1))
          (store_active i (set_active 0 (set_active 1 t)) st1))))
    as (M1 & M2 & M3 & M4).
  rewrite M1, M2, M3, M4. cbn.
  split; [exact R1|]. split.
  { rewrite R2, list_insert_insert_eq. apply list_insert_id.
    rewrite Hlook. f_equal. rewrite <- Ha at 1. destruct t. reflexivity. }
  split; [exact R3|]. split.
  { rewrite R4. unfold to_uint. rewrite Zminus_mod_idemp_l. f_equal. lia. }
  intros m. rewrite module_put_refcount.
  change (module_refcount (synchronize_trace _) m) with (module_refcount st1 m).
  rewrite R6. lia.
Qed.

(** X19 on the example: "t1" was never started, and the stop takes a
    reference of module 7 that no start had taken. *)
Lemma ltt_trace_stop_inactive_witness :
  snd (ltt_trace_stop example_allocated "t1") = 0 /\
  module_refcount (fst (ltt_trace_stop example_allocated "t1")) 7%positive
  = -1.
Proof.
  destruct (_ltt_trace_find example_allocated "t1") as [[i t]|] eqn:E;
    [|vm_compute in E; discriminate].
  destruct (ltt_trace_stop_inactive example_allocated "t1" i t E) as [H1 H2].
  - vm_compute in E. injection E as _ <-. reflexivity.
  - split; [rewrite H1; reflexivity|].
    rewrite (H2 7%positive); [vm_compute|]; reflexivity.
Defined.

(** X20 on the example: "t1" is started and stopped. *)
Lemma ltt_trace_start_stop_round_trip_witness :
  let st1 := fst (ltt_trace_start example_allocated "t1" start_ok) in
  let st2 := fst (ltt_trace_stop st1 "t1") in
  head st2 = head example_allocated /\
  module_refcount st2 7%positive = 0 /\
  num_active_traces st2 = 0.
Proof.
  intros st1 st2.
  destruct (_ltt_trace_find example_allocated "t1") as [[i t]|] eqn:E;
    [|vm_compute in E; discriminate].
  destruct (ltt_trace_start_stop_round_trip example_allocated "t1" start_ok
              i t E) as (_ & _ & _ & Hh & _ & Hn & Hm).
  - vm_compute in E. injection E as _ <-. reflexivity.
  - split; reflexivity.
  - fold st1 in Hh, Hn, Hm. fold st2 in Hh, Hn, Hm.
    split; [exact Hh|]. split; [rewrite Hm|rewrite Hn]; vm_compute; reflexivity.
Defined.

(** ** Failures of the pins *)

Lemma pin_fails m live :
  ~ pin_succeeds m live -> exists m', m = Some m' /\ live = false.
Proof.
  unfold pin_succeeds. intros H. destruct m as [m'|]; [|tauto].
  destruct live; [tauto|eauto].
Qed.

(** X21: what a start that cannot pin a module leaves behind.  When the
    filter module cannot be pinned, ltt_trace_start returns -ENODEV and
    changes nothing.  When the filter module is pinned and the state dump
    module cannot be, it returns -ENODEV as well, but the trace is
    started: its active flag is set, the counter of active traces is
    incremented and the reference taken on the filter module is kept. *)
Theorem ltt_trace_start_pin_failures st name env i t :
  _ltt_trace_find st name = Some (i, t) ->
  (~ pin_succeeds (ltt_run_filter_owner st) (run_filter_live env) ->
   ltt_trace_start st name env = (st, - ENODEV)) /\
  (pin_succeeds (ltt_run_filter_owner st) (run_filter_live env) ->
   ~ pin_succeeds (ltt_statedump_owner st) (statedump_live env) ->
   let st1 := fst (ltt_trace_start st name env) in
   snd (ltt_trace_start st name env) = - ENODEV /\
   setup_head st1 = setup_head st /\
   head st1 = <[i := set_active 1 t]> (head st) /\
   num_active_traces st1 = to_uint (num_active_traces st + 1) /\
   forall m, module_refcount st1 m
             = module_refcount st m
               + (if decide (ltt_run_filter_owner st = Some m) then 1 else 0)).
Proof.
  intros Hf. split.
  - intros Hno. apply pin_fails in Hno as (m & Hm & Hl).
    unfold ltt_trace_start, _ltt_trace_start. rewrite Hf, Hm, Hl. reflexivity.
  - intros Hpin Hno st1. apply pin_fails in Hno as (ms & Hms & Hl).
    destruct (_ltt_trace_start_effect st i t env Hpin)
      as (R0 & R1 & R2 & R3 & R4 & R5).
    assert (R6 : ltt_statedump_owner (fst (_ltt_trace_start st (Some (i, t)) env))
                 = Some ms).
    { rewrite <- Hms. unfold _ltt_trace_start.
      rewrite (try_module_get_succeeds _ _ st Hpin).
      destruct (ltt_run_filter_owner st); reflexivity. }
    assert (R7 : forall m, ltt_run_filter_owner st <> Some m ->
                  module_refcount (fst (_ltt_trace_start st (Some (i, t)) env)) m
                  = module_refcount st m).
    { intros m Hne. unfold _ltt_trace_start.
      rewrite (try_module_get_succeeds _ _ st Hpin).
      destruct (ltt_run_filter_owner st) as [mf|]; [|reflexivity].
      cbn. unfold module_refcount at 1. cbn.
      rewrite lookup_insert_ne by congruence. reflexivity. }
    assert (E : ltt_trace_start st name env
                = (emit (Ev_dump_marker_state (trace_name t))
                     (fst (_ltt_trace_start st (Some (i, t)) env)), - ENODEV)).
    { unfold ltt_trace_start. rewrite Hf.
      destruct (_ltt_trace_start st (Some (i, t)) env) as [s e].
      cbn [fst snd] in *. subst e. cbn [Z.eqb negb from_option snd].
      change (ltt_statedump_owner (emit (Ev_dump_marker_state (trace_name t)) s))
        with (ltt_statedump_owner s).
      rewrite R6, Hl. reflexivity. }
    subst st1. rewrite E. cbn [fst snd].
    split; [reflexivity|]. split; [exact R1|]. split; [exact R2|].
    split; [exact R3|].
    intros m.
    change (module_refcount (emit _ ?s) m) with (module_refcount s m).
    case_decide as Hd.
    + apply R5, Hd.
    + rewrite (R7 m Hd). lia.
Qed.

(** X21 on the example, with the state dump module unloading: the start
    fails and "t1" is active. *)
Lemma ltt_trace_start_pin_failures_witness :
  let r := ltt_trace_start example_allocated "t1" (mk_start_env true false) in
  snd r = - ENODEV /\ map active (head (fst r)) = [1] /\
  num_active_traces (fst r) = 1 /\
  module_refcount (fst r) 7%positive = 1.
Proof.
  intros r.
  destruct (_ltt_trace_find example_allocated "t1") as [[i t]|] eqn:E;
    [|vm_compute in E; discriminate].
  destruct (proj2 (ltt_trace_start_pin_failures example_allocated "t1"
                     (mk_start_env true false) i t E))
    as (H0 & _ & Hh & Hn & Hm).
  - right. reflexivity.
  - intros [H|H]; vm_compute in H; discriminate.
  - fold r in H0, Hh, Hn, Hm.
    split; [exact H0|]. split; [|split].
    + rewrite Hh. vm_compute in E. injection E as <- <-. vm_compute. reflexivity.
    + rewrite Hn. vm_compute. reflexivity.
    + rewrite Hm. vm_compute. reflexivity.
Defined.

(** ** Filter control *)

(** X22: ltt_filter_control changes nothing it does not give back: both
    lists and the reference count of every module are the same after
    every call.  It returns -ENOENT when no trace of the active list has
    the name, -ENODEV when the filter control module cannot be pinned,
    -EPERM without calling the callback for a message other than the two
    defaults, and what the callback returns otherwise. *)
Theorem ltt_filter_control_balanced st msg name control_live functor_ret :
  let r := ltt_filter_control st msg name control_live functor_ret in
  (setup_head (fst r) = setup_head st /\ head (fst r) = head st /\
   forall m, module_refcount (fst r) m = module_refcount st m) /\
  (_ltt_trace_find st name = None -> r = (st, - ENOENT)) /\
  (is_Some (_ltt_trace_find st name) ->
   (~ pin_succeeds (ltt_filter_control_owner st) control_live ->
    r = (st, - ENODEV)) /\
   (pin_succeeds (ltt_filter_control_owner st) control_live ->
    match msg with
    | LTT_FILTER_other _ => snd r = - EPERM /\ events (fst r) = events st
    | _ =>
        snd r = functor_ret /\
        exists t, snd <$> _ltt_trace_find st name = Some t /\
          events (fst r) = Ev_filter_control msg (trace_name t) :: events st
    end)).
Proof.
  intros r. subst r. unfold ltt_filter_control.
  destruct (_ltt_trace_find st name) as [[i t]|] eqn:Hf.
  2:{ split; [auto|]. split; [reflexivity|]. intros [x Hx]. discriminate. }
  destruct (ltt_filter_control_owner st) as [mo|] eqn:Ho;
    [destruct control_live|].
  - split; [|split; [discriminate|intros _; split]].
    + destruct msg; cbn; rewrite ?Ho; cbn; (split; [reflexivity|]);
        (split; [reflexivity|]); intros m; unfold module_refcount; cbn;
        (destruct (decide (mo = m)) as [->|];
         [rewrite !lookup_insert_eq
         |rewrite !lookup_insert_ne by assumption]); cbn;
        unfold module_refcount; try lia; reflexivity.
    + intros Hno. exfalso. apply Hno. right. reflexivity.
    + intros _. destruct msg; cbn; rewrite ?Ho; cbn;
        (split; [reflexivity|]); try reflexivity; eauto.
  - split; [auto|]. split; [discriminate|]. intros _. split; [reflexivity|].
    intros [H|H]; discriminate.
  - split; [|split; [discriminate|intros _; split]].
    + destruct msg; cbn; rewrite ?Ho; cbn; auto.
    + intros Hno. exfalso. apply Hno. left. reflexivity.
    + intros _. destruct msg; cbn; rewrite ?Ho; cbn;
        (split; [reflexivity|]); try reflexivity; eauto.
Qed.

(** X22 on the example: a default-accept request answered with 5, and a
    request while module 8 is unloading. *)
Lemma ltt_filter_control_balanced_witness :
  snd (ltt_filter_control example_allocated LTT_FILTER_DEFAULT_ACCEPT "t1"
         true 5) = 5 /\
  module_refcount
    (fst (ltt_filter_control example_allocated LTT_FILTER_DEFAULT_ACCEPT "t1"
            true 5)) 8%positive = 0 /\
  ltt_filter_control example_allocated LTT_FILTER_DEFAULT_ACCEPT "t1" false 5
  = (example_allocated, - ENODEV).
Proof.
  destruct (ltt_filter_control_balanced example_allocated
              LTT_FILTER_DEFAULT_ACCEPT "t1" true 5)
    as ((_ & _ & Hm) & _ & Hfound).
  destruct (ltt_filter_control_balanced example_allocated
              LTT_FILTER_DEFAULT_ACCEPT "t1" false 5)
    as (_ & _ & Hfound').
  split; [|split].
  - apply Hfound; [vm_compute; eauto|right; reflexivity].
  - rewrite Hm. vm_compute. reflexivity.
  - apply Hfound'; [vm_compute; eauto|].
    intros [H|H]; vm_compute in H; discriminate.
Defined.

(** ** The control entry point *)

Section Create.

Variable K : kernel_config.

(** X23: ltt_trace_create does not undo what it did.  When the name is
    free and the allocations succeed but no transport of the requested
    type is registered, it returns -EINVAL and leaves the trace it created
    in the setup list; from then on the name is taken, and every further
    ltt_trace_create for it returns -EEXIST and changes nothing, whatever
    the type asked for. *)
Theorem ltt_trace_create_not_undone st name trace_type senv aenv :
  ~ name_in_use st name -> allocations_succeed senv ->
  find_transport st trace_type = None ->
  let r := ltt_trace_create K st name trace_type senv aenv in
  snd r = - EINVAL /\
  fst r = fst (ltt_trace_setup K st name senv) /\
  is_Some (_ltt_trace_find_setup (fst r) name) /\
  forall ty senv' aenv',
    ltt_trace_create K (fst r) name ty senv' aenv' = (fst r, - EEXIST).
Proof.
  intros Hfree Hok Hty r.
  destruct (setup_links K st name senv Hfree Hok) as (t & E & Hn).
  assert (Er : r = (with_setup_head (t :: setup_head st) st, - EINVAL)).
  { unfold r, ltt_trace_create. rewrite E.
    change (IS_ERR_VALUE 0) with false. cbv iota.
    unfold ltt_trace_set_type. rewrite (find_setup_head st t name Hn).
    unfold find_transport in Hty.
    change (ltt_transport_list (with_setup_head (t :: setup_head st) st))
      with (ltt_transport_list st).
    rewrite Hty. reflexivity. }
  rewrite Er, E. cbn [fst snd].
  split; [reflexivity|]. split; [reflexivity|].
  split; [rewrite (find_setup_head st t name Hn); eauto|].
  intros ty senv' aenv'. unfold ltt_trace_create.
  rewrite setup_in_use; [reflexivity|].
  left. rewrite (find_setup_head st t name Hn). eauto.
Qed.

(** X24: ltt_control adds no transition of its own.  After every history
    of calls, whatever the message, the registry it leaves still has
    pairwise distinct names, traces of the right shape in each list and a
    kernel trace flag that is raised exactly when the active list is not
    empty; and a message other than the four known ones returns -EPERM
    and changes nothing. *)
Theorem ltt_control_keeps_registry rs msg name trace_type senv aenv tenv :
  let st := run K ltt_init_state rs in
  let r := ltt_control K st msg name trace_type senv aenv tenv in
  names_unique (fst r) /\ well_formed K (fst r) /\
  kernel_flag_consistent (fst r) /\
  forall v, msg = LTT_CONTROL_other v -> r = (st, - EPERM).
Proof.
  intros st r.
  destruct (ltt_control_history K st msg name trace_type senv aenv tenv)
    as [rs' E].
  fold r in E. unfold st in E. rewrite <- run_app in E. rewrite E.
  split; [apply run_names_unique|]. split; [apply run_well_formed|].
  split; [apply run_flag_consistent|].
  intros v ->. reflexivity.
Qed.

End Create.

(** X23 on the example registry: "t2" is asked for on the transport
    "net", which is not registered, and then on "mem", which is. *)
Lemma ltt_trace_create_not_undone_witness :
  let r := ltt_trace_create K0 example_pending "t2" "net" setup_ok alloc_ok in
  snd r = - EINVAL /\
  map trace_name (setup_head (fst r)) = ["t2"; "t1"]%string /\
  ltt_trace_create K0 (fst r) "t2" "mem" setup_ok alloc_ok
  = (fst r, - EEXIST).
Proof.
  intros r.
  destruct (ltt_trace_create_not_undone K0 example_pending "t2" "net"
              setup_ok alloc_ok) as (H0 & H1 & _ & H3).
  - intros [[x H]|[x H]]; vm_compute in H; discriminate.
  - split; reflexivity.
  - vm_compute. reflexivity.
  - fold r in H0, H1, H3. split; [exact H0|]. split; [|apply H3].
    rewrite H1. vm_compute. reflexivity.
Defined.

(** X24 on the example: an unknown message. *)
Lemma ltt_control_keeps_registry_witness :
  ltt_control K0 example_allocated (LTT_CONTROL_other 9) "t1" "mem" setup_ok
    alloc_ok start_ok
  = (example_allocated, - EPERM).
Proof.
  destruct (ltt_control_keeps_registry K0 example_allocated_history
              (LTT_CONTROL_other 9) "t1" "mem" setup_ok alloc_ok start_ok)
    as (_ & _ & _ & H).
  exact (H 9 eq_refl).
Defined.

(** ** Module exit *)



(** [_ltt_trace_stop] on the node at position [i]. *)
Lemma _ltt_trace_stop_node st i t :
  head st !! i = Some t ->
  let st' := fst (_ltt_trace_stop st (Some (i, t))) in
  setup_head st' = setup_head st /\
  head st' = <[i := set_active 0 t]> (head st) /\
  kernel_trace_flag st' = kernel_trace_flag st /\
  trace_clock_users st' = trace_clock_users st.
Proof.
  intros Hl st'. subst st'. unfold _ltt_trace_stop. cbn [fst].
  destruct (active t =? 0) eqn:Ha; cbn [negb].
  - apply Z.eqb_eq in Ha.
    assert (E : <[i := set_active 0 t]> (head st) = head st).
    { apply list_insert_id. rewrite Hl, <- Ha. f_equal.
      symmetry. apply set_active_same. }
    rewrite E. destruct (ltt_run_filter_owner st); cbn; auto.
  - destruct (ltt_run_filter_owner st) eqn:Ho; cbn; rewrite ?Ho; cbn; auto.
Qed.

Lemma exit_stop_loop n : forall k st,
  (k + n = length (head st))%nat ->
  let st' :=
    foldl
      (fun st i =>
         match head st !! i with
         | Some trace => fst (_ltt_trace_stop st (Some (i, trace)))
         | None => st
         end)
      st (seq k n) in
  setup_head st' = setup_head st /\
  head st' = take k (head st) ++ map (set_active 0) (drop k (head st)) /\
  kernel_trace_flag st' = kernel_trace_flag st /\
  trace_clock_users st' = trace_clock_users st.
Proof.
  induction n as [|n IH]; intros k st Hlen.
  - cbn. rewrite take_ge, drop_ge by lia. rewrite app_nil_r. auto.
  - cbn [seq foldl].
    destruct (lookup_lt_is_Some_2 (head st) k) as [t Ht]; [lia|].
    rewrite Ht.
    destruct (_ltt_trace_stop_node st k t Ht) as (S1 & S2 & S3 & S4).
    specialize (IH (S k) (fst (_ltt_trace_stop st (Some (k, t))))).
    rewrite S2, length_insert in IH. specialize (IH ltac:(lia)).
    destruct IH as (I1 & I2 & I3 & I4).
    cbv zeta. rewrite I1, I2, I3, I4, S1, S3, S4.
    repeat split.
    rewrite (take_S_r _ _ (set_active 0 t))
      by (apply list_lookup_insert_eq; lia).
    rewrite take_insert_ge, drop_insert_lt by lia.
    rewrite (drop_S _ _ _ Ht). cbn [map]. rewrite <- app_assoc. reflexivity.
Qed.

Lemma exit_stop_all_effect st :
  setup_head (exit_stop_all st) = setup_head st /\
  head (exit_stop_all st) = map (set_active 0) (head st) /\
  kernel_trace_flag (exit_stop_all st) = kernel_trace_flag st /\
  trace_clock_users (exit_stop_all st) = trace_clock_users st.
Proof. apply (exit_stop_loop (length (head st)) 0 st). reflexivity. Qed.

Lemma __ltt_trace_destroy_clock st t :
  trace_clock_users (__ltt_trace_destroy st t) = trace_clock_users st.
Proof.
  unfold __ltt_trace_destroy. rewrite channel_destroy_fold.
  destruct (kref t - 1 =? 0); [|reflexivity].
  unfold ltt_release_trace.
  destruct (transport t) as [tr|]; [|reflexivity].
  destruct (tr_owner tr); reflexivity.
Qed.

Lemma exit_destroy_all_effect fuel : forall st,
  Forall (fun t => active t = 0) (head st) ->
  (length (head st) <= fuel)%nat ->
  let st' := exit_destroy_all fuel 0 st in
  setup_head st' = setup_head st /\ head st' = [] /\
  trace_clock_users st' = trace_clock_users st /\
  (head st <> [] -> kernel_trace_flag st' = false) /\
  (head st = [] -> st' = st).
Proof.
  induction fuel as [|fuel IH]; intros st Hall Hlen.
  - destruct (head st) eqn:Hh; [|simpl in Hlen; lia].
    cbn. rewrite Hh. repeat split; auto. congruence.
  - cbn [exit_destroy_all].
    destruct (head st) as [|t rest] eqn:Hh.
    { cbn. repeat split; auto. congruence. }
    cbn [lookup list_lookup]. 
    apply Forall_cons in Hall as [Ha Hrest].
    unfold _ltt_trace_destroy. rewrite Ha. cbn [Z.eqb negb].
    cbn [head synchronize_trace emit with_events with_head].
    rewrite Hh. cbn [delete list_delete].
    destruct rest as [|u rest].
    + cbn [snd fst Z.eqb].
      match goal with
      | |- context [__ltt_trace_destroy ?s t] =>
          destruct (__ltt_trace_destroy_lists s t) as (D1 & D2 & D3 & _);
          pose proof (__ltt_trace_destroy_clock s t) as D4;
          destruct (IH (__ltt_trace_destroy s t)) as (I1 & I2 & I3 & _ & I5);
          [rewrite D2; apply Forall_nil_2|rewrite D2; cbn; lia|]
      end.
      cbv zeta. rewrite I5 by (rewrite D2; reflexivity).
      rewrite D1, D2, D3, D4. repeat split; auto. discriminate.
    + cbn [snd fst Z.eqb].
      match goal with
      | |- context [__ltt_trace_destroy ?s t] =>
          destruct (__ltt_trace_destroy_lists s t) as (D1 & D2 & D3 & _);
          pose proof (__ltt_trace_destroy_clock s t) as D4;
          destruct (IH (__ltt_trace_destroy s t)) as (I1 & I2 & I3 & I4 & _);
          [rewrite D2; exact Hrest|rewrite D2; cbn in *; lia|]
      end.
      cbv zeta. rewrite I1, I2, I3, I4, D1, D4 by (rewrite D2; discriminate).
      repeat split; auto. discriminate.
Qed.

Lemma exit_free_loop (l : list nat) : forall st,
  (length (setup_head st) <= length l)%nat ->
  let st' := foldl (fun st _ => _ltt_trace_free st 0) st l in
  setup_head st' = [] /\ head st' = head st /\
  kernel_trace_flag st' = kernel_trace_flag st /\
  trace_clock_users st' = trace_clock_users st.
Proof.
  induction l as [|x l IH]; intros st Hlen.
  - destruct (setup_head st) eqn:Hs; [|simpl in Hlen; lia]. cbn. auto.
  - cbn [foldl].
    destruct (IH (_ltt_trace_free st 0)) as (I1 & I2 & I3 & I4).
    { unfold _ltt_trace_free. cbn.
      destruct (setup_head st); cbn in *; lia. }
    cbv zeta. rewrite I1, I2, I3, I4. auto.
Qed.

(** X25: ltt_exit empties the registry.  Whatever the state, both lists
    are empty afterwards: every trace of the active list is stopped first,
    so none is refused as busy.  The kernel trace flag is cleared if the
    active list was not empty and untouched otherwise.  Unlike
    ltt_trace_destroy, ltt_exit gives no user of the trace clock back. *)
Theorem ltt_exit_empties st :
  setup_head (ltt_exit st) = [] /\ head (ltt_exit st) = [] /\
  (head st <> [] -> kernel_trace_flag (ltt_exit st) = false) /\
  (head st = [] -> kernel_trace_flag (ltt_exit st) = kernel_trace_flag st) /\
  trace_clock_users (ltt_exit st) = trace_clock_users st.
Proof.
  unfold ltt_exit, exit_free_all.
  destruct (exit_stop_all_effect st) as (S1 & S2 & S3 & S4).
  set (st1 := synchronize_trace (exit_stop_all st)).
  assert (H1 : head st1 = map (set_active 0) (head st)) by exact S2.
  destruct (exit_destroy_all_effect (length (head st1)) st1)
    as (D1 & D2 & D3 & D4 & D5).
  { rewrite H1. apply Forall_forall. intros t Hin.
    apply list_elem_of_fmap in Hin as (u & -> & _). reflexivity. }
  { lia. }
  set (st2 := exit_destroy_all (length (head st1)) 0 st1) in *.
  destruct (exit_free_loop (seq 0 (length (setup_head st2))) st2)
    as (F1 & F2 & F3 & F4); [rewrite length_seq; lia|].
  cbv zeta in F1, F2, F3, F4. cbv zeta. rewrite F1, F2, F3, F4.
  split; [reflexivity|]. split; [exact D2|]. split; [|split].
  - intros Hne. apply D4. rewrite H1. destruct (head st); [congruence|discriminate].
  - intros He. rewrite D5 by (rewrite H1, He; reflexivity). exact S3.
  - rewrite D3. exact S4.
Qed.

(** X25 on the example history: the started trace "t1" is removed, and
    the user of the trace clock it took stays. *)
Lemma ltt_exit_empties_witness :
  let st := run K0 ltt_init_state example_started_history in
  sessions (ltt_exit st) = [] /\ kernel_trace_flag (ltt_exit st) = false /\
  trace_clock_users (ltt_exit st) = 1.
Proof.
  intros st.
  destruct (ltt_exit_empties st) as (Hs & Hh & Hf & _ & Hc).
  unfold sessions. rewrite Hs, Hh. split; [reflexivity|].
  split; [apply Hf; vm_compute; discriminate|].
  rewrite Hc. vm_compute. reflexivity.
Defined.
